(** * Prompt-generator bot: section documents, LLM adapter, sessions, dialogue

    A shallow embedding of [utils.py], [llm_client.py], [session_manager.py]
    and the message handlers of [main.py].

    Python [str] values are sequences of Unicode code points; they are
    modelled as [list N].  The character tables of the interpreter
    ([str.isspace], [str.isdigit], [str.upper], [str.lower]) are those of
    CPython 3.11 (Unicode 14.0), written out in full: [str.upper] maps each
    code point to its full uppercase, [str.lower] does the same with the
    lowercase except for the capital sigma, whose image depends on the
    code points around it. *)

From Stdlib Require Import NArith ZArith List Bool Ascii String Lia.
From stdpp Require Import base gmap.
Import ListNotations.

Local Open Scope N_scope.
Local Open Scope list_scope.

(** ** Python strings *)

Module PyStr.

Definition char := N.
Definition str := list char.

(** An ASCII literal of the source, as code points. *)
Definition py (s : string) : str := List.map N_of_ascii (list_ascii_of_string s).

Definition NL : char := 10.
Definition HASH : char := 35.
Definition DASH : char := 45.
Definition DOT : char := 46.
Definition QMARK : char := 63.
Definition LBRACE : char := 123.
Definition RBRACE : char := 125.

Fixpoint str_eqb (a b : str) : bool :=
  match a, b with
  | [], [] => true
  | x :: a', y :: b' => (x =? y) && str_eqb a' b'
  | _, _ => false
  end.

(** [str.isspace] for one code point. *)
Definition isspace (c : char) : bool :=
  ((9 <=? c) && (c <=? 13)) || ((28 <=? c) && (c <=? 32))
  || (c =? 133) || (c =? 160) || (c =? 5760)
  || ((8192 <=? c) && (c <=? 8202))
  || (c =? 8232) || (c =? 8233) || (c =? 8239) || (c =? 8287) || (c =? 12288).

(** *** The character tables *)

(** The code points [c] with [chr(c).isdigit()]. *)
Definition digit_ranges : list (N * N) :=
  [(48, 57); (178, 179); (185, 185); (1632, 1641); (1776, 1785); (1984, 1993);
   (2406, 2415); (2534, 2543); (2662, 2671); (2790, 2799); (2918, 2927);
   (3046, 3055); (3174, 3183); (3302, 3311); (3430, 3439); (3558, 3567);
   (3664, 3673); (3792, 3801); (3872, 3881); (4160, 4169); (4240, 4249);
   (4969, 4977); (6112, 6121); (6160, 6169); (6470, 6479); (6608, 6618);
   (6784, 6793); (6800, 6809); (6992, 7001); (7088, 7097); (7232, 7241);
   (7248, 7257); (8304, 8304); (8308, 8313); (8320, 8329); (9312, 9320);
   (9332, 9340); (9352, 9360); (9450, 9450); (9461, 9469); (9471, 9471);
   (10102, 10110); (10112, 10120); (10122, 10130); (42528, 42537);
   (43216, 43225); (43264, 43273); (43472, 43481); (43504, 43513);
   (43600, 43609); (44016, 44025); (65296, 65305); (66720, 66729);
   (68160, 68163); (68912, 68921); (69216, 69224); (69714, 69722);
   (69734, 69743); (69872, 69881); (69942, 69951); (70096, 70105);
   (70384, 70393); (70736, 70745); (70864, 70873); (71248, 71257);
   (71360, 71369); (71472, 71481); (71904, 71913); (72016, 72025);
   (72784, 72793); (73040, 73049); (73120, 73129); (92768, 92777);
   (92864, 92873); (93008, 93017); (120782, 120831); (123200, 123209);
   (123632, 123641); (125264, 125273); (127232, 127242); (130032, 130041)].

(** Code points with a one-character uppercase, as [(lo, hi, step, to)]: the
    code points from [lo] to [hi] in steps of [step]; [lo] maps to [to],
    [lo + step] to [to + step], and so on. *)
Definition upper_runs : list (N * N * N * N) :=
  [(97, 122, 1, 65); (181, 181, 1, 924); (224, 246, 1, 192);
   (248, 254, 1, 216); (255, 255, 1, 376); (257, 303, 2, 256);
   (305, 305, 1, 73); (307, 311, 2, 306); (314, 328, 2, 313);
   (331, 375, 2, 330); (378, 382, 2, 377); (383, 383, 1, 83);
   (384, 384, 1, 579); (387, 389, 2, 386); (392, 392, 1, 391);
   (396, 396, 1, 395); (402, 402, 1, 401); (405, 405, 1, 502);
   (409, 409, 1, 408); (410, 410, 1, 573); (414, 414, 1, 544);
   (417, 421, 2, 416); (424, 424, 1, 423); (429, 429, 1, 428);
   (432, 432, 1, 431); (436, 438, 2, 435); (441, 441, 1, 440);
   (445, 445, 1, 444); (447, 447, 1, 503); (453, 453, 1, 452);
   (454, 454, 1, 452); (456, 456, 1, 455); (457, 457, 1, 455);
   (459, 459, 1, 458); (460, 460, 1, 458); (462, 476, 2, 461);
   (477, 477, 1, 398); (479, 495, 2, 478); (498, 498, 1, 497);
   (499, 499, 1, 497); (501, 501, 1, 500); (505, 543, 2, 504);
   (547, 563, 2, 546); (572, 572, 1, 571); (575, 576, 1, 11390);
   (578, 578, 1, 577); (583, 591, 2, 582); (592, 592, 1, 11375);
   (593, 593, 1, 11373); (594, 594, 1, 11376); (595, 595, 1, 385);
   (596, 596, 1, 390); (598, 599, 1, 393); (601, 601, 1, 399);
   (603, 603, 1, 400); (604, 604, 1, 42923); (608, 608, 1, 403);
   (609, 609, 1, 42924); (611, 611, 1, 404); (613, 613, 1, 42893);
   (614, 614, 1, 42922); (616, 616, 1, 407); (617, 617, 1, 406);
   (618, 618, 1, 42926); (619, 619, 1, 11362); (620, 620, 1, 42925);
   (623, 623, 1, 412); (625, 625, 1, 11374); (626, 626, 1, 413);
   (629, 629, 1, 415); (637, 637, 1, 11364); (640, 640, 1, 422);
   (642, 642, 1, 42949); (643, 643, 1, 425); (647, 647, 1, 42929);
   (648, 648, 1, 430); (649, 649, 1, 580); (650, 651, 1, 433);
   (652, 652, 1, 581); (658, 658, 1, 439); (669, 669, 1, 42930);
   (670, 670, 1, 42928); (837, 837, 1, 921); (881, 883, 2, 880);
   (887, 887, 1, 886); (891, 893, 1, 1021); (940, 940, 1, 902);
   (941, 943, 1, 904); (945, 961, 1, 913); (962, 962, 1, 931);
   (963, 971, 1, 931); (972, 972, 1, 908); (973, 974, 1, 910);
   (976, 976, 1, 914); (977, 977, 1, 920); (981, 981, 1, 934);
   (982, 982, 1, 928); (983, 983, 1, 975); (985, 1007, 2, 984);
   (1008, 1008, 1, 922); (1009, 1009, 1, 929); (1010, 1010, 1, 1017);
   (1011, 1011, 1, 895); (1013, 1013, 1, 917); (1016, 1016, 1, 1015);
   (1019, 1019, 1, 1018); (1072, 1103, 1, 1040); (1104, 1119, 1, 1024);
   (1121, 1153, 2, 1120); (1163, 1215, 2, 1162); (1218, 1230, 2, 1217);
   (1231, 1231, 1, 1216); (1233, 1327, 2, 1232); (1377, 1414, 1, 1329);
   (4304, 4346, 1, 7312); (4349, 4351, 1, 7357); (5112, 5117, 1, 5104);
   (7296, 7296, 1, 1042); (7297, 7297, 1, 1044); (7298, 7298, 1, 1054);
   (7299, 7300, 1, 1057); (7301, 7301, 1, 1058); (7302, 7302, 1, 1066);
   (7303, 7303, 1, 1122); (7304, 7304, 1, 42570); (7545, 7545, 1, 42877);
   (7549, 7549, 1, 11363); (7566, 7566, 1, 42950); (7681, 7829, 2, 7680);
   (7835, 7835, 1, 7776); (7841, 7935, 2, 7840); (7936, 7943, 1, 7944);
   (7952, 7957, 1, 7960); (7968, 7975, 1, 7976); (7984, 7991, 1, 7992);
   (8000, 8005, 1, 8008); (8017, 8023, 2, 8025); (8032, 8039, 1, 8040);
   (8048, 8049, 1, 8122); (8050, 8053, 1, 8136); (8054, 8055, 1, 8154);
   (8056, 8057, 1, 8184); (8058, 8059, 1, 8170); (8060, 8061, 1, 8186);
   (8112, 8113, 1, 8120); (8126, 8126, 1, 921); (8144, 8145, 1, 8152);
   (8160, 8161, 1, 8168); (8165, 8165, 1, 8172); (8526, 8526, 1, 8498);
   (8560, 8575, 1, 8544); (8580, 8580, 1, 8579); (9424, 9449, 1, 9398);
   (11312, 11359, 1, 11264); (11361, 11361, 1, 11360); (11365, 11365, 1, 570);
   (11366, 11366, 1, 574); (11368, 11372, 2, 11367); (11379, 11379, 1, 11378);
   (11382, 11382, 1, 11381); (11393, 11491, 2, 11392);
   (11500, 11502, 2, 11499); (11507, 11507, 1, 11506);
   (11520, 11557, 1, 4256); (11559, 11559, 1, 4295); (11565, 11565, 1, 4301);
   (42561, 42605, 2, 42560); (42625, 42651, 2, 42624);
   (42787, 42799, 2, 42786); (42803, 42863, 2, 42802);
   (42874, 42876, 2, 42873); (42879, 42887, 2, 42878);
   (42892, 42892, 1, 42891); (42897, 42899, 2, 42896);
   (42900, 42900, 1, 42948); (42903, 42921, 2, 42902);
   (42933, 42947, 2, 42932); (42952, 42954, 2, 42951);
   (42961, 42961, 1, 42960); (42967, 42969, 2, 42966);
   (42998, 42998, 1, 42997); (43859, 43859, 1, 42931);
   (43888, 43967, 1, 5024); (65345, 65370, 1, 65313);
   (66600, 66639, 1, 66560); (66776, 66811, 1, 66736);
   (66967, 66977, 1, 66928); (66979, 66993, 1, 66940);
   (66995, 67001, 1, 66956); (67003, 67004, 1, 66964);
   (68800, 68850, 1, 68736); (71872, 71903, 1, 71840);
   (93792, 93823, 1, 93760); (125218, 125251, 1, 125184)].

(** Code points whose uppercase has several characters. *)
Definition upper_special : list (N * list N) :=
  [(223, [83; 83]); (329, [700; 78]); (496, [74; 780]);
   (912, [921; 776; 769]); (944, [933; 776; 769]); (1415, [1333; 1362]);
   (7830, [72; 817]); (7831, [84; 776]); (7832, [87; 778]); (7833, [89; 778]);
   (7834, [65; 702]); (8016, [933; 787]); (8018, [933; 787; 768]);
   (8020, [933; 787; 769]); (8022, [933; 787; 834]); (8064, [7944; 921]);
   (8065, [7945; 921]); (8066, [7946; 921]); (8067, [7947; 921]);
   (8068, [7948; 921]); (8069, [7949; 921]); (8070, [7950; 921]);
   (8071, [7951; 921]); (8072, [7944; 921]); (8073, [7945; 921]);
   (8074, [7946; 921]); (8075, [7947; 921]); (8076, [7948; 921]);
   (8077, [7949; 921]); (8078, [7950; 921]); (8079, [7951; 921]);
   (8080, [7976; 921]); (8081, [7977; 921]); (8082, [7978; 921]);
   (8083, [7979; 921]); (8084, [7980; 921]); (8085, [7981; 921]);
   (8086, [7982; 921]); (8087, [7983; 921]); (8088, [7976; 921]);
   (8089, [7977; 921]); (8090, [7978; 921]); (8091, [7979; 921]);
   (8092, [7980; 921]); (8093, [7981; 921]); (8094, [7982; 921]);
   (8095, [7983; 921]); (8096, [8040; 921]); (8097, [8041; 921]);
   (8098, [8042; 921]); (8099, [8043; 921]); (8100, [8044; 921]);
   (8101, [8045; 921]); (8102, [8046; 921]); (8103, [8047; 921]);
   (8104, [8040; 921]); (8105, [8041; 921]); (8106, [8042; 921]);
   (8107, [8043; 921]); (8108, [8044; 921]); (8109, [8045; 921]);
   (8110, [8046; 921]); (8111, [8047; 921]); (8114, [8122; 921]);
   (8115, [913; 921]); (8116, [902; 921]); (8118, [913; 834]);
   (8119, [913; 834; 921]); (8124, [913; 921]); (8130, [8138; 921]);
   (8131, [919; 921]); (8132, [905; 921]); (8134, [919; 834]);
   (8135, [919; 834; 921]); (8140, [919; 921]); (8146, [921; 776; 768]);
   (8147, [921; 776; 769]); (8150, [921; 834]); (8151, [921; 776; 834]);
   (8162, [933; 776; 768]); (8163, [933; 776; 769]); (8164, [929; 787]);
   (8166, [933; 834]); (8167, [933; 776; 834]); (8178, [8186; 921]);
   (8179, [937; 921]); (8180, [911; 921]); (8182, [937; 834]);
   (8183, [937; 834; 921]); (8188, [937; 921]); (64256, [70; 70]);
   (64257, [70; 73]); (64258, [70; 76]); (64259, [70; 70; 73]);
   (64260, [70; 70; 76]); (64261, [83; 84]); (64262, [83; 84]);
   (64275, [1348; 1350]); (64276, [1348; 1333]); (64277, [1348; 1339]);
   (64278, [1358; 1350]); (64279, [1348; 1341])].

(** Code points with a one-character lowercase, in the same format. *)
Definition lower_runs : list (N * N * N * N) :=
  [(65, 90, 1, 97); (192, 214, 1, 224); (216, 222, 1, 248);
   (256, 302, 2, 257); (306, 310, 2, 307); (313, 327, 2, 314);
   (330, 374, 2, 331); (376, 376, 1, 255); (377, 381, 2, 378);
   (385, 385, 1, 595); (386, 388, 2, 387); (390, 390, 1, 596);
   (391, 391, 1, 392); (393, 394, 1, 598); (395, 395, 1, 396);
   (398, 398, 1, 477); (399, 399, 1, 601); (400, 400, 1, 603);
   (401, 401, 1, 402); (403, 403, 1, 608); (404, 404, 1, 611);
   (406, 406, 1, 617); (407, 407, 1, 616); (408, 408, 1, 409);
   (412, 412, 1, 623); (413, 413, 1, 626); (415, 415, 1, 629);
   (416, 420, 2, 417); (422, 422, 1, 640); (423, 423, 1, 424);
   (425, 425, 1, 643); (428, 428, 1, 429); (430, 430, 1, 648);
   (431, 431, 1, 432); (433, 434, 1, 650); (435, 437, 2, 436);
   (439, 439, 1, 658); (440, 440, 1, 441); (444, 444, 1, 445);
   (452, 452, 1, 454); (453, 453, 1, 454); (455, 455, 1, 457);
   (456, 456, 1, 457); (458, 458, 1, 460); (459, 475, 2, 460);
   (478, 494, 2, 479); (497, 497, 1, 499); (498, 500, 2, 499);
   (502, 502, 1, 405); (503, 503, 1, 447); (504, 542, 2, 505);
   (544, 544, 1, 414); (546, 562, 2, 547); (570, 570, 1, 11365);
   (571, 571, 1, 572); (573, 573, 1, 410); (574, 574, 1, 11366);
   (577, 577, 1, 578); (579, 579, 1, 384); (580, 580, 1, 649);
   (581, 581, 1, 652); (582, 590, 2, 583); (880, 882, 2, 881);
   (886, 886, 1, 887); (895, 895, 1, 1011); (902, 902, 1, 940);
   (904, 906, 1, 941); (908, 908, 1, 972); (910, 911, 1, 973);
   (913, 929, 1, 945); (931, 939, 1, 963); (975, 975, 1, 983);
   (984, 1006, 2, 985); (1012, 1012, 1, 952); (1015, 1015, 1, 1016);
   (1017, 1017, 1, 1010); (1018, 1018, 1, 1019); (1021, 1023, 1, 891);
   (1024, 1039, 1, 1104); (1040, 1071, 1, 1072); (1120, 1152, 2, 1121);
   (1162, 1214, 2, 1163); (1216, 1216, 1, 1231); (1217, 1229, 2, 1218);
   (1232, 1326, 2, 1233); (1329, 1366, 1, 1377); (4256, 4293, 1, 11520);
   (4295, 4295, 1, 11559); (4301, 4301, 1, 11565); (5024, 5103, 1, 43888);
   (5104, 5109, 1, 5112); (7312, 7354, 1, 4304); (7357, 7359, 1, 4349);
   (7680, 7828, 2, 7681); (7838, 7838, 1, 223); (7840, 7934, 2, 7841);
   (7944, 7951, 1, 7936); (7960, 7965, 1, 7952); (7976, 7983, 1, 7968);
   (7992, 7999, 1, 7984); (8008, 8013, 1, 8000); (8025, 8031, 2, 8017);
   (8040, 8047, 1, 8032); (8072, 8079, 1, 8064); (8088, 8095, 1, 8080);
   (8104, 8111, 1, 8096); (8120, 8121, 1, 8112); (8122, 8123, 1, 8048);
   (8124, 8124, 1, 8115); (8136, 8139, 1, 8050); (8140, 8140, 1, 8131);
   (8152, 8153, 1, 8144); (8154, 8155, 1, 8054); (8168, 8169, 1, 8160);
   (8170, 8171, 1, 8058); (8172, 8172, 1, 8165); (8184, 8185, 1, 8056);
   (8186, 8187, 1, 8060); (8188, 8188, 1, 8179); (8486, 8486, 1, 969);
   (8490, 8490, 1, 107); (8491, 8491, 1, 229); (8498, 8498, 1, 8526);
   (8544, 8559, 1, 8560); (8579, 8579, 1, 8580); (9398, 9423, 1, 9424);
   (11264, 11311, 1, 11312); (11360, 11360, 1, 11361); (11362, 11362, 1, 619);
   (11363, 11363, 1, 7549); (11364, 11364, 1, 637); (11367, 11371, 2, 11368);
   (11373, 11373, 1, 593); (11374, 11374, 1, 625); (11375, 11375, 1, 592);
   (11376, 11376, 1, 594); (11378, 11378, 1, 11379); (11381, 11381, 1, 11382);
   (11390, 11391, 1, 575); (11392, 11490, 2, 11393); (11499, 11501, 2, 11500);
   (11506, 11506, 1, 11507); (42560, 42604, 2, 42561);
   (42624, 42650, 2, 42625); (42786, 42798, 2, 42787);
   (42802, 42862, 2, 42803); (42873, 42875, 2, 42874);
   (42877, 42877, 1, 7545); (42878, 42886, 2, 42879);
   (42891, 42891, 1, 42892); (42893, 42893, 1, 613); (42896, 42898, 2, 42897);
   (42902, 42920, 2, 42903); (42922, 42922, 1, 614); (42923, 42923, 1, 604);
   (42924, 42924, 1, 609); (42925, 42925, 1, 620); (42926, 42926, 1, 618);
   (42928, 42928, 1, 670); (42929, 42929, 1, 647); (42930, 42930, 1, 669);
   (42931, 42931, 1, 43859); (42932, 42946, 2, 42933);
   (42948, 42948, 1, 42900); (42949, 42949, 1, 642); (42950, 42950, 1, 7566);
   (42951, 42953, 2, 42952); (42960, 42960, 1, 42961);
   (42966, 42968, 2, 42967); (42997, 42997, 1, 42998);
   (65313, 65338, 1, 65345); (66560, 66599, 1, 66600);
   (66736, 66771, 1, 66776); (66928, 66938, 1, 66967);
   (66940, 66954, 1, 66979); (66956, 66962, 1, 66995);
   (66964, 66965, 1, 67003); (68736, 68786, 1, 68800);
   (71840, 71871, 1, 71872); (93760, 93791, 1, 93792);
   (125184, 125217, 1, 125218)].

(** Code points whose lowercase has several characters. *)
Definition lower_special : list (N * list N) :=
  [(304, [105; 775])].

(** The case-ignorable code points. *)
Definition case_ignorable_ranges : list (N * N) :=
  [(39, 39); (46, 46); (58, 58); (94, 94); (96, 96); (168, 168); (173, 173);
   (175, 175); (180, 180); (183, 184); (688, 879); (884, 885); (890, 890);
   (900, 901); (903, 903); (1155, 1161); (1369, 1369); (1375, 1375);
   (1425, 1469); (1471, 1471); (1473, 1474); (1476, 1477); (1479, 1479);
   (1524, 1524); (1536, 1541); (1552, 1562); (1564, 1564); (1600, 1600);
   (1611, 1631); (1648, 1648); (1750, 1757); (1759, 1768); (1770, 1773);
   (1807, 1807); (1809, 1809); (1840, 1866); (1958, 1968); (2027, 2037);
   (2042, 2042); (2045, 2045); (2070, 2093); (2137, 2139); (2184, 2184);
   (2192, 2193); (2200, 2207); (2249, 2306); (2362, 2362); (2364, 2364);
   (2369, 2376); (2381, 2381); (2385, 2391); (2402, 2403); (2417, 2417);
   (2433, 2433); (2492, 2492); (2497, 2500); (2509, 2509); (2530, 2531);
   (2558, 2558); (2561, 2562); (2620, 2620); (2625, 2626); (2631, 2632);
   (2635, 2637); (2641, 2641); (2672, 2673); (2677, 2677); (2689, 2690);
   (2748, 2748); (2753, 2757); (2759, 2760); (2765, 2765); (2786, 2787);
   (2810, 2815); (2817, 2817); (2876, 2876); (2879, 2879); (2881, 2884);
   (2893, 2893); (2901, 2902); (2914, 2915); (2946, 2946); (3008, 3008);
   (3021, 3021); (3072, 3072); (3076, 3076); (3132, 3132); (3134, 3136);
   (3142, 3144); (3146, 3149); (3157, 3158); (3170, 3171); (3201, 3201);
   (3260, 3260); (3263, 3263); (3270, 3270); (3276, 3277); (3298, 3299);
   (3328, 3329); (3387, 3388); (3393, 3396); (3405, 3405); (3426, 3427);
   (3457, 3457); (3530, 3530); (3538, 3540); (3542, 3542); (3633, 3633);
   (3636, 3642); (3654, 3662); (3761, 3761); (3764, 3772); (3782, 3782);
   (3784, 3789); (3864, 3865); (3893, 3893); (3895, 3895); (3897, 3897);
   (3953, 3966); (3968, 3972); (3974, 3975); (3981, 3991); (3993, 4028);
   (4038, 4038); (4141, 4144); (4146, 4151); (4153, 4154); (4157, 4158);
   (4184, 4185); (4190, 4192); (4209, 4212); (4226, 4226); (4229, 4230);
   (4237, 4237); (4253, 4253); (4348, 4348); (4957, 4959); (5906, 5908);
   (5938, 5939); (5970, 5971); (6002, 6003); (6068, 6069); (6071, 6077);
   (6086, 6086); (6089, 6099); (6103, 6103); (6109, 6109); (6155, 6159);
   (6211, 6211); (6277, 6278); (6313, 6313); (6432, 6434); (6439, 6440);
   (6450, 6450); (6457, 6459); (6679, 6680); (6683, 6683); (6742, 6742);
   (6744, 6750); (6752, 6752); (6754, 6754); (6757, 6764); (6771, 6780);
   (6783, 6783); (6823, 6823); (6832, 6862); (6912, 6915); (6964, 6964);
   (6966, 6970); (6972, 6972); (6978, 6978); (7019, 7027); (7040, 7041);
   (7074, 7077); (7080, 7081); (7083, 7085); (7142, 7142); (7144, 7145);
   (7149, 7149); (7151, 7153); (7212, 7219); (7222, 7223); (7288, 7293);
   (7376, 7378); (7380, 7392); (7394, 7400); (7405, 7405); (7412, 7412);
   (7416, 7417); (7468, 7530); (7544, 7544); (7579, 7679); (8125, 8125);
   (8127, 8129); (8141, 8143); (8157, 8159); (8173, 8175); (8189, 8190);
   (8203, 8207); (8216, 8217); (8228, 8228); (8231, 8231); (8234, 8238);
   (8288, 8292); (8294, 8303); (8305, 8305); (8319, 8319); (8336, 8348);
   (8400, 8432); (11388, 11389); (11503, 11505); (11631, 11631);
   (11647, 11647); (11744, 11775); (11823, 11823); (12293, 12293);
   (12330, 12333); (12337, 12341); (12347, 12347); (12441, 12446);
   (12540, 12542); (40981, 40981); (42232, 42237); (42508, 42508);
   (42607, 42610); (42612, 42621); (42623, 42623); (42652, 42655);
   (42736, 42737); (42752, 42785); (42864, 42864); (42888, 42890);
   (42994, 42996); (43000, 43001); (43010, 43010); (43014, 43014);
   (43019, 43019); (43045, 43046); (43052, 43052); (43204, 43205);
   (43232, 43249); (43263, 43263); (43302, 43309); (43335, 43345);
   (43392, 43394); (43443, 43443); (43446, 43449); (43452, 43453);
   (43471, 43471); (43493, 43494); (43561, 43566); (43569, 43570);
   (43573, 43574); (43587, 43587); (43596, 43596); (43632, 43632);
   (43644, 43644); (43696, 43696); (43698, 43700); (43703, 43704);
   (43710, 43711); (43713, 43713); (43741, 43741); (43756, 43757);
   (43763, 43764); (43766, 43766); (43867, 43871); (43881, 43883);
   (44005, 44005); (44008, 44008); (44013, 44013); (64286, 64286);
   (64434, 64450); (65024, 65039); (65043, 65043); (65056, 65071);
   (65106, 65106); (65109, 65109); (65279, 65279); (65287, 65287);
   (65294, 65294); (65306, 65306); (65342, 65342); (65344, 65344);
   (65392, 65392); (65438, 65439); (65507, 65507); (65529, 65531);
   (66045, 66045); (66272, 66272); (66422, 66426); (67456, 67461);
   (67463, 67504); (67506, 67514); (68097, 68099); (68101, 68102);
   (68108, 68111); (68152, 68154); (68159, 68159); (68325, 68326);
   (68900, 68903); (69291, 69292); (69446, 69456); (69506, 69509);
   (69633, 69633); (69688, 69702); (69744, 69744); (69747, 69748);
   (69759, 69761); (69811, 69814); (69817, 69818); (69821, 69821);
   (69826, 69826); (69837, 69837); (69888, 69890); (69927, 69931);
   (69933, 69940); (70003, 70003); (70016, 70017); (70070, 70078);
   (70089, 70092); (70095, 70095); (70191, 70193); (70196, 70196);
   (70198, 70199); (70206, 70206); (70367, 70367); (70371, 70378);
   (70400, 70401); (70459, 70460); (70464, 70464); (70502, 70508);
   (70512, 70516); (70712, 70719); (70722, 70724); (70726, 70726);
   (70750, 70750); (70835, 70840); (70842, 70842); (70847, 70848);
   (70850, 70851); (71090, 71093); (71100, 71101); (71103, 71104);
   (71132, 71133); (71219, 71226); (71229, 71229); (71231, 71232);
   (71339, 71339); (71341, 71341); (71344, 71349); (71351, 71351);
   (71453, 71455); (71458, 71461); (71463, 71467); (71727, 71735);
   (71737, 71738); (71995, 71996); (71998, 71998); (72003, 72003);
   (72148, 72151); (72154, 72155); (72160, 72160); (72193, 72202);
   (72243, 72248); (72251, 72254); (72263, 72263); (72273, 72278);
   (72281, 72283); (72330, 72342); (72344, 72345); (72752, 72758);
   (72760, 72765); (72767, 72767); (72850, 72871); (72874, 72880);
   (72882, 72883); (72885, 72886); (73009, 73014); (73018, 73018);
   (73020, 73021); (73023, 73029); (73031, 73031); (73104, 73105);
   (73109, 73109); (73111, 73111); (73459, 73460); (78896, 78904);
   (92912, 92916); (92976, 92982); (92992, 92995); (94031, 94031);
   (94095, 94111); (94176, 94177); (94179, 94180); (110576, 110579);
   (110581, 110587); (110589, 110590); (113821, 113822); (113824, 113827);
   (118528, 118573); (118576, 118598); (119143, 119145); (119155, 119170);
   (119173, 119179); (119210, 119213); (119362, 119364); (121344, 121398);
   (121403, 121452); (121461, 121461); (121476, 121476); (121499, 121503);
   (121505, 121519); (122880, 122886); (122888, 122904); (122907, 122913);
   (122915, 122916); (122918, 122922); (123184, 123197); (123566, 123566);
   (123628, 123631); (125136, 125142); (125252, 125259); (127995, 127999);
   (917505, 917505); (917536, 917631); (917760, 917999)].

(** The cased code points that are not case-ignorable. *)
Definition cased_ranges : list (N * N) :=
  [(65, 90); (97, 122); (170, 170); (181, 181); (186, 186); (192, 214);
   (216, 246); (248, 442); (444, 447); (452, 659); (661, 687); (880, 883);
   (886, 887); (891, 893); (895, 895); (902, 902); (904, 906); (908, 908);
   (910, 929); (931, 1013); (1015, 1153); (1162, 1327); (1329, 1366);
   (1376, 1416); (4256, 4293); (4295, 4295); (4301, 4301); (4304, 4346);
   (4349, 4351); (5024, 5109); (5112, 5117); (7296, 7304); (7312, 7354);
   (7357, 7359); (7424, 7467); (7531, 7543); (7545, 7578); (7680, 7957);
   (7960, 7965); (7968, 8005); (8008, 8013); (8016, 8023); (8025, 8025);
   (8027, 8027); (8029, 8029); (8031, 8061); (8064, 8116); (8118, 8124);
   (8126, 8126); (8130, 8132); (8134, 8140); (8144, 8147); (8150, 8155);
   (8160, 8172); (8178, 8180); (8182, 8188); (8450, 8450); (8455, 8455);
   (8458, 8467); (8469, 8469); (8473, 8477); (8484, 8484); (8486, 8486);
   (8488, 8488); (8490, 8493); (8495, 8500); (8505, 8505); (8508, 8511);
   (8517, 8521); (8526, 8526); (8544, 8575); (8579, 8580); (9398, 9449);
   (11264, 11387); (11390, 11492); (11499, 11502); (11506, 11507);
   (11520, 11557); (11559, 11559); (11565, 11565); (42560, 42605);
   (42624, 42651); (42786, 42863); (42865, 42887); (42891, 42894);
   (42896, 42954); (42960, 42961); (42963, 42963); (42965, 42969);
   (42997, 42998); (43002, 43002); (43824, 43866); (43872, 43880);
   (43888, 43967); (64256, 64262); (64275, 64279); (65313, 65338);
   (65345, 65370); (66560, 66639); (66736, 66771); (66776, 66811);
   (66928, 66938); (66940, 66954); (66956, 66962); (66964, 66965);
   (66967, 66977); (66979, 66993); (66995, 67001); (67003, 67004);
   (68736, 68786); (68800, 68850); (71840, 71903); (93760, 93823);
   (119808, 119892); (119894, 119964); (119966, 119967); (119970, 119970);
   (119973, 119974); (119977, 119980); (119982, 119993); (119995, 119995);
   (119997, 120003); (120005, 120069); (120071, 120074); (120077, 120084);
   (120086, 120092); (120094, 120121); (120123, 120126); (120128, 120132);
   (120134, 120134); (120138, 120144); (120146, 120485); (120488, 120512);
   (120514, 120538); (120540, 120570); (120572, 120596); (120598, 120628);
   (120630, 120654); (120656, 120686); (120688, 120712); (120714, 120744);
   (120746, 120770); (120772, 120779); (122624, 122633); (122635, 122654);
   (125184, 125251); (127280, 127305); (127312, 127337); (127344, 127369)].

Definition in_ranges (ranges : list (N * N)) (c : char) : bool :=
  existsb (fun r => (fst r <=? c) && (c <=? snd r)) ranges.

Definition in_run (c : char) (run : N * N * N * N) : bool :=
  match run with
  | (lo, hi, step, _) => (lo <=? c) && (c <=? hi) && ((c - lo) mod step =? 0)
  end.

Definition run_image (runs : list (N * N * N * N)) (c : char)
  : option char :=
  match List.find (in_run c) runs with
  | Some (lo, _, _, to) => Some (to + (c - lo))
  | None => None
  end.

Definition special_image (special : list (N * list N)) (c : char)
  : option str :=
  match List.find (fun e => fst e =? c) special with
  | Some e => Some (snd e)
  | None => None
  end.

(** The full case mapping of one code point: itself when the tables have
    no entry for it. *)
Definition case_image (special : list (N * list N))
           (runs : list (N * N * N * N)) (c : char) : str :=
  match special_image special c with
  | Some image => image
  | None =>
      match run_image runs c with
      | Some c' => [c']
      | None => [c]
      end
  end.

(** [str.isdigit] for one code point. *)
Definition isdigit (c : char) : bool := in_ranges digit_ranges c.

(** [str.upper]: every code point is replaced by its full uppercase. *)
Definition upper_char (c : char) : str :=
  case_image upper_special upper_runs c.

Definition upper (s : str) : str := flat_map upper_char s.

(** [str.lower]: every code point is replaced by its full lowercase, except
    the capital sigma, which becomes the final small sigma when a cased
    code point precedes it and none follows it, case-ignorable code points
    in between not counting, and the small sigma otherwise. *)
Definition lower_char (c : char) : str :=
  case_image lower_special lower_runs c.

Definition CAPITAL_SIGMA : char := 931.
Definition FINAL_SIGMA : char := 962.
Definition SMALL_SIGMA : char := 963.

Definition case_ignorable (c : char) : bool :=
  in_ranges case_ignorable_ranges c.

Definition cased (c : char) : bool := in_ranges cased_ranges c.

Fixpoint skip_ignorable (s : str) : str :=
  match s with
  | [] => []
  | c :: s' => if case_ignorable c then skip_ignorable s' else s
  end.

(** [before] is the text before the sigma, nearest code point first. *)
Definition final_sigma (before after : str) : bool :=
  match skip_ignorable before with
  | c :: _ => cased c
  | [] => false
  end
  && match skip_ignorable after with
     | c :: _ => negb (cased c)
     | [] => true
     end.

Fixpoint lower_from (before s : str) : str :=
  match s with
  | [] => []
  | c :: s' =>
      (if c =? CAPITAL_SIGMA
       then [if final_sigma before s' then FINAL_SIGMA else SMALL_SIGMA]
       else lower_char c)
      ++ lower_from (c :: before) s'
  end.

Definition lower (s : str) : str := lower_from [] s.

(** Code points that close every scan for the context of a sigma. *)
Definition neutral (c : char) : bool :=
  negb (case_ignorable c) && negb (cased c).

(** [s.lstrip()], [s.rstrip()], [s.strip()]. *)
Fixpoint lstrip (s : str) : str :=
  match s with
  | [] => []
  | c :: s' => if isspace c then lstrip s' else s
  end.

Fixpoint rstrip (s : str) : str :=
  match s with
  | [] => []
  | c :: s' =>
      match rstrip s' with
      | [] => if isspace c then [] else [c]
      | r => c :: r
      end
  end.

Definition strip (s : str) : str := rstrip (lstrip s).

(** [s.lstrip(chars)]. *)
Fixpoint lstrip_chars (chars : str) (s : str) : str :=
  match s with
  | [] => []
  | c :: s' => if existsb (N.eqb c) chars then lstrip_chars chars s' else s
  end.

(** [s.startswith(p)], [s.endswith(p)], [p in s]. *)
Fixpoint startswith (s p : str) {struct p} : bool :=
  match p, s with
  | [], _ => true
  | x :: p', y :: s' => (x =? y) && startswith s' p'
  | _ :: _, [] => false
  end.

Definition endswith (s p : str) : bool := startswith (rev s) (rev p).

Fixpoint contains (needle hay : str) : bool :=
  startswith hay needle
  || match hay with
     | [] => false
     | _ :: hay' => contains needle hay'
     end.

(** [s.split(sep)] for a one-character separator: never empty. *)
Fixpoint split (sep : char) (s : str) : list str :=
  match s with
  | [] => [[]]
  | c :: s' =>
      if c =? sep then [] :: split sep s'
      else match split sep s' with
           | l :: ls => (c :: l) :: ls
           | [] => [[c]]
           end
  end.

(** [sep.join(parts)]. *)
Fixpoint join (sep : str) (parts : list str) : str :=
  match parts with
  | [] => []
  | [p] => p
  | p :: ps => p ++ sep ++ join sep ps
  end.

Definition split_lines (s : str) : list str := split NL s.
Definition join_lines (ls : list str) : str := join [NL] ls.

(** [s.split(sep, 1)[-1]]: what follows the first [sep], or all of [s]. *)
Fixpoint after_first (sep : char) (s : str) : option str :=
  match s with
  | [] => None
  | c :: s' => if c =? sep then Some s' else after_first sep s'
  end.

Definition split1_last (sep : char) (s : str) : str :=
  match after_first sep s with
  | Some r => r
  | None => s
  end.

(** [s.find(c)] and [s.rfind(c)], with -1 for absence. *)
Fixpoint find_from (c : char) (s : str) (i : Z) : Z :=
  match s with
  | [] => (-1)%Z
  | x :: s' => if x =? c then i else find_from c s' (i + 1)%Z
  end.

Definition find (c : char) (s : str) : Z := find_from c s 0%Z.

Fixpoint rfind_from (c : char) (s : str) (i : Z) (last : Z) : Z :=
  match s with
  | [] => last
  | x :: s' => rfind_from c s' (i + 1)%Z (if x =? c then i else last)
  end.

Definition rfind (c : char) (s : str) : Z := rfind_from c s 0%Z (-1)%Z.

(** [s[a:b]] for [0 <= a] and [0 <= b]. *)
Definition slice (s : str) (a b : Z) : str :=
  firstn (Z.to_nat (b - a)) (skipn (Z.to_nat a) s).

(** Truth value of a string: non-empty. *)
Definition truthy (s : str) : bool :=
  match s with [] => false | _ => true end.

End PyStr.
Export PyStr.

(** ** Python dictionaries with string keys *)

Module PyDict.

(** A [dict]: insertion-ordered, assigning to an existing key keeps its
    position and its key object. *)
Definition pydict (V : Type) := list (str * V).

Section Dict.
Context {V : Type}.

Fixpoint dict_set (k : str) (v : V) (d : pydict V) : pydict V :=
  match d with
  | [] => [(k, v)]
  | (k', v') :: d' =>
      if str_eqb k k' then (k', v) :: d' else (k', v') :: dict_set k v d'
  end.

Fixpoint dict_get (k : str) (d : pydict V) : option V :=
  match d with
  | [] => None
  | (k', v') :: d' => if str_eqb k k' then Some v' else dict_get k d'
  end.

Definition dict_keys (d : pydict V) : list str := List.map fst d.

End Dict.

End PyDict.
Export PyDict.

(** ** utils.py: the section document model *)

Module Utils.

Abbreviation sections_dict := (pydict str).

(** The literals of [parse_sections]. *)
Definition kw_ZADACHA : str := [1047; 1040; 1044; 1040; 1063; 1040].
Definition kw_TREBOVANIYA : str :=
  [1058; 1056; 1045; 1041; 1054; 1042; 1040; 1053; 1048; 1071].
Definition kw_ARHITEKTURA : str :=
  [1040; 1056; 1061; 1048; 1058; 1045; 1050; 1058; 1059; 1056; 1040].
Definition kw_DOPOLNITELNYE : str :=
  [1044; 1054; 1055; 1054; 1051; 1053; 1048; 1058; 1045; 1051; 1068; 1053;
   1067; 1045].
Definition kw_FORMAT : str := [1060; 1054; 1056; 1052; 1040; 1058].

Definition section_keywords : list str :=
  [ kw_ZADACHA; py "GOAL"; kw_TREBOVANIYA; py "REQUIREMENTS";
    py "TECH STACK"; kw_ARHITEKTURA; py "ARCHITECTURE";
    kw_DOPOLNITELNYE; py "ADDITIONAL"; py "OUTPUT"; kw_FORMAT ].

Definition requirement_keywords : list str :=
  [ kw_TREBOVANIYA; py "REQUIREMENTS" ].

(** "Полный промпт" *)
Definition full_prompt_key : str :=
  [1055; 1086; 1083; 1085; 1099; 1081; 32; 1087; 1088; 1086; 1084; 1087; 1090].

(** "# ТРЕБОВАНИЯ / # REQUIREMENTS" *)
Definition new_requirements_key : str :=
  py "# " ++ kw_TREBOVANIYA ++ py " / # REQUIREMENTS".

(** The test of line 57: [line.strip().startswith('#') and any(keyword in
    line.upper() ...)]. *)
Definition is_heading (line : str) : bool :=
  startswith (strip line) [HASH]
  && existsb (fun keyword => contains keyword (upper line)) section_keywords.

Record pstate := PState {
  sections : sections_dict;
  current_section : option str;
  current_content : list str
}.

(** [if current_section:] is false for [None] and for the empty string. *)
Definition section_open (cur : option str) : bool :=
  match cur with
  | Some s => truthy s
  | None => false
  end.

(** [sections[current_section] = '\n'.join(current_content).strip()] under
    the guard [if current_section:]. *)
Definition save_section (st : pstate) : sections_dict :=
  match current_section st with
  | Some s =>
      if truthy s
      then dict_set s (strip (join_lines (current_content st))) (sections st)
      else sections st
  | None => sections st
  end.

(** One iteration of the loop over the lines. *)
Definition parse_step (st : pstate) (line : str) : pstate :=
  if is_heading line then
    PState (save_section st) (Some (strip line)) []
  else if section_open (current_section st) then
    PState (sections st) (current_section st) (current_content st ++ [line])
  else st.

Definition parse_init : pstate := PState [] None [].

Definition parse_sections (prompt : str) : sections_dict :=
  let st := fold_left parse_step (split_lines prompt) parse_init in
  match save_section st with
  | [] => [(full_prompt_key, prompt)]
  | secs => secs
  end.

Definition get_section_list (prompt : str) : list str :=
  dict_keys (parse_sections prompt).

(** The shared tail of the three editing functions: every section as key,
    content and an empty line, joined by newlines and stripped. *)
Definition flatten_sections (d : sections_dict) : list str :=
  flat_map (fun kv => [fst kv; snd kv; []]) d.

Definition rebuild (d : sections_dict) : str :=
  strip (join_lines (flatten_sections d)).

(** The search loop of [update_section], with its [break]. *)
Definition name_matches (section_name section_key : str) : bool :=
  contains (lower section_name) (lower section_key)
  || contains (lower section_key) (lower section_name).

Definition find_matched (section_name : str) (d : sections_dict) : option str :=
  List.find (name_matches section_name) (dict_keys d).

Definition update_sections (d : sections_dict) (section_name new_content : str)
  : sections_dict :=
  match find_matched section_name d with
  | Some k =>
      if truthy k then dict_set k new_content d
      else dict_set (py "# " ++ upper section_name) new_content d
  | None => dict_set (py "# " ++ upper section_name) new_content d
  end.

Definition update_section (prompt section_name new_content : str) : str :=
  rebuild (update_sections (parse_sections prompt) section_name new_content).

(** The search loop shared by the two requirement functions. *)
Definition is_requirements_key (section_key : str) : bool :=
  existsb (fun keyword => contains keyword (upper section_key))
          requirement_keywords.

Definition find_requirements (d : sections_dict) : option str :=
  List.find is_requirements_key (dict_keys d).

(** [sections[requirements_section]]; the key was taken from the dict, so
    the lookup cannot raise. *)
Definition dict_at (k : str) (d : sections_dict) : str :=
  match dict_get k d with
  | Some v => v
  | None => []
  end.

Definition add_requirement_sections (d : sections_dict) (requirement : str)
  : sections_dict :=
  match find_requirements d with
  | Some k =>
      if truthy k
      then dict_set k (dict_at k d ++ [NL] ++ py "- " ++ requirement) d
      else dict_set new_requirements_key (py "- " ++ requirement) d
  | None => dict_set new_requirements_key (py "- " ++ requirement) d
  end.

Definition add_requirement_to_prompt (prompt requirement : str) : str :=
  rebuild (add_requirement_sections (parse_sections prompt) requirement).

Definition keep_line (requirement_text line : str) : bool :=
  negb (contains (lower requirement_text) (lower line)).

Definition remove_requirement_sections (d : sections_dict) (requirement_text : str)
  : sections_dict :=
  match find_requirements d with
  | Some k =>
      if truthy k
      then dict_set k
             (strip (join_lines (List.filter (keep_line requirement_text)
                                   (split_lines (dict_at k d))))) d
      else d
  | None => d
  end.

Definition remove_requirement_from_prompt (prompt requirement_text : str)
  : str :=
  rebuild (remove_requirement_sections (parse_sections prompt) requirement_text).

End Utils.
Export Utils.


(** ** Exceptions, the completion service, and the state of the process *)

Module Effects.

Inductive exn :=
| OpenAIError (detail : str)
| ValueError (msg : str)
| IndexError
| OtherException (detail : str).

(** [isinstance(e, OpenAIError)]: the first [except] clause. *)
Definition is_openai_error (e : exn) : bool :=
  match e with
  | OpenAIError _ => true
  | _ => false
  end.

(** What one [chat.completions.create] call, followed by the read of
    [response.choices[0].message.content], does: a content (which the API
    types as optional) or an exception. *)
Inductive outcome :=
| Responds (content : option str)
| Fails (e : exn).

Inductive event :=
| EvRequest (system_prompt user_message : str)
| EvSleep (delay : Z).

(** Values of [json.loads]. *)
#[warnings="-register-all"] Inductive json :=
| JNull
| JBool (b : bool)
| JNumber (literal : str)
| JString (s : str)
| JArray (items : list json)
| JObject (members : list (str * json)).

(** states.py *)
Inductive dialogue_state :=
| waiting_for_task_description
| waiting_for_clarification_answers
| showing_recommendations
| waiting_for_recommendation_decision
| prompt_generated
| editing_section
| adding_requirement
| removing_requirement.

(** The dictionary built by [get_session], one field per key. *)
Record session := Session {
  task_description : str;
  clarification_questions : list str;
  answers : pydict (option str);
  recommendations : json;
  current_prompt : str;
  created_at : Z;
  edited_count : Z
}.

(** Messages sent to the user, by kind, with their variable parts; the
    fixed wording is in main.py and in the templates module. *)
Inductive reply :=
| Welcome
| RestartWelcome
| TaskTooShort
| TaskReceived
| AskQuestions (questions : list str)
| ErrorNotice
| QuestionsMissing
| AnswerAccepted (answered_count total : nat) (next_question : str)
                 (remaining : nat)
| AnswersReceived
| RecommendationsReady (recs : json).

(** The process: the session manager's dictionary, the FSM storage (one
    current state per user, absent when cleared), the messages sent so far
    (oldest first), the completion service (the outcome of its n-th
    request), the number of requests made and the log of requests and
    waits (oldest first). *)
Record world := World {
  sessions : gmap Z session;
  fsm : gmap Z dialogue_state;
  outbox : list (Z * reply);
  service : nat -> outcome;
  requests : nat;
  events : list event
}.

Inductive result (A : Type) :=
| Ok (a : A)
| Raise (e : exn).
Arguments Ok {A} a.
Arguments Raise {A} e.

(** Computations that read and change the process and may raise. *)
Definition M (A : Type) := world -> result A * world.

Definition ret {A} (a : A) : M A := fun w => (Ok a, w).

Definition raise {A} (e : exn) : M A := fun w => (Raise e, w).

Definition bind {A B} (m : M A) (k : A -> M B) : M B :=
  fun w =>
    match m w with
    | (Ok a, w') => k a w'
    | (Raise e, w') => (Raise e, w')
    end.

(** [try: m  except Exception as e: handler e] *)
Definition try_except {A} (m : M A) (handler : exn -> M A) : M A :=
  fun w =>
    match m w with
    | (Ok a, w') => (Ok a, w')
    | (Raise e, w') => handler e w'
    end.

(** A computation without effect that returns or raises. *)
Definition of_result {A} (r : result A) : M A := fun w => (r, w).

(** What [json.loads] does with a text: it returns the parsed value, raises
    [json.JSONDecodeError], or raises something else ([RecursionError] on
    deeply nested input). *)
Inductive loads_outcome :=
| Parsed (value : json)
| DecodeError
| LoadsRaises (e : exn).

End Effects.
Export Effects.

Notation "x <- m ;; k" := (bind m (fun x => k))
  (at level 100, m at next level, right associativity).
Notation "m ;;; k" := (bind m (fun _ => k))
  (at level 100, right associativity).

(** ** config.py *)

Module Config.

Record config := Config {
  MAX_RETRIES : Z;
  RETRY_DELAY : Z
}.

(** The values of the repository. *)
Definition repository_config : config :=
  {| MAX_RETRIES := 3; RETRY_DELAY := 1 |}.

(** The three system prompts of the templates module. *)
Record templates := Templates {
  PHASE1_SYSTEM_PROMPT : str;
  PHASE2_SYSTEM_PROMPT : str;
  PHASE3_SYSTEM_PROMPT : str
}.

End Config.
Export Config.

(** ** llm_client.py *)

Module LLMClient.

(** "Вопрос: " *)
Definition lit_vopros : str :=
  [1042; 1086; 1087; 1088; 1086; 1089; 58; 32].
(** "Ответ: " *)
Definition lit_otvet : str :=
  [1054; 1090; 1074; 1077; 1090; 58; 32].
(** "Исходная задача:" *)
Definition lit_task_header : str :=
  [1048; 1089; 1093; 1086; 1076; 1085; 1072; 1103; 32; 1079; 1072; 1076;
   1072; 1095; 1072; 58].
(** "Ответы на вопросы:" *)
Definition lit_answers_header : str :=
  [1054; 1090; 1074; 1077; 1090; 1099; 32; 1085; 1072; 32; 1074; 1086; 1087;
   1088; 1086; 1089; 1099; 58].
(** "Описание задачи:" *)
Definition lit_task_prefix : str :=
  [1054; 1087; 1080; 1089; 1072; 1085; 1080; 1077; 32; 1079; 1072; 1076;
   1072; 1095; 1080; 58].
(** "Не удалось сгенерировать вопросы" *)
Definition msg_no_questions : str :=
  [1053; 1077; 32; 1091; 1076; 1072; 1083; 1086; 1089; 1100; 32; 1089; 1075;
   1077; 1085; 1077; 1088; 1080; 1088; 1086; 1074; 1072; 1090; 1100; 32;
   1074; 1086; 1087; 1088; 1086; 1089; 1099].
(** "Не удалось сгенерировать рекомендации" *)
Definition msg_no_recommendations : str :=
  [1053; 1077; 32; 1091; 1076; 1072; 1083; 1086; 1089; 1100; 32; 1089; 1075;
   1077; 1085; 1077; 1088; 1080; 1088; 1086; 1074; 1072; 1090; 1100; 32;
   1088; 1077; 1082; 1086; 1084; 1077; 1085; 1076; 1072; 1094; 1080; 1080].
(** "Требуется уточнение" *)
Definition placeholder : str :=
  [1058; 1088; 1077; 1073; 1091; 1077; 1090; 1089; 1103; 32; 1091; 1090;
   1086; 1095; 1085; 1077; 1085; 1080; 1077].

(** [await self.client.chat.completions.create(...)] and the read of the
    content: one request to the service. *)
Definition create (system_prompt user_message : str) : M (option str) :=
  fun w =>
    let w' := World (sessions w) (fsm w) (outbox w) (service w)
                    (S (requests w))
                    (events w ++ [EvRequest system_prompt user_message]) in
    match service w (requests w) with
    | Responds content => (Ok content, w')
    | Fails e => (Raise e, w')
    end.

(** [await asyncio.sleep(delay)] *)
Definition sleep (delay : Z) : M unit :=
  fun w =>
    (Ok tt, World (sessions w) (fsm w) (outbox w) (service w) (requests w)
                  (events w ++ [EvSleep delay])).

(** The [for attempt in range(max_retries)] loop of [_call_with_retry], from
    iteration [attempt] on, [remaining] iterations left. *)
Fixpoint retry_loop (remaining : nat) (attempt max_retries delay : Z)
         (system_prompt user_message : str) : M (option str) :=
  match remaining with
  | O => ret None
  | S remaining' =>
      try_except (create system_prompt user_message)
        (fun e =>
           if is_openai_error e then
             if (attempt <? max_retries - 1)%Z then
               sleep delay ;;;
               retry_loop remaining' (attempt + 1)%Z max_retries
                          (delay * 2)%Z system_prompt user_message
             else raise e
           else raise e)
  end.

Definition _call_with_retry (cfg : config) (system_prompt user_message : str)
           (max_retries : Z) : M (option str) :=
  retry_loop (Z.to_nat max_retries) 0%Z max_retries (RETRY_DELAY cfg)
             system_prompt user_message.

(** Lines 85-91: the question carried by one line of the response. *)
Definition question_of_line (raw_line : str) : option str :=
  let line := strip raw_line in
  let marked :=
    match line with
    | [] => false
    | c :: _ => isdigit c || startswith line [DASH]
    end in
  if marked then
    let question := strip (split1_last DOT line) in
    let question := strip (lstrip_chars (py "- ") question) in
    if truthy question && endswith question [QMARK]
    then Some question else None
  else None.

(** Lines 83-98. *)
Definition extract_questions (response : str) : list str :=
  let questions :=
    flat_map (fun line => match question_of_line line with
                          | Some q => [q]
                          | None => []
                          end)
             (split_lines (strip response)) in
  match questions with
  | [] => [strip response]
  | _ => questions
  end.

(** [if not response] holds for [None] and for the empty string. *)
Definition generate_clarification_questions (cfg : config) (tpl : templates)
           (task_description : str) : M (list str) :=
  response <- _call_with_retry cfg (PHASE1_SYSTEM_PROMPT tpl)
                (lit_task_prefix ++ [NL] ++ task_description)
                (MAX_RETRIES cfg) ;;
  match response with
  | Some text =>
      if truthy text then ret (extract_questions text)
      else raise (ValueError msg_no_questions)
  | None => raise (ValueError msg_no_questions)
  end.

(** The record built when the response holds no brace pair. *)
Definition text_fallback (response : str) : json :=
  JObject
    [ (py "tech_stack",
       JString (if (200 <? List.length response)%nat
                then firstn 200 response else response));
      (py "architecture", JString placeholder);
      (py "key_features", JArray []);
      (py "scalability", JString placeholder);
      (py "compliance", JString placeholder);
      (py "risks", JArray []);
      (py "recommendation_summary", JString response) ].

(** The record built in the [except json.JSONDecodeError] clause. *)
Definition decode_error_fallback (response : str) : json :=
  JObject
    [ (py "tech_stack", JString placeholder);
      (py "architecture", JString placeholder);
      (py "key_features", JArray []);
      (py "scalability", JString placeholder);
      (py "compliance", JString placeholder);
      (py "risks", JArray []);
      (py "recommendation_summary", JString response) ].

Section Json.

(** [json.loads] *)
Variable json_loads : str -> loads_outcome.

(** Lines 132-160: only [json.JSONDecodeError] is caught. *)
Definition normalize_recommendations (response : str) : result json :=
  let json_start := find LBRACE response in
  let json_end := (rfind RBRACE response + 1)%Z in
  if negb (json_start =? -1)%Z && (json_end >? json_start)%Z then
    match json_loads (slice response json_start json_end) with
    | Parsed recommendations => Ok recommendations
    | DecodeError => Ok (decode_error_fallback response)
    | LoadsRaises e => Raise e
    end
  else Ok (text_fallback response).

(** [str(a)] inside the f-string: an absent text prints as None. *)
Definition format_answer (a : option str) : str :=
  match a with
  | Some s => s
  | None => py "None"
  end.

Definition answers_text (answers : pydict (option str)) : str :=
  join_lines
    (List.map (fun qa => lit_vopros ++ fst qa ++ [NL] ++ lit_otvet
                         ++ format_answer (snd qa) ++ [NL])
              answers).

Definition recommendations_message (task_description : str)
           (answers : pydict (option str)) : str :=
  lit_task_header ++ [NL] ++ task_description ++ [NL; NL]
  ++ lit_answers_header ++ [NL] ++ answers_text answers.

Definition generate_recommendations (cfg : config) (tpl : templates)
           (task_description : str) (answers : pydict (option str))
  : M json :=
  response <- _call_with_retry cfg (PHASE2_SYSTEM_PROMPT tpl)
                (recommendations_message task_description answers)
                (MAX_RETRIES cfg) ;;
  match response with
  | Some text =>
      if truthy text then of_result (normalize_recommendations text)
      else raise (ValueError msg_no_recommendations)
  | None => raise (ValueError msg_no_recommendations)
  end.

End Json.

End LLMClient.
Export LLMClient.

(** ** session_manager.py *)

Module SessionManager.

(** The dictionary literal of [get_session]; [now] is the reading of
    [datetime.now()]. *)
Definition default_session (now : Z) : session :=
  {| task_description := [];
     clarification_questions := [];
     answers := [];
     recommendations := JObject [];
     current_prompt := [];
     created_at := now;
     edited_count := 0 |}.

Definition set_sessions (f : gmap Z session -> gmap Z session) : M unit :=
  fun w =>
    (Ok tt, World (f (sessions w)) (fsm w) (outbox w) (service w)
                  (requests w) (events w)).

Definition get_session (user_id : Z) (now : Z) : M session :=
  fun w =>
    match sessions w !! user_id with
    | Some s => (Ok s, w)
    | None =>
        (Ok (default_session now),
         World (<[user_id := default_session now]> (sessions w)) (fsm w)
               (outbox w) (service w) (requests w) (events w))
    end.

(** Assignments to one key of a session dictionary. *)
Definition with_task_description (s : session) (description : str)
  : session :=
  {| task_description := description;
     clarification_questions := clarification_questions s;
     answers := answers s;
     recommendations := recommendations s;
     current_prompt := current_prompt s;
     created_at := created_at s;
     edited_count := edited_count s |}.

Definition with_clarification_questions (s : session) (questions : list str)
  : session :=
  {| task_description := task_description s;
     clarification_questions := questions;
     answers := answers s;
     recommendations := recommendations s;
     current_prompt := current_prompt s;
     created_at := created_at s;
     edited_count := edited_count s |}.

Definition with_answers (s : session) (a : pydict (option str)) : session :=
  {| task_description := task_description s;
     clarification_questions := clarification_questions s;
     answers := a;
     recommendations := recommendations s;
     current_prompt := current_prompt s;
     created_at := created_at s;
     edited_count := edited_count s |}.

Definition with_recommendations (s : session) (recs : json) : session :=
  {| task_description := task_description s;
     clarification_questions := clarification_questions s;
     answers := answers s;
     recommendations := recs;
     current_prompt := current_prompt s;
     created_at := created_at s;
     edited_count := edited_count s |}.

(** The mutators write through the dictionary object that [get_session]
    returned, which is the one stored under [user_id]. *)
Definition update_task_description (user_id : Z) (description : str)
           (now : Z) : M unit :=
  s <- get_session user_id now ;;
  set_sessions <[user_id := with_task_description s description]>.

Definition set_clarification_questions (user_id : Z) (questions : list str)
           (now : Z) : M unit :=
  s <- get_session user_id now ;;
  set_sessions <[user_id := with_clarification_questions s questions]>.

(** [session["answers"][question] = answer] *)
Definition add_answer (user_id : Z) (question : str) (answer : option str)
           (now : Z) : M unit :=
  s <- get_session user_id now ;;
  set_sessions
    <[user_id := with_answers s (dict_set question answer (answers s))]>.

Definition set_recommendations (user_id : Z) (recs : json) (now : Z)
  : M unit :=
  s <- get_session user_id now ;;
  set_sessions <[user_id := with_recommendations s recs]>.

Definition clear_session (user_id : Z) : M unit :=
  fun w =>
    match sessions w !! user_id with
    | Some _ =>
        (Ok tt, World (delete user_id (sessions w)) (fsm w) (outbox w)
                      (service w) (requests w) (events w))
    | None => (Ok tt, w)
    end.

End SessionManager.
Export SessionManager.

(** ** main.py: the handlers *)

Module Handlers.

(** [FSMContext]: [set_state], [clear], [get_state] for one user. *)
Definition set_state (user_id : Z) (s : dialogue_state) : M unit :=
  fun w =>
    (Ok tt, World (sessions w) (<[user_id := s]> (fsm w)) (outbox w)
                  (service w) (requests w) (events w)).

Definition state_clear (user_id : Z) : M unit :=
  fun w =>
    (Ok tt, World (sessions w) (delete user_id (fsm w)) (outbox w)
                  (service w) (requests w) (events w)).

Definition get_state (user_id : Z) : M (option dialogue_state) :=
  fun w => (Ok (fsm w !! user_id), w).

(** [await message.answer(...)] *)
Definition answer (user_id : Z) (r : reply) : M unit :=
  fun w =>
    (Ok tt, World (sessions w) (fsm w) (outbox w ++ [(user_id, r)])
                  (service w) (requests w) (events w)).

(** [questions[i]] *)
Definition index (questions : list str) (i : nat) : M str :=
  match questions !! i with
  | Some q => ret q
  | None => raise IndexError
  end.

Definition cmd_start (user_id : Z) : M unit :=
  clear_session user_id ;;;
  state_clear user_id ;;;
  set_state user_id waiting_for_task_description ;;;
  answer user_id Welcome.


(** [not task_description or len(task_description.strip()) < 10] *)
Definition too_short (text : option str) : bool :=
  match text with
  | None => true
  | Some t => negb (truthy t) || (List.length (strip t) <? 10)%nat
  end.

Section Deps.

Variable cfg : config.
Variable tpl : templates.
Variable json_loads : str -> loads_outcome.

Definition process_task_description (user_id : Z) (text : option str)
           (now : Z) : M unit :=
  match text with
  | Some task_description =>
      if too_short text then answer user_id TaskTooShort
      else
        update_task_description user_id task_description now ;;;
        answer user_id TaskReceived ;;;
        try_except
          (questions <- generate_clarification_questions cfg tpl
                          task_description ;;
           set_clarification_questions user_id questions now ;;;
           answer user_id (AskQuestions questions) ;;;
           set_state user_id waiting_for_clarification_answers)
          (fun _ => answer user_id ErrorNotice)
  | None => answer user_id TaskTooShort
  end.

(** The block that both branches of [process_clarification_answer] share;
    [answers] is read from the stored session at this point, since the
    handler's variable is the dictionary that [add_answer] writes to. *)
Definition recommend (user_id : Z) (now : Z) : M unit :=
  answer user_id AnswersReceived ;;;
  try_except
    (s <- get_session user_id now ;;
     recs <- generate_recommendations json_loads cfg tpl
               (task_description s) (answers s) ;;
     set_recommendations user_id recs now ;;;
     answer user_id (RecommendationsReady recs) ;;;
     set_state user_id showing_recommendations)
    (fun _ => answer user_id ErrorNotice).

Definition process_clarification_answer (user_id : Z) (text : option str)
           (now : Z) : M unit :=
  s <- get_session user_id now ;;
  let questions := clarification_questions s in
  match questions with
  | [] => answer user_id QuestionsMissing
  | _ =>
      let answered_count := List.length (answers s) in
      if (List.length questions <=? answered_count)%nat then
        recommend user_id now
      else
        current_question <- index questions answered_count ;;
        add_answer user_id current_question text now ;;;
        let answered_count := S answered_count in
        if (answered_count <? List.length questions)%nat then
          next_question <- index questions answered_count ;;
          answer user_id
            (AnswerAccepted answered_count (List.length questions)
               next_question (List.length questions - answered_count))
        else recommend user_id now
  end.

(** A run of plain messages of one user through the filter
    [PromptGenerationStates.waiting_for_clarification_answers]: each message
    reaches [process_clarification_answer] while that is the user's state;
    the run stops at the first message that finds another state. *)
Fixpoint clarification_messages (user_id : Z) (texts : list (option str))
         (now : Z) : M unit :=
  match texts with
  | [] => ret tt
  | t :: texts' =>
      st <- get_state user_id ;;
      match st with
      | Some waiting_for_clarification_answers =>
          process_clarification_answer user_id t now ;;;
          clarification_messages user_id texts' now
      | _ => ret tt
      end
  end.

End Deps.

End Handlers.
Export Handlers.

(** ** Vocabulary of the statements about documents *)

Module DocSpec.

(** The lines of a document that open a section. *)
Definition heading_lines (prompt : str) : list str :=
  List.filter is_heading (split_lines prompt).

(** A list without its repetitions, every element at its first position. *)
Fixpoint first_occurrences (l : list str) : list str :=
  match l with
  | [] => []
  | k :: l' =>
      k :: List.filter (fun x => negb (str_eqb k x)) (first_occurrences l')
  end.

(** The key list of a dictionary after an assignment to key [k]. *)
Definition add_key (k : str) (ks : list str) : list str :=
  if existsb (str_eqb k) ks then ks else ks ++ [k].

(** Strings made of whitespace only. *)
Definition all_ws (w : str) : Prop := Forall (fun c => isspace c = true) w.

(** A keyword that neither starts nor ends with whitespace. *)
Fixpoint ends_nonws (kw : str) : bool :=
  match kw with
  | [] => false
  | [k] => negb (isspace k)
  | _ :: kw' => ends_nonws kw'
  end.

Definition edges_nonws (kw : str) : bool :=
  match kw with
  | [] => false
  | k :: _ => negb (isspace k) && ends_nonws kw
  end.

(** Absence of a recognized heading among the lines of a text. *)
Definition no_heading (s : str) : Prop :=
  Forall (fun line => is_heading line = false) (split_lines s).

(** The dictionary that the loop of [parse_sections] leaves, before the
    fallback to the single synthetic section. *)
Definition parse_lines (lines : list str) : sections_dict :=
  save_section (fold_left parse_step lines parse_init).

(** Keys as [parse_sections] produces them: a trimmed, recognized heading
    on one line. *)
Definition wf_key (k : str) : Prop :=
  is_heading k = true /\ strip k = k /\ ~ In NL k.

(** Sections that can be written out and read back: distinct heading keys,
    contents without heading lines. *)
Definition well_formed (d : sections_dict) : Prop :=
  List.NoDup (dict_keys d)
  /\ Forall (fun kc => wf_key (fst kc) /\ no_heading (snd kc)) d.

Definition strip_contents (d : sections_dict) : sections_dict :=
  List.map (fun kc => (fst kc, strip (snd kc))) d.

(** Sections as the loop stores them: well-formed, contents trimmed. *)
Definition stored_entry (kc : str * str) : Prop :=
  wf_key (fst kc) /\ no_heading (snd kc) /\ strip (snd kc) = snd kc.

(** What holds of the loop state between two lines. *)
Definition parse_inv (st : pstate) : Prop :=
  List.NoDup (dict_keys (sections st))
  /\ Forall stored_entry (sections st)
  /\ (forall k, current_section st = Some k -> wf_key k)
  /\ Forall (fun l => is_heading l = false /\ ~ In NL l)
            (current_content st).

(** The content of the requirements section of a document, if it has
    one. *)
Definition requirements_content (prompt : str) : option str :=
  match find_requirements (parse_sections prompt) with
  | Some k => dict_get k (parse_sections prompt)
  | None => None
  end.

(** A document given line by line. *)
Definition doc_of (lines : list string) : str :=
  join_lines (List.map py lines).

End DocSpec.
Export DocSpec.

(** ** Vocabulary of the statements about the completion adapter *)

Module AdapterSpec.












(** The test of line 136 and the substring of line 137. *)
Definition has_brace_pair (response : str) : bool :=
  negb (find LBRACE response =? -1)%Z
  && (rfind RBRACE response + 1 >? find LBRACE response)%Z.

Definition brace_substring (response : str) : str :=
  slice response (find LBRACE response) (rfind RBRACE response + 1)%Z.

(** A field of a recommendation record. *)
Definition json_field (name : string) (j : json) : option json :=
  match j with
  | JObject members => dict_get (py name) members
  | _ => None
  end.

(** The fallback record with [tech] as its tech stack. *)
Definition fallback_fields (tech summary : str) (r : json) : Prop :=
  json_field "tech_stack" r = Some (JString tech)
  /\ json_field "architecture" r = Some (JString placeholder)
  /\ json_field "scalability" r = Some (JString placeholder)
  /\ json_field "compliance" r = Some (JString placeholder)
  /\ json_field "key_features" r = Some (JArray [])
  /\ json_field "risks" r = Some (JArray [])
  /\ json_field "recommendation_summary" r = Some (JString summary).

(** Requests and waits in a log. *)
Definition request_count (evs : list event) : nat :=
  List.length (List.filter (fun e => match e with
                                     | EvRequest _ _ => true
                                     | EvSleep _ => false
                                     end) evs).

Definition waits (evs : list event) : list Z :=
  flat_map (fun e => match e with
                     | EvSleep d => [d]
                     | EvRequest _ _ => []
                     end) evs.

(** [n] delays starting at [d], each the double of the one before. *)
Fixpoint backoff (d : Z) (n : nat) : list Z :=
  match n with
  | O => []
  | S n' => d :: backoff (d * 2)%Z n'
  end.

(** The log of [n] failed attempts, each followed by its wait. *)
Fixpoint failed_attempts (system_prompt user_message : str) (d : Z)
         (n : nat) : list event :=
  match n with
  | O => []
  | S n' =>
      EvRequest system_prompt user_message :: EvSleep d
      :: failed_attempts system_prompt user_message (d * 2)%Z n'
  end.

(** The service reports an error to each of the [n] requests that follow
    request number [from]. *)
Definition service_errors (w : world) (from n : nat) : Prop :=
  forall i, (i < n)%nat ->
    exists detail, service w (from + i)%nat = Fails (OpenAIError detail).

(** The log of one [_call_with_retry]: [failures] failed attempts with
    their waits, then a last request. *)
Definition retry_log (system_prompt user_message : str) (d : Z)
           (failures : nat) : list event :=
  failed_attempts system_prompt user_message d failures
  ++ [EvRequest system_prompt user_message].

(** The process after [n] more requests that logged [evs]. *)
Definition after_log (w : world) (n : nat) (evs : list event) : world :=
  World (sessions w) (fsm w) (outbox w) (service w)
        (requests w + n)%nat (events w ++ evs).

End AdapterSpec.
Export AdapterSpec.

(** ** Vocabulary of the statements about sessions and handlers *)

Module ProcessSpec.

(** A process that has exchanged nothing yet, facing the given service. *)
Definition fresh_world (svc : nat -> outcome) : world :=
  World ∅ ∅ [] svc 0 [].

(** A service that reports an error to its first [n] requests and answers
    [text] afterwards. *)
Definition failing_then (n : nat) (text : str) : nat -> outcome :=
  fun i => if (i <? n)%nat then Fails (OpenAIError []) else Responds (Some text).

(** The session of a user as [get_session] would return it. *)
Definition session_of (w : world) (user_id now : Z) : session :=
  match sessions w !! user_id with
  | Some s => s
  | None => default_session now
  end.

(** A user in the given dialogue state, without a session, facing the
    given service. *)
Definition world_in (user_id : Z) (st : dialogue_state)
           (svc : nat -> outcome) : world :=
  World ∅ {[user_id := st]} [] svc 0 [].

(** A computation that touches nothing but the completion service: run
    beside other sessions, state and messages, it behaves the same and
    leaves them as they are. *)
Definition llm_only {A : Type} (m : M A) : Prop :=
  forall (w : world) s f o,
    m (World s f o (service w) (requests w) (events w))
    = ((m w).1,
       World s f o (service (m w).2) (requests (m w).2) (events (m w).2)).

End ProcessSpec.
Export ProcessSpec.

(** ** Vocabulary of the further statements about documents *)

Module DocSpecMore.

(** A document laid out as groups: a heading line and the lines that follow
    it up to the next heading. *)
Definition group := (str * list str)%type.

Definition group_lines (groups : list group) : list str :=
  flat_map (fun g => fst g :: snd g) groups.

(** The dictionary assignments that the groups cause, in order. *)
Definition sections_of_groups (groups : list group) : sections_dict :=
  fold_left
    (fun d g => dict_set (strip (fst g)) (strip (join_lines (snd g))) d)
    groups [].

Definition heading_group (g : group) : Prop :=
  is_heading (fst g) = true /\ ~ In NL (fst g)
  /\ Forall (fun l => is_heading l = false /\ ~ In NL l) (snd g).

(** The bullet line that [add_requirement_to_prompt] writes. *)
Definition bullet (requirement : str) : str := py "- " ++ requirement.

End DocSpecMore.
Export DocSpecMore.

(** ** session_manager.py: the prompt of a session *)

Module SessionPrompt.

Definition with_current_prompt (s : session) (prompt : str) : session :=
  {| task_description := task_description s;
     clarification_questions := clarification_questions s;
     answers := answers s;
     recommendations := recommendations s;
     current_prompt := prompt;
     created_at := created_at s;
     edited_count := edited_count s |}.

Definition with_edited_count (s : session) (n : Z) : session :=
  {| task_description := task_description s;
     clarification_questions := clarification_questions s;
     answers := answers s;
     recommendations := recommendations s;
     current_prompt := current_prompt s;
     created_at := created_at s;
     edited_count := n |}.

Definition set_current_prompt (user_id : Z) (prompt : str) (now : Z)
  : M unit :=
  s <- get_session user_id now ;;
  set_sessions <[user_id := with_current_prompt s prompt]>.

(** [session["current_prompt"] = new_prompt] and
    [session["edited_count"] += 1], both on the stored dictionary. *)
Definition update_prompt (user_id : Z) (new_prompt : str) (now : Z)
  : M unit :=
  s <- get_session user_id now ;;
  set_sessions
    <[user_id := with_edited_count (with_current_prompt s new_prompt)
                   (edited_count s + 1)%Z]>.

(** [session.get("current_prompt", "")]: the key is always present. *)
Definition get_current_prompt (user_id : Z) (now : Z) : M str :=
  s <- get_session user_id now ;;
  ret (current_prompt s).

End SessionPrompt.
Export SessionPrompt.

(** ** Vocabulary of the further statements about sessions and handlers *)

Module ProcessSpecMore.

(** The calls that write to the session of a user. *)
Inductive mutation :=
| TaskDescription (description : str)
| ClarificationQuestions (questions : list str)
| Answer (question : str) (text : option str)
| Recommendations (recs : json)
| CurrentPrompt (prompt : str)
| EditedPrompt (new_prompt : str).

Definition mutate (user_id : Z) (m : mutation) (now : Z) : M unit :=
  match m with
  | TaskDescription description =>
      update_task_description user_id description now
  | ClarificationQuestions questions =>
      set_clarification_questions user_id questions now
  | Answer question text => add_answer user_id question text now
  | Recommendations recs => set_recommendations user_id recs now
  | CurrentPrompt prompt => set_current_prompt user_id prompt now
  | EditedPrompt new_prompt => update_prompt user_id new_prompt now
  end.

(** Successive calls of [update_prompt] for one user, each with the prompt
    and the reading of the clock at that call. *)
Fixpoint update_prompts (user_id : Z) (edits : list (str * Z)) : M unit :=
  match edits with
  | [] => ret tt
  | (new_prompt, now) :: edits' =>
      update_prompt user_id new_prompt now ;;;
      update_prompts user_id edits'
  end.

(** Everything of a process but the sessions. *)
Definition same_but_sessions (w w' : world) : Prop :=
  fsm w' = fsm w /\ outbox w' = outbox w /\ service w' = service w
  /\ requests w' = requests w /\ events w' = events w.

(** The replies to answers number [first + 1] to [first + count] out of the
    answers to [questions]: each announces the next question. *)
Definition progress_replies (user_id : Z) (questions : list str)
           (first count : nat) : list (Z * reply) :=
  List.map
    (fun i =>
       (user_id,
        AnswerAccepted (S i) (List.length questions)
          (nth (S i) questions [])
          (List.length questions - S i)))
    (seq first count).

(** One conversation from the start command to the last answer. *)
Definition conversation (cfg : config) (tpl : templates)
           (json_loads : str -> loads_outcome) (user_id : Z)
           (description : str) (texts : list (option str)) (now : Z)
  : M unit :=
  cmd_start user_id ;;;
  process_task_description cfg tpl user_id (Some description) now ;;;
  clarification_messages cfg tpl json_loads user_id texts now.

(** The other users' part of a process is as it was, and the messages sent
    since are a non-empty list of messages to [user_id]. *)
Definition replied_to (user_id : Z) (w w' : world) : Prop :=
  (forall other, other <> user_id ->
     sessions w' !! other = sessions w !! other
     /\ fsm w' !! other = fsm w !! other)
  /\ exists sent,
       sent <> [] /\ outbox w' = outbox w ++ sent
       /\ Forall (fun m => fst m = user_id) sent.

End ProcessSpecMore.
Export ProcessSpecMore.

(** ** llm_client.py: the final prompt *)

Module FinalPrompt.

(** "Технологический стек: " *)
Definition lit_tech_stack : str :=
  [1058; 1077; 1093; 1085; 1086; 1083; 1086; 1075; 1080; 1095; 1077; 1089;
   1082; 1080; 1081; 32; 1089; 1090; 1077; 1082; 58; 32].
(** "Архитектура: " *)
Definition lit_architecture : str :=
  [1040; 1088; 1093; 1080; 1090; 1077; 1082; 1090; 1091; 1088; 1072; 58; 32].
(** "Ключевые особенности: " *)
Definition lit_key_features : str :=
  [1050; 1083; 1102; 1095; 1077; 1074; 1099; 1077; 32; 1086; 1089; 1086;
   1073; 1077; 1085; 1085; 1086; 1089; 1090; 1080; 58; 32].
(** "Масштабируемость: " *)
Definition lit_scalability : str :=
  [1052; 1072; 1089; 1096; 1090; 1072; 1073; 1080; 1088; 1091; 1077; 1084;
   1086; 1089; 1090; 1100; 58; 32].
(** "Compliance: " *)
Definition lit_compliance : str :=
  [67; 111; 109; 112; 108; 105; 97; 110; 99; 101; 58; 32].
(** "Риски: " *)
Definition lit_risks : str := [1056; 1080; 1089; 1082; 1080; 58; 32].
(** "Резюме: " *)
Definition lit_summary : str := [1056; 1077; 1079; 1102; 1084; 1077; 58; 32].
(** "Не указан" *)
Definition lit_not_given_m : str :=
  [1053; 1077; 32; 1091; 1082; 1072; 1079; 1072; 1085].
(** "Не указана" *)
Definition lit_not_given_f : str :=
  [1053; 1077; 32; 1091; 1082; 1072; 1079; 1072; 1085; 1072].
(** "Не указано" *)
Definition lit_not_given_n : str :=
  [1053; 1077; 32; 1091; 1082; 1072; 1079; 1072; 1085; 1086].
(** "Принятые рекомендации:" *)
Definition lit_accepted : str :=
  [1055; 1088; 1080; 1085; 1103; 1090; 1099; 1077; 32; 1088; 1077; 1082;
   1086; 1084; 1077; 1085; 1076; 1072; 1094; 1080; 1080; 58].
(** "Не удалось сгенерировать промпт" *)
Definition msg_no_prompt : str :=
  [1053; 1077; 32; 1091; 1076; 1072; 1083; 1086; 1089; 1100; 32; 1089; 1075;
   1077; 1085; 1077; 1088; 1080; 1088; 1086; 1074; 1072; 1090; 1100; 32;
   1087; 1088; 1086; 1084; 1087; 1090].

(** The strings of a list of values, when all of them are strings. *)
Fixpoint strings_of (items : list json) : option (list str) :=
  match items with
  | [] => Some []
  | JString s :: items' =>
      match strings_of items' with
      | Some l => Some (s :: l)
      | None => None
      end
  | _ :: _ => None
  end.

Section Rendering.

(** [str(v)] of a value that is not a string, and the message of the
    [TypeError] that [', '.join(v)] raises. *)
Variable py_str : json -> str.
Variable join_error : json -> str.

(** [{v}] in an f-string. *)
Definition format_value (v : json) : str :=
  match v with
  | JString s => s
  | _ => py_str v
  end.

(** [{recommendations.get(key, default)}] *)
Definition get_text (recommendations : pydict json) (key : string)
           (default : str) : str :=
  match dict_get (py key) recommendations with
  | Some v => format_value v
  | None => default
  end.

(** [', '.join(v)]: over the items of a list, the characters of a string or
    the keys of a dictionary; anything else, and a list with an item that
    is not a string, raises [TypeError]. *)
Definition join_value (v : json) : M str :=
  match v with
  | JArray items =>
      match strings_of items with
      | Some l => ret (join (py ", ") l)
      | None => raise (OtherException (join_error v))
      end
  | JString s => ret (join (py ", ") (List.map (fun c => [c]) s))
  | JObject members => ret (join (py ", ") (dict_keys members))
  | _ => raise (OtherException (join_error v))
  end.

(** [', '.join(recommendations.get(key, []))] *)
Definition join_items (recommendations : pydict json) (key : string)
  : M str :=
  match dict_get (py key) recommendations with
  | Some v => join_value v
  | None => ret []
  end.

(** Lines 176-182. *)
Definition recommendations_text (recommendations : pydict json) : M str :=
  features <- join_items recommendations "key_features" ;;
  risks <- join_items recommendations "risks" ;;
  ret (lit_tech_stack
       ++ get_text recommendations "tech_stack" lit_not_given_m ++ [NL]
       ++ lit_architecture
       ++ get_text recommendations "architecture" lit_not_given_f ++ [NL]
       ++ lit_key_features ++ features ++ [NL]
       ++ lit_scalability
       ++ get_text recommendations "scalability" lit_not_given_f ++ [NL]
       ++ lit_compliance
       ++ get_text recommendations "compliance" lit_not_given_m ++ [NL]
       ++ lit_risks ++ risks ++ [NL]
       ++ lit_summary
       ++ get_text recommendations "recommendation_summary" lit_not_given_n).

(** Lines 184-188. *)
Definition final_prompt_message (task_description text : str) : str :=
  lit_task_header ++ [NL] ++ task_description ++ [NL; NL]
  ++ lit_accepted ++ [NL] ++ text.

Definition generate_final_prompt (cfg : config) (tpl : templates)
           (task_description : str) (recommendations : pydict json)
  : M str :=
  text <- recommendations_text recommendations ;;
  response <- _call_with_retry cfg (PHASE3_SYSTEM_PROMPT tpl)
                (final_prompt_message task_description text)
                (MAX_RETRIES cfg) ;;
  match response with
  | Some r =>
      if truthy r then ret (strip r)
      else raise (ValueError msg_no_prompt)
  | None => raise (ValueError msg_no_prompt)
  end.

End Rendering.

(** Values that [', '.join] accepts. *)
Definition joinable (v : json) : bool :=
  match v with
  | JArray items =>
      match strings_of items with
      | Some _ => true
      | None => false
      end
  | JString _ | JObject _ => true
  | _ => false
  end.

Definition items_joinable (recommendations : pydict json) (key : string)
  : bool :=
  match dict_get (py key) recommendations with
  | Some v => joinable v
  | None => true
  end.

End FinalPrompt.
Export FinalPrompt.

(** ** utils.py: the recommendations as shown to the user *)

Module Formatting.

(** "📋 **Рекомендации:**" *)
Definition lit_shown_header : str :=
  [128203; 32; 42; 42; 1056; 1077; 1082; 1086; 1084; 1077; 1085; 1076; 1072;
   1094; 1080; 1080; 58; 42; 42].
(** "🔧 **Технологический стек:**" *)
Definition lit_shown_tech_stack : str :=
  [128295; 32; 42; 42; 1058; 1077; 1093; 1085; 1086; 1083; 1086; 1075; 1080;
   1095; 1077; 1089; 1082; 1080; 1081; 32; 1089; 1090; 1077; 1082; 58; 42;
   42].
(** "🏗️ **Архитектура:**" *)
Definition lit_shown_architecture : str :=
  [127959; 65039; 32; 42; 42; 1040; 1088; 1093; 1080; 1090; 1077; 1082; 1090;
   1091; 1088; 1072; 58; 42; 42].
(** "✨ **Ключевые особенности:**" *)
Definition lit_shown_key_features : str :=
  [10024; 32; 42; 42; 1050; 1083; 1102; 1095; 1077; 1074; 1099; 1077; 32;
   1086; 1089; 1086; 1073; 1077; 1085; 1085; 1086; 1089; 1090; 1080; 58; 42;
   42].
(** "📈 **Масштабируемость:**" *)
Definition lit_shown_scalability : str :=
  [128200; 32; 42; 42; 1052; 1072; 1089; 1096; 1090; 1072; 1073; 1080; 1088;
   1091; 1077; 1084; 1086; 1089; 1090; 1100; 58; 42; 42].
(** "🔒 **Compliance и безопасность:**" *)
Definition lit_shown_compliance : str :=
  [128274; 32; 42; 42; 67; 111; 109; 112; 108; 105; 97; 110; 99; 101; 32;
   1080; 32; 1073; 1077; 1079; 1086; 1087; 1072; 1089; 1085; 1086; 1089;
   1090; 1100; 58; 42; 42].
(** "⚠️ **Риски:**" *)
Definition lit_shown_risks : str :=
  [9888; 65039; 32; 42; 42; 1056; 1080; 1089; 1082; 1080; 58; 42; 42].
(** "📝 **Резюме:**" *)
Definition lit_shown_summary : str :=
  [128221; 32; 42; 42; 1056; 1077; 1079; 1102; 1084; 1077; 58; 42; 42].
(** "• " *)
Definition lit_bullet : str := [8226; 32].

Section Values.

(** [str(v)] of a value that is not a string, and [bool(x)] of the number
    with the given literal. *)
Variable py_str : json -> str.
Variable number_truthy : str -> bool.

(** [bool(v)] *)
Definition json_truthy (v : json) : bool :=
  match v with
  | JNull => false
  | JBool b => b
  | JNumber literal => number_truthy literal
  | JString s => truthy s
  | JArray items => match items with [] => false | _ :: _ => true end
  | JObject members => match members with [] => false | _ :: _ => true end
  end.

(** [if recommendations.get(key):] *)
Definition get_truthy (recommendations : pydict json) (key : string)
  : bool :=
  match dict_get (py key) recommendations with
  | Some v => json_truthy v
  | None => false
  end.

(** [recommendations[key]], read under [get_truthy], where the key is
    present. *)
Definition item (recommendations : pydict json) (key : string) : json :=
  match dict_get (py key) recommendations with
  | Some v => v
  | None => JNull
  end.

(** The value under a key when [get_truthy] holds of it. *)
Definition shown_value (recommendations : pydict json) (key : string)
  : option json :=
  if get_truthy recommendations key then Some (item recommendations key)
  else None.

(** The blocks of lines 13-14, 16-17, 27-28, 30-31 and 41-42. *)
Definition add_text (text : str) (recommendations : pydict json)
           (key : string) (heading tail : str) : str :=
  if get_truthy recommendations key then
    text ++ heading ++ [NL]
    ++ format_value py_str (item recommendations key) ++ tail
  else text.

(** The blocks of lines 19-25 and 33-39. *)
Definition add_list (text : str) (recommendations : pydict json)
           (key : string) (heading : str) : str :=
  if get_truthy recommendations key then
    match item recommendations key with
    | JArray (x :: xs) =>
        fold_left
          (fun text feature =>
             text ++ lit_bullet ++ format_value py_str feature ++ [NL])
          (x :: xs) (text ++ heading ++ [NL])
        ++ [NL]
    | _ => text
    end
  else text.

Definition format_recommendations (recommendations : pydict json) : str :=
  let text := lit_shown_header ++ [NL; NL] in
  let text := add_text text recommendations "tech_stack"
                lit_shown_tech_stack [NL; NL] in
  let text := add_text text recommendations "architecture"
                lit_shown_architecture [NL; NL] in
  let text := add_list text recommendations "key_features"
                lit_shown_key_features in
  let text := add_text text recommendations "scalability"
                lit_shown_scalability [NL; NL] in
  let text := add_text text recommendations "compliance"
                lit_shown_compliance [NL; NL] in
  let text := add_list text recommendations "risks" lit_shown_risks in
  add_text text recommendations "recommendation_summary"
    lit_shown_summary [NL].

End Values.

(** The keys that [format_recommendations] reads. *)
Definition shown_keys : list string :=
  ["tech_stack"; "architecture"; "key_features"; "scalability"; "compliance";
   "risks"; "recommendation_summary"]%string.

(** The dictionary behind a recommendation record. *)
Definition members_of (j : json) : pydict json :=
  match j with
  | JObject members => members
  | _ => []
  end.

(** What the user is shown for a fallback record with the given tech stack
    and summary. *)
Definition fallback_shown (tech summary : str) : str :=
  lit_shown_header ++ [NL; NL]
  ++ lit_shown_tech_stack ++ [NL] ++ tech ++ [NL; NL]
  ++ lit_shown_architecture ++ [NL] ++ placeholder ++ [NL; NL]
  ++ lit_shown_scalability ++ [NL] ++ placeholder ++ [NL; NL]
  ++ lit_shown_compliance ++ [NL] ++ placeholder ++ [NL; NL]
  ++ lit_shown_summary ++ [NL] ++ summary ++ [NL].

End Formatting.
Export Formatting.

(** ** Tactics *)

(** Closed texts: the lines are computed, then the heading test on each. *)
Ltac each_computed :=
  match goal with
  | |- Forall _ ?l => let v := eval vm_compute in l in change l with v
  end;
  repeat (apply List.Forall_cons; [vm_compute; repeat split|]);
  apply List.Forall_nil.

Ltac lines_not_headings := unfold no_heading; each_computed.


(** * Properties *)

(** ** Strings *)

Lemma str_eqb_eq (a b : str) : str_eqb a b = true <-> a = b.
Proof.
  revert b; induction a as [|x a IH]; intros [|y b]; simpl; split;
    try congruence; try discriminate.
  - rewrite andb_true_iff, N.eqb_eq, IH. intros [-> ->]; reflexivity.
  - intros [= -> ->]. rewrite N.eqb_refl. simpl. apply IH. reflexivity.
Qed.

Lemma str_eqb_refl (a : str) : str_eqb a a = true.
Proof. apply str_eqb_eq. reflexivity. Qed.

Lemma str_eqb_neq (a b : str) : str_eqb a b = false <-> a <> b.
Proof.
  rewrite <- str_eqb_eq. destruct (str_eqb a b); split; congruence.
Qed.

Lemma str_eqb_sym (a b : str) : str_eqb a b = str_eqb b a.
Proof.
  destruct (str_eqb a b) eqn:E.
  - apply str_eqb_eq in E. subst. symmetry. apply str_eqb_refl.
  - symmetry. apply str_eqb_neq. apply str_eqb_neq in E. congruence.
Qed.

(** ** Dictionaries *)

Lemma dict_keys_set {V : Type} (k : str) (v : V) (d : pydict V) :
  dict_keys (dict_set k v d) = add_key k (dict_keys d).
Proof.
  unfold add_key. induction d as [|[k' v'] d IH]; simpl; [reflexivity|].
  destruct (str_eqb k k') eqn:E; simpl; [reflexivity|].
  rewrite IH. destruct (existsb (str_eqb k) (dict_keys d)); reflexivity.
Qed.

Lemma filter_add_key_same (k : str) (ks : list str) :
  List.filter (fun x => negb (str_eqb k x)) (add_key k ks)
  = List.filter (fun x => negb (str_eqb k x)) ks.
Proof.
  unfold add_key. destruct (existsb (str_eqb k) ks); [reflexivity|].
  rewrite List.filter_app. simpl. rewrite str_eqb_refl. simpl. apply app_nil_r.
Qed.

Lemma existsb_filter_other (a k : str) (ks : list str) :
  str_eqb a k = false ->
  existsb (str_eqb k) (List.filter (fun x => negb (str_eqb a x)) ks)
  = existsb (str_eqb k) ks.
Proof.
  intros Hak. induction ks as [|x ks IH]; simpl; [reflexivity|].
  destruct (str_eqb a x) eqn:Eax; simpl.
  - apply str_eqb_eq in Eax. subst x.
    rewrite (str_eqb_sym k a), Hak. simpl. exact IH.
  - rewrite IH. reflexivity.
Qed.

Lemma first_occurrences_snoc (l : list str) (k : str) :
  first_occurrences (l ++ [k]) = add_key k (first_occurrences l).
Proof.
  induction l as [|a l IH]; simpl; [reflexivity|].
  rewrite IH. unfold add_key at 2. simpl.
  destruct (str_eqb k a) eqn:Eka; simpl.
  - apply str_eqb_eq in Eka. subst a. rewrite filter_add_key_same. reflexivity.
  - rewrite str_eqb_sym in Eka. rewrite (existsb_filter_other _ _ _ Eka).
    unfold add_key.
    destruct (existsb (str_eqb k) (first_occurrences l)); [reflexivity|].
    rewrite List.filter_app. simpl. rewrite Eka. reflexivity.
Qed.

(** ** The loop of [parse_sections] *)

Lemma startswith_cons_truthy (s : str) (c : char) :
  startswith s [c] = true -> truthy s = true.
Proof. destruct s; simpl; [discriminate | reflexivity]. Qed.

Lemma is_heading_truthy (line : str) :
  is_heading line = true -> truthy (strip line) = true.
Proof.
  unfold is_heading. rewrite andb_true_iff. intros [H _].
  exact (startswith_cons_truthy _ _ H).
Qed.

Lemma save_section_keys_content (secs : sections_dict) (cur : option str)
      (c1 c2 : list str) :
  dict_keys (save_section (PState secs cur c1))
  = dict_keys (save_section (PState secs cur c2)).
Proof.
  unfold save_section; simpl. destruct cur as [s|]; [|reflexivity].
  destruct (truthy s); [|reflexivity]. rewrite !dict_keys_set. reflexivity.
Qed.

Lemma parse_loop_keys (ls : list str) :
  dict_keys (save_section (fold_left parse_step ls parse_init))
  = first_occurrences (List.map strip (List.filter is_heading ls)).
Proof.
  induction ls as [|l ls IH] using rev_ind; [reflexivity|].
  rewrite fold_left_app, List.filter_app, List.map_app. simpl.
  set (st := fold_left parse_step ls parse_init) in *.
  unfold parse_step. destruct (is_heading l) eqn:Hl; simpl.
  - rewrite first_occurrences_snoc, <- IH.
    unfold save_section at 1; simpl.
    rewrite (is_heading_truthy _ Hl). apply dict_keys_set.
  - rewrite app_nil_r, <- IH.
    destruct (section_open (current_section st)); [|reflexivity].
    destruct st as [secs cur content]. apply save_section_keys_content.
Qed.

Lemma get_section_list_keys (prompt : str) :
  get_section_list prompt
  = match heading_lines prompt with
    | [] => [full_prompt_key]
    | hs => first_occurrences (List.map strip hs)
    end.
Proof.
  unfold get_section_list, parse_sections, heading_lines.
  pose proof (parse_loop_keys (split_lines prompt)) as H.
  destruct (save_section _) as [|kv secs] eqn:E.
  - destruct (List.filter is_heading (split_lines prompt)); [reflexivity|].
    discriminate H.
  - rewrite H. destruct (List.filter is_heading (split_lines prompt));
      [discriminate H | reflexivity].
Qed.

Lemma first_occurrences_NoDup (l : list str) :
  List.NoDup l -> first_occurrences l = l.
Proof.
  induction 1 as [|k l Hk Hl IH]; simpl; [reflexivity|].
  rewrite IH. f_equal. apply forallb_filter_id. apply forallb_forall.
  intros x Hx. apply negb_true_iff, str_eqb_neq. congruence.
Qed.

(** C1, as stated, fails: a document with two recognized heading lines of
    the same text has a single entry in its section list. *)
Lemma C1_repeated_heading_counterexample :
  let doc := doc_of ["# GOAL"; "x"; "# GOAL"; "y"]%string in
  List.length (heading_lines doc) = 2%nat
  /\ get_section_list doc = [py "# GOAL"]
  /\ get_section_list doc <> heading_lines doc.
Proof. vm_compute. repeat split; discriminate. Qed.

(** C1 (amended): the section list of a document is made of its recognized
    heading lines, trimmed, in order of first appearance, every distinct
    trimmed heading once; a document without a recognized heading has the
    single key "Полный промпт". *)
Theorem C1_section_list_first_occurrences (prompt : str) :
  get_section_list prompt
  = match heading_lines prompt with
    | [] => [full_prompt_key]
    | hs => first_occurrences (List.map strip hs)
    end.
Proof. apply get_section_list_keys. Qed.

(** With N >= 1 headings whose trimmed texts differ pairwise, the list has
    exactly N entries, the trimmed headings in document order. *)
Lemma get_section_list_distinct (prompt : str) :
  heading_lines prompt <> [] ->
  List.NoDup (List.map strip (heading_lines prompt)) ->
  get_section_list prompt = List.map strip (heading_lines prompt)
  /\ List.length (get_section_list prompt)
     = List.length (heading_lines prompt).
Proof.
  intros Hne Hnd. rewrite get_section_list_keys.
  destruct (heading_lines prompt) as [|h hs] eqn:E; [congruence|].
  rewrite (first_occurrences_NoDup _ Hnd). split; [reflexivity|].
  apply List.length_map.
Qed.

(** ** The question filter *)


Lemma endswith_singleton (q : str) (x : char) :
  endswith q [x] = match rev q with c :: _ => x =? c | [] => false end.
Proof.
  unfold endswith. simpl. destruct (rev q) as [|c r]; simpl;
    [reflexivity | apply andb_true_r].
Qed.

Lemma endswith_truthy (q : str) (x : char) :
  endswith q [x] = true -> truthy q = true.
Proof.
  rewrite endswith_singleton. destruct q; simpl; [discriminate | reflexivity].
Qed.


(** ** The recommendation normalizer *)

Lemma firstn_200_conditional (response : str) :
  (if (200 <? List.length response)%nat then firstn 200 response else response)
  = firstn 200 response.
Proof.
  destruct (Nat.ltb_spec 200 (List.length response)) as [H|H]; [reflexivity|].
  symmetry. apply firstn_all2. exact H.
Qed.

Lemma text_fallback_fields (response : str) :
  fallback_fields (firstn 200 response) response (text_fallback response).
Proof.
  unfold fallback_fields, text_fallback. rewrite firstn_200_conditional.
  repeat split; reflexivity.
Qed.

Lemma decode_error_fallback_fields (response : str) :
  fallback_fields placeholder response (decode_error_fallback response).
Proof. unfold fallback_fields, decode_error_fallback. repeat split; reflexivity. Qed.

Lemma normalize_no_brace_pair (json_loads : str -> loads_outcome)
      (response : str) :
  has_brace_pair response = false ->
  normalize_recommendations json_loads response
  = Ok (text_fallback response).
Proof.
  unfold has_brace_pair, normalize_recommendations. intros ->. reflexivity.
Qed.

Lemma normalize_decode_error (json_loads : str -> loads_outcome)
      (response : str) :
  has_brace_pair response = true ->
  json_loads (brace_substring response) = DecodeError ->
  normalize_recommendations json_loads response
  = Ok (decode_error_fallback response).
Proof.
  unfold has_brace_pair, brace_substring, normalize_recommendations.
  intros -> ->. reflexivity.
Qed.

(** C5, as stated, fails: on a response whose brace-delimited substring does
    not parse, the tech stack of the record is the placeholder, not the
    start of the response. *)
Lemma C5_decode_error_counterexample :
  ~ (forall (json_loads : str -> loads_outcome) (response : str),
        has_brace_pair response = false
        \/ json_loads (brace_substring response) = DecodeError ->
        exists record,
          normalize_recommendations json_loads response = Ok record
          /\ fallback_fields (firstn 200 response) response record).
Proof.
  intros H.
  destruct (H (fun _ => DecodeError) (py "{x}") (or_intror eq_refl))
    as (record & E & Htech & _).
  vm_compute in E. injection E as <-.
  vm_compute in Htech. discriminate Htech.
Qed.

(** C5 (amended): on a response without a brace pair the normalizer returns
    a record that has the first 200 characters of the response (all of it
    when shorter) as its tech stack; on a response whose brace-delimited
    substring fails to parse, it returns a record whose tech stack is the
    placeholder too.  In both cases architecture, scalability and
    compliance are the placeholder, key_features and risks are empty and
    recommendation_summary is the response. *)
Theorem C5_fallback_record (json_loads : str -> loads_outcome)
        (response : str) :
  has_brace_pair response = false
  \/ json_loads (brace_substring response) = DecodeError ->
  exists record,
    normalize_recommendations json_loads response = Ok record
    /\ fallback_fields
         (if has_brace_pair response then placeholder
          else firstn 200 response)
         response record.
Proof.
  intros H. destruct (has_brace_pair response) eqn:Hb.
  - destruct H as [H|H]; [discriminate H|].
    exists (decode_error_fallback response).
    split; [apply (normalize_decode_error _ _ Hb H)|].
    apply decode_error_fallback_fields.
  - exists (text_fallback response).
    split; [apply (normalize_no_brace_pair _ _ Hb)|].
    apply text_fallback_fields.
Qed.

Lemma C5_fallback_record_witness :
  (exists record,
      normalize_recommendations (fun _ => DecodeError) (py "{x}") = Ok record
      /\ fallback_fields placeholder (py "{x}") record)
  /\ (exists record,
         normalize_recommendations (fun _ => DecodeError) (py "use postgres")
         = Ok record
         /\ fallback_fields (py "use postgres") (py "use postgres") record).
Proof.
  split.
  - apply (C5_fallback_record (fun _ => DecodeError) (py "{x}")).
    right. reflexivity.
  - apply (C5_fallback_record (fun _ => DecodeError) (py "use postgres")).
    left. reflexivity.
Defined.

(** ** The retry loop *)

Lemma after_log_0 (w : world) : after_log w 0 [] = w.
Proof.
  destruct w. unfold after_log. simpl. rewrite Nat.add_0_r, app_nil_r.
  reflexivity.
Qed.

Lemma after_log_after_log (w : world) (n m : nat) (e1 e2 : list event) :
  after_log (after_log w n e1) m e2 = after_log w (n + m) (e1 ++ e2).
Proof.
  unfold after_log. simpl. rewrite Nat.add_assoc, app_assoc. reflexivity.
Qed.

Lemma service_errors_tail (w : world) (from n : nat) (evs : list event) :
  service_errors w from (S n) ->
  service_errors (after_log w 1 evs) (S from) n.
Proof.
  intros H i Hi. destruct (H (S i)) as [detail Hd]; [lia|].
  exists detail. simpl. rewrite <- Hd. f_equal. lia.
Qed.

(** [failures] failed attempts lead the loop to its iteration number
    [attempt + failures], the delay doubled that many times. *)
Lemma retry_loop_failures (failures : nat) :
  forall (remaining : nat) (attempt max_retries delay : Z)
         (system_prompt user_message : str) (w : world),
    (failures < remaining)%nat ->
    (attempt + Z.of_nat remaining = max_retries)%Z ->
    service_errors w (requests w) failures ->
    retry_loop remaining attempt max_retries delay system_prompt
               user_message w
    = retry_loop (remaining - failures) (attempt + Z.of_nat failures)%Z
                 max_retries (delay * 2 ^ Z.of_nat failures)%Z
                 system_prompt user_message
                 (after_log w failures
                    (failed_attempts system_prompt user_message delay
                       failures)).
Proof.
  induction failures as [|j IH]; intros remaining attempt max_retries delay
    system_prompt user_message w Hlt Hmax Herr.
  - rewrite after_log_0, Nat.sub_0_r, Z.add_0_r, Z.mul_1_r. reflexivity.
  - destruct remaining as [|r]; [lia|].
    destruct (Herr 0%nat ltac:(lia)) as [detail Hd].
    rewrite Nat.add_0_r in Hd.
    cbn [retry_loop]. unfold try_except at 1, create at 1. rewrite Hd.
    cbn [is_openai_error].
    replace (attempt <? max_retries - 1)%Z with true
      by (symmetry; apply Z.ltb_lt; lia).
    unfold bind at 1, sleep at 1.
    set (w1 := World _ _ _ _ _ _).
    assert (Hw1 : w1 = after_log w 1
               (failed_attempts system_prompt user_message delay 1)).
    { subst w1. unfold after_log. simpl. rewrite <- app_assoc, Nat.add_1_r.
      reflexivity. }
    rewrite Hw1.
    rewrite (IH r (attempt + 1)%Z max_retries (delay * 2)%Z system_prompt
               user_message); [| lia | lia |].
    + rewrite after_log_after_log.
      replace (attempt + 1 + Z.of_nat j)%Z with (attempt + Z.of_nat (S j))%Z
        by lia.
      replace (delay * 2 * 2 ^ Z.of_nat j)%Z with (delay * 2 ^ Z.of_nat (S j))%Z
        by (rewrite Nat2Z.inj_succ, Z.pow_succ_r by lia; lia).
      reflexivity.
    + simpl requests. rewrite Nat.add_1_r.
      apply service_errors_tail. exact Herr.
Qed.

Lemma retry_loop_last (remaining : nat) (attempt max_retries delay : Z)
      (system_prompt user_message : str) (w : world) :
  (0 < remaining)%nat ->
  retry_loop remaining attempt max_retries delay system_prompt user_message w
  = match service w (requests w) with
    | Responds content =>
        (Ok content, after_log w 1 [EvRequest system_prompt user_message])
    | Fails e =>
        if is_openai_error e && (attempt <? max_retries - 1)%Z then
          retry_loop (remaining - 1) (attempt + 1)%Z max_retries
                     (delay * 2)%Z system_prompt user_message
                     (after_log w 1 [EvRequest system_prompt user_message;
                                     EvSleep delay])
        else
          (Raise e, after_log w 1 [EvRequest system_prompt user_message])
    end.
Proof.
  intros Hpos. destruct remaining as [|r]; [lia|].
  cbn [retry_loop]. unfold try_except, create, after_log.
  rewrite !Nat.add_1_r.
  destruct (service w (requests w)) as [content|e]; [reflexivity|].
  destruct (is_openai_error e); [|reflexivity].
  destruct (attempt <? max_retries - 1)%Z; [|reflexivity].
  cbn [andb]. unfold bind, sleep. cbn. rewrite <- app_assoc, Nat.sub_0_r.
  reflexivity.
Qed.

(** What a call does after [failures] errors of the service, by the outcome
    of the request that follows them. *)
Lemma call_with_retry_after_failures (cfg : config)
      (system_prompt user_message : str) (max_attempts failures : nat)
      (w : world) :
  (failures < max_attempts)%nat ->
  service_errors w (requests w) failures ->
  _call_with_retry cfg system_prompt user_message (Z.of_nat max_attempts) w
  = let log := retry_log system_prompt user_message (RETRY_DELAY cfg)
                         failures in
    match service w (requests w + failures)%nat with
    | Responds content => (Ok content, after_log w (S failures) log)
    | Fails e =>
        if is_openai_error e && (S failures <? max_attempts)%nat then
          retry_loop (max_attempts - S failures) (Z.of_nat (S failures))
            (Z.of_nat max_attempts)
            (RETRY_DELAY cfg * 2 ^ Z.of_nat (S failures))%Z
            system_prompt user_message
            (after_log w (S failures)
               (failed_attempts system_prompt user_message (RETRY_DELAY cfg)
                  failures
                ++ [EvRequest system_prompt user_message;
                    EvSleep (RETRY_DELAY cfg * 2 ^ Z.of_nat failures)%Z]))
        else (Raise e, after_log w (S failures) log)
    end.
Proof.
  intros Hlt Herr. unfold _call_with_retry. rewrite Nat2Z.id.
  rewrite (retry_loop_failures failures) by (assumption || lia).
  rewrite retry_loop_last by lia.
  cbn [after_log service requests]. cbv zeta. unfold retry_log.
  destruct (service w (requests w + failures)%nat) as [content|e].
  - rewrite after_log_after_log, Nat.add_1_r. reflexivity.
  - replace (0 + Z.of_nat failures <? Z.of_nat max_attempts - 1)%Z
      with (S failures <? max_attempts)%nat.
    2:{ destruct (Nat.ltb_spec (S failures) max_attempts);
        symmetry; [apply Z.ltb_lt | apply Z.ltb_ge]; lia. }
    destruct (is_openai_error e && (S failures <? max_attempts)%nat).
    + rewrite after_log_after_log, Nat.add_1_r.
      replace (0 + Z.of_nat failures + 1)%Z with (Z.of_nat (S failures))
        by lia.
      replace (RETRY_DELAY cfg * 2 ^ Z.of_nat failures * 2)%Z
        with (RETRY_DELAY cfg * 2 ^ Z.of_nat (S failures))%Z
        by (rewrite Nat2Z.inj_succ, Z.pow_succ_r by lia; lia).
      replace (max_attempts - failures - 1)%nat
        with (max_attempts - S failures)%nat by lia.
      reflexivity.
    + rewrite after_log_after_log, Nat.add_1_r. reflexivity.
Qed.

Lemma failed_attempts_requests (sp um : str) (d : Z) (n : nat) :
  request_count (failed_attempts sp um d n) = n.
Proof.
  revert d; induction n as [|n IH]; intros d; [reflexivity|].
  unfold request_count in *. simpl. rewrite IH. reflexivity.
Qed.

Lemma failed_attempts_waits (sp um : str) (d : Z) (n : nat) :
  waits (failed_attempts sp um d n) = backoff d n.
Proof.
  revert d; induction n as [|n IH]; intros d; [reflexivity|].
  simpl. rewrite IH. reflexivity.
Qed.

Lemma backoff_nth (n : nat) :
  forall (d : Z) (i : nat),
    (i < n)%nat -> nth i (backoff d n) 0%Z = (d * 2 ^ Z.of_nat i)%Z.
Proof.
  induction n as [|n IH]; intros d i Hi; [lia|].
  destruct i as [|i]; cbn [backoff nth].
  - rewrite Z.pow_0_r. lia.
  - rewrite IH by lia. rewrite Nat2Z.inj_succ, Z.pow_succ_r by lia. lia.
Qed.

Lemma retry_log_facts (sp um : str) (d : Z) (failures : nat) :
  request_count (retry_log sp um d failures) = S failures
  /\ waits (retry_log sp um d failures) = backoff d failures
  /\ List.last (retry_log sp um d failures) (EvSleep 0) = EvRequest sp um.
Proof.
  unfold retry_log. repeat split.
  - unfold request_count. rewrite List.filter_app, List.length_app.
    fold (request_count (failed_attempts sp um d failures)).
    rewrite failed_attempts_requests. simpl. lia.
  - unfold waits. rewrite flat_map_app.
    fold (waits (failed_attempts sp um d failures)).
    rewrite failed_attempts_waits. simpl. apply app_nil_r.
  - apply last_last.
Qed.

(** C7: with a budget of [max_attempts >= 1] and base delay [d], a call that
    meets [k - 1] service errors and then a response ([k <= max_attempts])
    makes exactly [k] requests and [k - 1] waits of [d], [2d], [4d], ...,
    the last event being the request that succeeded, and returns the
    response; when all [max_attempts] requests meet a service error the last
    error is raised after exactly [max_attempts] requests, no wait following
    the last one; an error of another kind is raised by the attempt that
    meets it, with no further request and no wait after it. *)
Theorem C7_call_with_retry (cfg : config) (system_prompt user_message : str)
        (max_attempts : nat) (w : world) :
  (1 <= max_attempts)%nat ->
  let d := RETRY_DELAY cfg in
  let run := _call_with_retry cfg system_prompt user_message
               (Z.of_nat max_attempts) w in
  let log := retry_log system_prompt user_message d in
  (forall k content,
      (1 <= k <= max_attempts)%nat ->
      service_errors w (requests w) (k - 1) ->
      service w (requests w + (k - 1))%nat = Responds content ->
      run = (Ok content, after_log w k (log (k - 1)%nat)))
  /\ (forall detail,
         service_errors w (requests w) (max_attempts - 1) ->
         service w (requests w + (max_attempts - 1))%nat
         = Fails (OpenAIError detail) ->
         run = (Raise (OpenAIError detail),
                after_log w max_attempts (log (max_attempts - 1)%nat)))
  /\ (forall k e,
         (1 <= k <= max_attempts)%nat ->
         service_errors w (requests w) (k - 1) ->
         service w (requests w + (k - 1))%nat = Fails e ->
         is_openai_error e = false ->
         run = (Raise e, after_log w k (log (k - 1)%nat)))
  /\ (forall k,
         (1 <= k)%nat ->
         request_count (log (k - 1)%nat) = k
         /\ waits (log (k - 1)%nat) = backoff d (k - 1)
         /\ List.last (log (k - 1)%nat) (EvSleep 0)
            = EvRequest system_prompt user_message
         /\ forall i, (i < k - 1)%nat ->
              nth i (backoff d (k - 1)) 0%Z = (d * 2 ^ Z.of_nat i)%Z).
Proof.
  intros Hmax d run log. subst run log d. repeat split.
  - intros k content Hk Herr Hok.
    rewrite (call_with_retry_after_failures _ _ _ _ (k - 1)) by (assumption || lia).
    cbv zeta. rewrite Hok. replace (S (k - 1)) with k by lia. reflexivity.
  - intros detail Herr Hlast.
    rewrite (call_with_retry_after_failures _ _ _ _ (max_attempts - 1))
      by (assumption || lia).
    cbv zeta. rewrite Hlast. cbn [is_openai_error andb].
    replace (S (max_attempts - 1)) with max_attempts by lia.
    rewrite Nat.ltb_irrefl. reflexivity.
  - intros k e Hk Herr Hfail Hkind.
    rewrite (call_with_retry_after_failures _ _ _ _ (k - 1)) by (assumption || lia).
    cbv zeta. rewrite Hfail, Hkind. cbn [andb].
    replace (S (k - 1)) with k by lia. reflexivity.
  - destruct (retry_log_facts system_prompt user_message (RETRY_DELAY cfg)
                (k - 1)) as [Hc _]. rewrite Hc. lia.
  - apply retry_log_facts.
  - apply retry_log_facts.
  - intros i Hi. apply backoff_nth. exact Hi.
Qed.

Lemma failing_then_errors (n : nat) (text : str) (m : nat) :
  (m <= n)%nat -> service_errors (fresh_world (failing_then n text)) 0 m.
Proof.
  intros Hm i Hi. exists []. simpl. unfold failing_then.
  destruct (Nat.ltb_spec i n); [reflexivity | lia].
Qed.

Lemma C7_call_with_retry_witness :
  let sp := py "system" in
  let um := py "user" in
  (let w := fresh_world (failing_then 2 (py "ok")) in
   _call_with_retry repository_config sp um 3 w
   = (Ok (Some (py "ok")), after_log w 3 (retry_log sp um 1 2)))
  /\ (let w := fresh_world (failing_then 5 (py "ok")) in
      _call_with_retry repository_config sp um 3 w
      = (Raise (OpenAIError []), after_log w 3 (retry_log sp um 1 2)))
  /\ (let w := fresh_world (fun _ => Fails (OtherException [])) in
      _call_with_retry repository_config sp um 3 w
      = (Raise (OtherException []), after_log w 1 (retry_log sp um 1 0)))
  /\ waits (retry_log sp um 1 2) = [1; 2]%Z.
Proof.
  intros sp um. split; [|split; [|split]].
  - intros w.
    apply (proj1 (C7_call_with_retry repository_config sp um 3 w
                    ltac:(lia)) 3%nat (Some (py "ok")));
      [lia | apply failing_then_errors; lia | reflexivity].
  - intros w.
    apply (proj1 (proj2 (C7_call_with_retry repository_config sp um 3 w
                           ltac:(lia))) []);
      [apply failing_then_errors; lia | reflexivity].
  - intros w.
    apply (proj1 (proj2 (proj2 (C7_call_with_retry repository_config sp um 3 w
                                  ltac:(lia)))) 1%nat (OtherException []));
      [lia | intros i Hi; lia | reflexivity | reflexivity].
  - reflexivity.
Defined.

(** ** The session store *)

Lemma clear_session_lookup (w : world) (user_id : Z) :
  sessions (clear_session user_id w).2 !! user_id = None.
Proof.
  unfold clear_session. destruct (sessions w !! user_id) eqn:E; simpl.
  - apply lookup_delete_eq.
  - exact E.
Qed.

Lemma get_session_absent (w : world) (user_id now : Z) :
  sessions w !! user_id = None ->
  get_session user_id now w
  = (Ok (default_session now),
     World (<[user_id := default_session now]> (sessions w)) (fsm w)
           (outbox w) (service w) (requests w) (events w)).
Proof. intros H. unfold get_session. rewrite H. reflexivity. Qed.




(** ** Computations on the completion service alone *)

Lemma llm_only_ret {A : Type} (a : A) : llm_only (ret a).
Proof. intros w s f o. reflexivity. Qed.

Lemma llm_only_raise {A : Type} (e : exn) : llm_only (@raise A e).
Proof. intros w s f o. reflexivity. Qed.

Lemma llm_only_of_result {A : Type} (r : result A) : llm_only (of_result r).
Proof. intros w s f o. reflexivity. Qed.

Lemma llm_only_create (sp um : str) : llm_only (create sp um).
Proof.
  intros w s f o. unfold create. simpl.
  destruct (service w (requests w)); reflexivity.
Qed.

Lemma llm_only_sleep (d : Z) : llm_only (sleep d).
Proof. intros w s f o. reflexivity. Qed.

Lemma llm_only_bind {A B : Type} (m : M A) (k : A -> M B) :
  llm_only m -> (forall a, llm_only (k a)) -> llm_only (bind m k).
Proof.
  intros Hm Hk w s f o. unfold bind. rewrite Hm.
  destruct (m w) as [[a|e] w']; simpl.
  - apply Hk.
  - reflexivity.
Qed.

Lemma llm_only_try_except {A : Type} (m : M A) (h : exn -> M A) :
  llm_only m -> (forall e, llm_only (h e)) -> llm_only (try_except m h).
Proof.
  intros Hm Hh w s f o. unfold try_except. rewrite Hm.
  destruct (m w) as [[a|e] w']; simpl.
  - reflexivity.
  - apply Hh.
Qed.

Lemma llm_only_retry_loop (remaining : nat) :
  forall attempt max_retries delay sp um,
    llm_only (retry_loop remaining attempt max_retries delay sp um).
Proof.
  induction remaining as [|r IH]; intros attempt max_retries delay sp um.
  - apply llm_only_ret.
  - cbn [retry_loop]. apply llm_only_try_except; [apply llm_only_create|].
    intros e. destruct (is_openai_error e); [|apply llm_only_raise].
    destruct (attempt <? max_retries - 1)%Z; [|apply llm_only_raise].
    apply llm_only_bind; [apply llm_only_sleep | intros _; apply IH].
Qed.

Lemma llm_only_questions (cfg : config) (tpl : templates) (task : str) :
  llm_only (generate_clarification_questions cfg tpl task).
Proof.
  unfold generate_clarification_questions, _call_with_retry.
  apply llm_only_bind; [apply llm_only_retry_loop|].
  intros [text|]; [|apply llm_only_raise].
  destruct (truthy text); [apply llm_only_ret | apply llm_only_raise].
Qed.

Lemma llm_only_recommendations (json_loads : str -> loads_outcome)
      (cfg : config) (tpl : templates) (task : str)
      (answers : pydict (option str)) :
  llm_only (generate_recommendations json_loads cfg tpl task answers).
Proof.
  unfold generate_recommendations, _call_with_retry.
  apply llm_only_bind; [apply llm_only_retry_loop|].
  intros [text|]; [|apply llm_only_raise].
  destruct (truthy text); [apply llm_only_of_result | apply llm_only_raise].
Qed.

(** ** The handlers *)

Lemma session_update_run (g : session -> session) (user_id now : Z)
      (w : world) :
  (s <- get_session user_id now ;; set_sessions <[user_id := g s]>) w
  = (Ok tt,
     World (<[user_id := g (session_of w user_id now)]> (sessions w)) (fsm w)
           (outbox w) (service w) (requests w) (events w)).
Proof.
  unfold bind, get_session, session_of, set_sessions.
  destruct (sessions w !! user_id) eqn:E; simpl; [reflexivity|].
  rewrite insert_insert_eq. reflexivity.
Qed.

Lemma strip_length_nonempty (t : str) :
  (10 <= List.length (strip t))%nat -> truthy t = true.
Proof. destruct t; simpl; [lia | reflexivity]. Qed.

Lemma too_short_spec (text : option str) :
  too_short text = true
  <-> text = None
      \/ exists t, text = Some t /\ (List.length (strip t) < 10)%nat.
Proof.
  unfold too_short. destruct text as [t|].
  - split.
    + intros H. right. exists t. split; [reflexivity|].
      apply orb_true_iff in H. destruct H as [H|H].
      * destruct t; [simpl; lia | discriminate H].
      * apply Nat.ltb_lt. exact H.
    + intros [H|[t' [[= <-] H]]]; [discriminate H|].
      apply orb_true_iff. right. apply Nat.ltb_lt. exact H.
  - split; [intros _; left; reflexivity | reflexivity].
Qed.

Lemma process_task_description_short (cfg : config) (tpl : templates)
      (user_id : Z) (text : option str) (now : Z) (w : world) :
  too_short text = true ->
  process_task_description cfg tpl user_id text now w
  = (Ok tt,
     World (sessions w) (fsm w) (outbox w ++ [(user_id, TaskTooShort)])
           (service w) (requests w) (events w)).
Proof.
  intros H. unfold process_task_description.
  destruct text as [t|]; [rewrite H|]; reflexivity.
Qed.

Lemma process_task_description_long (cfg : config) (tpl : templates)
      (user_id : Z) (t : str) (now : Z) (w : world) :
  (10 <= List.length (strip t))%nat ->
  let gen := generate_clarification_questions cfg tpl t w in
  let recorded := with_task_description (session_of w user_id now) t in
  process_task_description cfg tpl user_id (Some t) now w
  = (Ok tt,
     match gen.1 with
     | Ok questions =>
         World (<[user_id := with_clarification_questions recorded questions]>
                  (sessions w))
               (<[user_id := waiting_for_clarification_answers]> (fsm w))
               (outbox w ++ [(user_id, TaskReceived);
                             (user_id, AskQuestions questions)])
               (service gen.2) (requests gen.2) (events gen.2)
     | Raise _ =>
         World (<[user_id := recorded]> (sessions w)) (fsm w)
               (outbox w ++ [(user_id, TaskReceived); (user_id, ErrorNotice)])
               (service gen.2) (requests gen.2) (events gen.2)
     end).
Proof.
  intros Hlen gen recorded. unfold process_task_description.
  assert (Hshort : too_short (Some t) = false).
  { unfold too_short. rewrite (strip_length_nonempty _ Hlen). simpl.
    apply Nat.ltb_ge. exact Hlen. }
  rewrite Hshort.
  unfold update_task_description.
  unfold bind at 1. rewrite session_update_run.
  unfold bind at 1, answer at 1. cbn [sessions fsm outbox service requests events].
  unfold try_except, bind at 1.
  rewrite (llm_only_questions cfg tpl t w). fold gen.
  destruct (gen.1) as [questions|e]; cbn [fst snd].
  - unfold set_clarification_questions. unfold bind at 1.
    rewrite session_update_run.
    cbn [sessions fsm outbox service requests events].
    unfold session_of at 1. cbn [sessions].
    rewrite lookup_insert_eq, insert_insert_eq.
    unfold bind, answer, set_state. cbn. rewrite <- app_assoc. reflexivity.
  - unfold answer. cbn. rewrite <- app_assoc. reflexivity.
Qed.

(** C8, as stated, fails: a description of ten characters or more does not
    move the dialogue on when the completion service keeps reporting errors;
    no question is stored and the user stays in the first state. *)
Lemma C8_service_down_counterexample :
  let w := world_in 7 waiting_for_task_description
             (fun _ => Fails (OpenAIError [])) in
  let text := py "Build a todo list app" in
  let w' := (process_task_description repository_config (Templates [] [] [])
               7 (Some text) 0 w).2 in
  (10 <= List.length (strip text))%nat
  /\ fsm w' !! 7%Z = Some waiting_for_task_description
  /\ fsm w' !! 7%Z <> Some waiting_for_clarification_answers
  /\ (clarification_questions <$> sessions w' !! 7%Z) = Some []
  /\ outbox w' = [(7%Z, TaskReceived); (7%Z, ErrorNotice)].
Proof. vm_compute. repeat split; try discriminate. lia. Qed.

(** C8 (amended): in the first state, a text that is absent or shorter than
    ten characters once trimmed gets the validation reply and changes
    neither the sessions nor the dialogue state; a text of at least ten
    characters once trimmed is recorded as the task description, and then,
    when the generation of the questions succeeds, the questions are stored
    and sent and the state becomes the one awaiting the answers, whereas
    when it raises, the user gets the failure notice and the state does not
    change. *)
Theorem C8_task_description (cfg : config) (tpl : templates) (user_id : Z)
        (text : option str) (now : Z) (w : world) :
  fsm w !! user_id = Some waiting_for_task_description ->
  let w' := (process_task_description cfg tpl user_id text now w).2 in
  (text = None
   \/ (exists t, text = Some t /\ (List.length (strip t) < 10)%nat) ->
   sessions w' = sessions w
   /\ fsm w' = fsm w
   /\ fsm w' !! user_id = Some waiting_for_task_description
   /\ outbox w' = outbox w ++ [(user_id, TaskTooShort)])
  /\ (forall t,
         text = Some t -> (10 <= List.length (strip t))%nat ->
         let recorded := with_task_description (session_of w user_id now) t in
         match (generate_clarification_questions cfg tpl t w).1 with
         | Ok questions =>
             sessions w' !! user_id
             = Some (with_clarification_questions recorded questions)
             /\ fsm w' !! user_id = Some waiting_for_clarification_answers
             /\ outbox w' = outbox w ++ [(user_id, TaskReceived);
                                         (user_id, AskQuestions questions)]
         | Raise _ =>
             sessions w' !! user_id = Some recorded
             /\ fsm w' = fsm w
             /\ fsm w' !! user_id = Some waiting_for_task_description
             /\ outbox w' = outbox w ++ [(user_id, TaskReceived);
                                         (user_id, ErrorNotice)]
         end).
Proof.
  intros Hstate w'. split.
  - intros Hshort. apply too_short_spec in Hshort.
    subst w'. rewrite (process_task_description_short _ _ _ _ _ _ Hshort).
    cbn. repeat split; try reflexivity. exact Hstate.
  - intros t -> Hlen recorded. subst w'.
    rewrite (process_task_description_long _ _ _ _ _ _ Hlen). cbn [snd].
    destruct (generate_clarification_questions cfg tpl t w).1; cbn.
    + repeat split; try reflexivity; apply lookup_insert_eq.
    + repeat split; try reflexivity; [apply lookup_insert_eq | exact Hstate].
Qed.

Lemma C8_task_description_witness :
  let tpl := Templates [] [] [] in
  let ask := doc_of ["1. Which platform?"; "2. Which users?"]%string in
  let w := world_in 7 waiting_for_task_description
             (fun _ => Responds (Some ask)) in
  (let w' := (process_task_description repository_config tpl 7
                (Some (py "  todo   ")) 0 w).2 in
   sessions w' = sessions w
   /\ fsm w' = fsm w
   /\ fsm w' !! 7%Z = Some waiting_for_task_description
   /\ outbox w' = outbox w ++ [(7%Z, TaskTooShort)])
  /\ (let w' := (process_task_description repository_config tpl 7
                   (Some (py "Build a todo list app")) 0 w).2 in
      let questions := [py "Which platform?"; py "Which users?"] in
      sessions w' !! 7%Z
      = Some (with_clarification_questions
                (with_task_description (session_of w 7 0)
                   (py "Build a todo list app")) questions)
      /\ fsm w' !! 7%Z = Some waiting_for_clarification_answers
      /\ outbox w' = outbox w ++ [(7%Z, TaskReceived);
                                  (7%Z, AskQuestions questions)]).
Proof.
  intros tpl ask w. split.
  - apply (proj1 (C8_task_description repository_config tpl 7
                    (Some (py "  todo   ")) 0 w eq_refl)).
    right. exists (py "  todo   "). split; [reflexivity | vm_compute; lia].
  - exact (proj2 (C8_task_description repository_config tpl 7
                    (Some (py "Build a todo list app")) 0 w eq_refl)
             (py "Build a todo list app") eq_refl
             ltac:(vm_compute; lia)).
Defined.

(** ** Answers under repeated questions *)

Lemma add_key_NoDup (k : str) (ks : list str) :
  List.NoDup ks -> List.NoDup (add_key k ks).
Proof.
  intros H. unfold add_key. destruct (existsb (str_eqb k) ks) eqn:E; [exact H|].
  apply List.NoDup_app; [exact H | repeat constructor; intros [] | ].
  intros x Hx [<-|[]].
  assert (existsb (str_eqb k) ks = true); [|congruence].
  apply existsb_exists. exists k. split; [exact Hx | apply str_eqb_refl].
Qed.

(** The answers hold at most one entry per question string after every
    recording step. *)
Lemma add_answer_one_entry_per_question (user_id now : Z) (question : str)
      (a : option str) (w : world) :
  List.NoDup (dict_keys (answers (session_of w user_id now))) ->
  List.NoDup
    (dict_keys
       (answers (session_of (add_answer user_id question a now w).2
                            user_id now))).
Proof.
  intros H. unfold add_answer. rewrite session_update_run. cbn [snd].
  unfold session_of at 1. cbn [sessions]. rewrite lookup_insert_eq.
  cbn [answers with_answers]. rewrite dict_keys_set.
  apply add_key_NoDup. exact H.
Qed.

Lemma get_session_present (w : world) (user_id now : Z) (s : session) :
  sessions w !! user_id = Some s -> get_session user_id now w = (Ok s, w).
Proof. intros H. unfold get_session. rewrite H. reflexivity. Qed.

(** One message against the questions [q; q; r], none or only [q] answered
    so far: the answer lands under [q] and nothing else moves. *)
Lemma repeated_question_step (cfg : config) (tpl : templates)
      (json_loads : str -> loads_outcome) (user_id now : Z)
      (text : option str) (q r : str) (s : session) (w : world) :
  sessions w !! user_id = Some s ->
  clarification_questions s = [q; q; r] ->
  answers s = [] \/ (exists a, answers s = [(q, a)]) ->
  exists s' sent,
    process_clarification_answer cfg tpl json_loads user_id text now w
    = (Ok tt,
       World (<[user_id := s']> (sessions w)) (fsm w) (outbox w ++ [sent])
             (service w) (requests w) (events w))
    /\ clarification_questions s' = [q; q; r]
    /\ answers s' = [(q, text)].
Proof.
  intros Hs Hq Ha. unfold process_clarification_answer.
  unfold bind at 1. rewrite (get_session_present _ _ _ _ Hs). rewrite Hq.
  assert (Hso : session_of w user_id now = s)
    by (unfold session_of; rewrite Hs; reflexivity).
  destruct Ha as [Ha|[a Ha]]; rewrite Ha; cbn [List.length Nat.leb index lookup].
  - exists (with_answers s [(q, text)]), (user_id, AnswerAccepted 1 3 q 2).
    split; [|split; [exact Hq | reflexivity]].
    cbn. unfold bind at 1, ret at 1. unfold bind at 1, add_answer.
    rewrite session_update_run, Hso, Ha. reflexivity.
  - exists (with_answers s [(q, text)]), (user_id, AnswerAccepted 2 3 r 1).
    split; [|split; [exact Hq | reflexivity]].
    cbn. unfold bind at 1, ret at 1. unfold bind at 1, add_answer.
    rewrite session_update_run, Hso, Ha. cbn [dict_set].
    rewrite str_eqb_refl. reflexivity.
Qed.

(** However many messages follow, the dialogue stays where it is and no
    recommendation is requested. *)
Lemma repeated_question_never_advances (cfg : config) (tpl : templates)
      (json_loads : str -> loads_outcome) (user_id now : Z) (q r : str)
      (texts : list (option str)) :
  forall (s : session) (w : world),
    fsm w !! user_id = Some waiting_for_clarification_answers ->
    sessions w !! user_id = Some s ->
    clarification_questions s = [q; q; r] ->
    answers s = [] \/ (exists a, answers s = [(q, a)]) ->
    let w' := (clarification_messages cfg tpl json_loads user_id texts now
                 w).2 in
    fsm w' = fsm w /\ requests w' = requests w /\ events w' = events w
    /\ List.length (outbox w') = (List.length (outbox w) + List.length texts)%nat.
Proof.
  induction texts as [|t texts IH]; intros s w Hst Hs Hq Ha.
  - cbn. repeat split; lia.
  - destruct (repeated_question_step cfg tpl json_loads user_id now t q r s w
                Hs Hq Ha) as (s' & sent & Hrun & Hq' & Ha').
    set (w1 := World _ _ _ _ _ _) in Hrun.
    assert (Heq : clarification_messages cfg tpl json_loads user_id
                    (t :: texts) now w
                  = clarification_messages cfg tpl json_loads user_id texts
                      now w1).
    { cbn [clarification_messages]. unfold bind at 1, get_state at 1.
      rewrite Hst. unfold bind at 1. rewrite Hrun. reflexivity. }
    cbv zeta. rewrite Heq.
    specialize (IH s' w1 Hst (lookup_insert_eq _ _ _) Hq'
                  (or_intror (ex_intro _ t Ha'))).
    cbv zeta in IH. destruct IH as (Hf & Hr & He & Ho).
    repeat split; try assumption.
    rewrite Ho. subst w1. cbn [outbox]. rewrite List.length_app. simpl. lia.
Qed.

(** C10: the questions "Which database?", "Which database?", "Which users?"
    come back from the service; three answers later the user is still in the
    state awaiting answers, the only stored answer is the third one under
    the repeated question, the last two replies both announce the third
    question as the next one, and no recommendation request was made. *)
Theorem C10_repeated_question_stalls :
  let tpl := Templates [] [] [] in
  let ask := doc_of ["1. Which database?"; "2. Which database?";
                     "3. Which users?"]%string in
  let w0 := world_in 7 waiting_for_task_description
              (fun _ => Responds (Some ask)) in
  let w1 := (process_task_description repository_config tpl 7
               (Some (py "Build a todo list app")) 0 w0).2 in
  let w2 := (clarification_messages repository_config tpl (fun _ => DecodeError) 7
               [Some (py "a1"); Some (py "a2"); Some (py "a3")] 0 w1).2 in
  (clarification_questions <$> sessions w1 !! 7%Z)
  = Some [py "Which database?"; py "Which database?"; py "Which users?"]
  /\ fsm w1 !! 7%Z = Some waiting_for_clarification_answers
  /\ fsm w2 !! 7%Z = Some waiting_for_clarification_answers
  /\ (answers <$> sessions w2 !! 7%Z)
     = Some [(py "Which database?", Some (py "a3"))]
  /\ skipn 2 (outbox w2)
     = [(7%Z, AnswerAccepted 1 3 (py "Which database?") 2);
        (7%Z, AnswerAccepted 2 3 (py "Which users?") 1);
        (7%Z, AnswerAccepted 2 3 (py "Which users?") 1)]
  /\ requests w2 = requests w1
  /\ events w2 = events w1.
Proof. vm_compute. repeat split. Qed.

(** With the repetition in last position the dialogue does advance: two
    messages, the first answer overwritten, one pair for two questions in
    the recommendation request. *)
Lemma repeated_last_question_overwrites :
  let tpl := Templates [] [] [] in
  let ask := doc_of ["1. Which database?"; "2. Which database?"]%string in
  let w0 := world_in 7 waiting_for_task_description
              (fun _ => Responds (Some ask)) in
  let w1 := (process_task_description repository_config tpl 7
               (Some (py "Build a todo list app")) 0 w0).2 in
  let w2 := (clarification_messages repository_config tpl (fun _ => DecodeError) 7
               [Some (py "a1"); Some (py "a2")] 0 w1).2 in
  fsm w2 !! 7%Z = Some showing_recommendations
  /\ (answers <$> sessions w2 !! 7%Z)
     = Some [(py "Which database?", Some (py "a2"))]
  /\ List.last (events w2) (EvSleep 0)
     = EvRequest []
         (recommendations_message (py "Build a todo list app")
            [(py "Which database?", Some (py "a2"))]).
Proof. vm_compute. repeat split. Qed.

(** ** Trimming *)

Lemma lstrip_all_ws (w : str) : all_ws w -> lstrip w = [].
Proof.
  induction 1 as [|c w Hc _ IH]; simpl; [reflexivity|]. rewrite Hc. exact IH.
Qed.

Lemma lstrip_ws_app (w s : str) : all_ws w -> lstrip (w ++ s) = lstrip s.
Proof.
  induction 1 as [|c w Hc _ IH]; simpl; [reflexivity|]. rewrite Hc. exact IH.
Qed.

Lemma lstrip_split (s : str) : exists w, all_ws w /\ s = w ++ lstrip s.
Proof.
  induction s as [|c s (w & Hw & IH)]; simpl.
  - exists []. split; [constructor | reflexivity].
  - destruct (isspace c) eqn:Hc.
    + exists (c :: w). split; [constructor; assumption|].
      simpl. f_equal. exact IH.
    + exists []. split; [constructor | reflexivity].
Qed.

Lemma lstrip_head (s : str) (c : char) (t : str) :
  lstrip s = c :: t -> isspace c = false.
Proof.
  induction s as [|x s IH]; simpl; [discriminate|].
  destruct (isspace x) eqn:Hx; [exact IH|]. intros [= <- _]. exact Hx.
Qed.

Lemma lstrip_nonws (c : char) (s : str) :
  isspace c = false -> lstrip (c :: s) = c :: s.
Proof. intros H. simpl. rewrite H. reflexivity. Qed.

Lemma lstrip_app (s t : str) :
  lstrip (s ++ t) = match lstrip s with [] => lstrip t | r => r ++ t end.
Proof.
  induction s as [|c s IH]; simpl; [destruct (lstrip t); reflexivity|].
  destruct (isspace c); [exact IH | reflexivity].
Qed.

Lemma rstrip_all_ws (w : str) : all_ws w -> rstrip w = [].
Proof.
  induction 1 as [|c w Hc _ IH]; simpl; [reflexivity|]. rewrite IH, Hc.
  reflexivity.
Qed.

Lemma rstrip_nil_all_ws (s : str) : rstrip s = [] -> all_ws s.
Proof.
  induction s as [|c s IH]; simpl; [constructor|].
  destruct (rstrip s) eqn:E; [|discriminate].
  destruct (isspace c) eqn:Hc; [|discriminate].
  intros _. constructor; [exact Hc | apply IH; reflexivity].
Qed.

Lemma rstrip_app_ws (s w : str) : all_ws w -> rstrip (s ++ w) = rstrip s.
Proof.
  intros Hw. induction s as [|c s IH]; simpl.
  - apply rstrip_all_ws. exact Hw.
  - rewrite IH. reflexivity.
Qed.

Lemma rstrip_app_keep (a b : str) :
  rstrip b <> [] -> rstrip (a ++ b) = a ++ rstrip b.
Proof.
  intros Hb. induction a as [|c a IH]; simpl; [reflexivity|].
  rewrite IH. destruct (a ++ rstrip b) eqn:E; [|reflexivity].
  destruct a; simpl in E; [contradiction | discriminate].
Qed.

Lemma rstrip_split (s : str) : exists w, all_ws w /\ s = rstrip s ++ w.
Proof.
  induction s as [|c s (w & Hw & IH)]; simpl.
  - exists []. split; [constructor | reflexivity].
  - destruct (rstrip s) as [|x r] eqn:E.
    + destruct (isspace c) eqn:Hc.
      * exists (c :: s). split; [|reflexivity].
        constructor; [exact Hc | apply rstrip_nil_all_ws; exact E].
      * exists s. split; [apply rstrip_nil_all_ws; exact E | reflexivity].
    + exists w. split; [exact Hw|]. simpl. f_equal. exact IH.
Qed.

Lemma rstrip_idem (s : str) : rstrip (rstrip s) = rstrip s.
Proof.
  induction s as [|c s IH]; simpl; [reflexivity|].
  destruct (rstrip s) as [|x r] eqn:E.
  - destruct (isspace c) eqn:Hc; simpl; [reflexivity|]. rewrite Hc. reflexivity.
  - change (rstrip (c :: x :: r) = c :: x :: r).
    cbn [rstrip] in *. rewrite IH. reflexivity.
Qed.

Lemma rstrip_head (c : char) (s : str) :
  isspace c = false -> exists r, rstrip (c :: s) = c :: r.
Proof.
  intros Hc. simpl. destruct (rstrip s) as [|x r].
  - rewrite Hc. exists []. reflexivity.
  - exists (x :: r). reflexivity.
Qed.

Lemma strip_idem (s : str) : strip (strip s) = strip s.
Proof.
  unfold strip. destruct (lstrip s) as [|c t] eqn:E; [reflexivity|].
  destruct (rstrip_head c t (lstrip_head _ _ _ E)) as [r Hr].
  rewrite Hr, (lstrip_nonws c r (lstrip_head _ _ _ E)), <- Hr.
  apply rstrip_idem.
Qed.

Lemma strip_ws_pad (w1 s w2 : str) :
  all_ws w1 -> all_ws w2 -> strip (w1 ++ s ++ w2) = strip s.
Proof.
  intros H1 H2. unfold strip. rewrite (lstrip_ws_app _ _ H1), lstrip_app.
  destruct (lstrip s) as [|c t] eqn:E.
  - rewrite (lstrip_all_ws _ H2). reflexivity.
  - apply rstrip_app_ws. exact H2.
Qed.

Lemma strip_app_ws (s w : str) : all_ws w -> strip (s ++ w) = strip s.
Proof. intros H. apply (strip_ws_pad [] s w); [constructor | exact H]. Qed.

Lemma strip_all_ws (w : str) : all_ws w -> strip w = [].
Proof. intros H. unfold strip. rewrite (lstrip_all_ws _ H). reflexivity. Qed.

Lemma strip_split (s : str) :
  exists w1 w2, all_ws w1 /\ all_ws w2 /\ s = w1 ++ strip s ++ w2.
Proof.
  destruct (lstrip_split s) as (w1 & H1 & E1).
  destruct (rstrip_split (lstrip s)) as (w2 & H2 & E2).
  exists w1, w2. repeat split; try assumption.
  unfold strip. rewrite <- E2. exact E1.
Qed.

Lemma strip_nonws_ends (s : str) (c : char) :
  s <> [] -> strip s = s ->
  (exists t, s = c :: t) -> isspace c = false.
Proof.
  intros _ Hs [t ->]. unfold strip in Hs.
  destruct (isspace c) eqn:Hc; [|reflexivity].
  exfalso. simpl in Hs. rewrite Hc in Hs.
  destruct (lstrip_split t) as (w & Hw & E).
  assert (Hlen : (List.length (rstrip (lstrip t)) <= List.length t)%nat).
  { destruct (rstrip_split (lstrip t)) as (w' & _ & E').
    rewrite E at 2. rewrite E' at 2. rewrite !List.length_app. lia. }
  rewrite Hs in Hlen. simpl in Hlen. lia.
Qed.

(** ** Lines *)

Lemma split_nonempty (sep : char) (s : str) : split sep s <> [].
Proof.
  destruct s as [|c s]; simpl; [discriminate|].
  destruct (c =? sep); [discriminate|]. destruct (split sep s); discriminate.
Qed.

Lemma split_cons_sep (sep : char) (s : str) :
  split sep (sep :: s) = [] :: split sep s.
Proof. simpl. rewrite N.eqb_refl. reflexivity. Qed.

Lemma split_cons_other (sep c : char) (s : str) :
  c <> sep ->
  split sep (c :: s)
  = (c :: hd [] (split sep s)) :: tl (split sep s).
Proof.
  intros Hc. simpl. apply N.eqb_neq in Hc. rewrite Hc.
  destruct (split sep s) eqn:E; [|reflexivity].
  destruct (split_nonempty _ _ E).
Qed.

Lemma split_app_sep (sep : char) (a b : str) :
  split sep (a ++ sep :: b) = split sep a ++ split sep b.
Proof.
  induction a as [|c a IH]; [apply split_cons_sep|].
  cbn [app split]. rewrite IH. destruct (c =? sep); [reflexivity|].
  destruct (split sep a) eqn:E; [destruct (split_nonempty _ _ E)|].
  reflexivity.
Qed.

Lemma split_nosep (sep : char) (l : str) :
  ~ In sep l -> split sep l = [l].
Proof.
  induction l as [|c l IH]; intros H; [reflexivity|].
  rewrite split_cons_other by (intros ->; apply H; left; reflexivity).
  rewrite IH by (intros Hin; apply H; right; exact Hin). reflexivity.
Qed.

Lemma split_lines_nosep (sep : char) (s : str) :
  Forall (fun l => ~ In sep l) (split sep s).
Proof.
  induction s as [|c s IH]; simpl.
  - repeat constructor. intros [].
  - destruct (N.eqb_spec c sep) as [->|Hc].
    + constructor; [intros [] | exact IH].
    + destruct (split sep s) as [|l ls]; inversion IH; subst.
      * repeat constructor. intros [H|[]]. congruence.
      * constructor; [|assumption]. intros [H|H]; [congruence | contradiction].
Qed.

Lemma join_cons (sep : str) (p : str) (ps : list str) :
  ps <> [] -> join sep (p :: ps) = p ++ sep ++ join sep ps.
Proof. destruct ps; [contradiction | reflexivity]. Qed.

Lemma join_split (sep : char) (s : str) : join [sep] (split sep s) = s.
Proof.
  induction s as [|c s IH]; [reflexivity|].
  destruct (N.eqb_spec c sep) as [->|Hc].
  - rewrite split_cons_sep, join_cons by apply split_nonempty.
    rewrite IH. reflexivity.
  - rewrite split_cons_other by exact Hc.
    destruct (split sep s) as [|l ls] eqn:E; [destruct (split_nonempty _ _ E)|].
    cbn [hd tl]. destruct ls as [|l' ls].
    + simpl in *. congruence.
    + rewrite join_cons by discriminate. rewrite join_cons in IH by discriminate.
      simpl. f_equal. exact IH.
Qed.

Lemma split_join (sep : char) (ls : list str) :
  ls <> [] -> split sep (join [sep] ls) = flat_map (split sep) ls.
Proof.
  induction ls as [|l ls IH]; intros H; [contradiction|].
  destruct ls as [|l' ls].
  - simpl. symmetry. apply app_nil_r.
  - rewrite join_cons by discriminate. cbn [app flat_map].
    rewrite split_app_sep, IH by discriminate. reflexivity.
Qed.

Lemma split_join_lines (sep : char) (ls : list str) :
  ls <> [] -> Forall (fun l => ~ In sep l) ls ->
  split sep (join [sep] ls) = ls.
Proof.
  intros Hne Hls. rewrite split_join by exact Hne.
  clear Hne. induction Hls as [|l ls Hl _ IH]; [reflexivity|].
  simpl. rewrite (split_nosep _ _ Hl), IH. reflexivity.
Qed.

(** The lines of a concatenation: the last line of the first part and the
    first line of the second part are glued. *)
Lemma split_app (sep : char) (a b : str) :
  split sep (a ++ b)
  = removelast (split sep a)
    ++ (List.last (split sep a) [] ++ hd [] (split sep b))
    :: tl (split sep b).
Proof.
  induction a as [|c a IH].
  - simpl. destruct (split sep b) eqn:E; [destruct (split_nonempty _ _ E)|].
    reflexivity.
  - cbn [app]. destruct (N.eqb_spec c sep) as [->|Hc].
    + rewrite !split_cons_sep, IH.
      destruct (split sep a) eqn:E; [destruct (split_nonempty _ _ E)|].
      reflexivity.
    + rewrite !split_cons_other by exact Hc. rewrite IH.
      destruct (split sep a) as [|l ls] eqn:E;
        [destruct (split_nonempty _ _ E)|].
      destruct ls as [|l' ls]; reflexivity.
Qed.

Lemma split_all_ws (sep : char) (w : str) :
  all_ws w -> Forall all_ws (split sep w).
Proof.
  induction 1 as [|c w Hc Hw IH]; simpl.
  - repeat constructor.
  - destruct (c =? sep); [constructor; [constructor | exact IH]|].
    destruct (split sep w) as [|l ls]; inversion IH; subst.
    + repeat constructor. exact Hc.
    + constructor; [constructor; assumption | assumption].
Qed.

Lemma removelast_last {A : Type} (l : list A) (d : A) :
  l <> [] -> l = removelast l ++ [List.last l d].
Proof. intros H. apply app_removelast_last. exact H. Qed.

(** ** Headings and surrounding whitespace *)

Lemma isspace_cases (c : char) :
  isspace c = true ->
  In c [9; 10; 11; 12; 13; 28; 29; 30; 31; 32; 133; 160; 5760; 8192; 8193;
        8194; 8195; 8196; 8197; 8198; 8199; 8200; 8201; 8202; 8232; 8233;
        8239; 8287; 12288].
Proof.
  unfold isspace. intros H.
  repeat match goal with
         | H : _ || _ = true |- _ => apply orb_true_iff in H; destruct H as [H|H]
         | H : _ && _ = true |- _ =>
             let H1 := fresh in
             let H2 := fresh in
             apply andb_true_iff in H; destruct H as [H1 H2]
         | H : (_ <=? _) = true |- _ => apply N.leb_le in H
         | H : (_ =? _) = true |- _ => apply N.eqb_eq in H
         end;
    cbn [In]; lia.
Qed.

(** The whitespace code points have no case and close the scans around a
    sigma. *)
Lemma whitespace_caseless (c : char) :
  isspace c = true ->
  upper_char c = [c] /\ lower_char c = [c] /\ neutral c = true.
Proof.
  intros H. apply isspace_cases in H. cbn [In] in H.
  repeat (destruct H as [<-|H]; [vm_compute; repeat split|]).
  contradiction.
Qed.

Lemma upper_app (a b : str) : upper (a ++ b) = upper a ++ upper b.
Proof. apply flat_map_app. Qed.

Lemma upper_ws (w : str) : all_ws w -> upper w = w.
Proof.
  induction 1 as [|c w Hc _ IH]; [reflexivity|].
  change (upper (c :: w)) with (upper_char c ++ upper w).
  rewrite IH. destruct (whitespace_caseless c Hc) as [-> _]. reflexivity.
Qed.

Lemma all_ws_upper (w : str) : all_ws w -> all_ws (upper w).
Proof. intros H. rewrite (upper_ws w H). exact H. Qed.

Lemma all_ws_app (a b : str) : all_ws a -> all_ws b -> all_ws (a ++ b).
Proof. intros Ha Hb. apply Forall_app. split; assumption. Qed.

Lemma startswith_app_ws (kw : str) :
  forall (u w : str),
    ends_nonws kw = true -> all_ws w ->
    startswith (u ++ w) kw = startswith u kw.
Proof.
  induction kw as [|k kw IH]; intros u w Hkw Hw; [discriminate Hkw|].
  destruct kw as [|k2 rest].
  - destruct u as [|y u]; [|reflexivity].
    destruct Hw as [|c w Hc _]; [reflexivity|]. simpl.
    simpl in Hkw. apply negb_true_iff in Hkw.
    destruct (N.eqb_spec k c) as [->|_]; [congruence | reflexivity].
  - assert (Hkw' : ends_nonws (k2 :: rest) = true) by exact Hkw.
    destruct u as [|y u].
    + destruct Hw as [|c w Hc Hw]; [reflexivity|].
      pose proof (IH [] w Hkw' Hw) as E. cbn [app] in E.
      change (startswith ([] ++ c :: w) (k :: k2 :: rest))
        with ((k =? c) && startswith w (k2 :: rest)).
      rewrite E. simpl. apply andb_false_r.
    + change (startswith ((y :: u) ++ w) (k :: k2 :: rest))
        with ((k =? y) && startswith (u ++ w) (k2 :: rest)).
      rewrite (IH u w Hkw' Hw). reflexivity.
Qed.

Lemma contains_ws_left (kw : str) (c : char) (s : str) :
  edges_nonws kw = true -> isspace c = true ->
  contains kw (c :: s) = contains kw s.
Proof.
  intros Hkw Hc. destruct kw as [|k kw]; [discriminate Hkw|].
  apply andb_true_iff in Hkw. destruct Hkw as [Hk _].
  apply negb_true_iff in Hk. cbn [contains startswith].
  destruct (N.eqb_spec k c) as [->|_]; [congruence|]. reflexivity.
Qed.

Lemma contains_all_ws (kw w : str) :
  edges_nonws kw = true -> all_ws w -> contains kw w = false.
Proof.
  intros Hkw. induction 1 as [|c w Hc _ IH].
  - destruct kw; [discriminate Hkw | reflexivity].
  - rewrite (contains_ws_left _ _ _ Hkw Hc). exact IH.
Qed.

Lemma contains_ws_app_left (kw w s : str) :
  edges_nonws kw = true -> all_ws w -> contains kw (w ++ s) = contains kw s.
Proof.
  intros Hkw. induction 1 as [|c w Hc _ IH]; [reflexivity|].
  cbn [app]. rewrite (contains_ws_left _ _ _ Hkw Hc). exact IH.
Qed.

Lemma edges_nonws_ends (kw : str) :
  edges_nonws kw = true -> ends_nonws kw = true.
Proof.
  destruct kw; [discriminate|]. unfold edges_nonws.
  intros H. apply andb_true_iff in H. apply H.
Qed.

Lemma contains_ws_app_right (kw u w : str) :
  edges_nonws kw = true -> all_ws w -> contains kw (u ++ w) = contains kw u.
Proof.
  intros Hkw Hw. induction u as [|y u IH].
  - cbn [app]. rewrite (contains_all_ws _ _ Hkw Hw).
    destruct kw; [discriminate Hkw | reflexivity].
  - change (contains kw ((y :: u) ++ w))
      with (startswith ((y :: u) ++ w) kw || contains kw (u ++ w)).
    change (contains kw (y :: u))
      with (startswith (y :: u) kw || contains kw u).
    rewrite IH.
    rewrite (startswith_app_ws kw (y :: u) w (edges_nonws_ends _ Hkw) Hw).
    reflexivity.
Qed.

Lemma section_keywords_edges :
  Forall (fun kw => edges_nonws kw = true) section_keywords.
Proof. repeat constructor. Qed.

Lemma existsb_ext_Forall {A : Type} (f g : A -> bool) (P : A -> Prop)
      (l : list A) :
  Forall P l -> (forall x, P x -> f x = g x) -> existsb f l = existsb g l.
Proof.
  intros Hl Hfg. induction Hl as [|x l Hx _ IH]; [reflexivity|].
  simpl. rewrite (Hfg x Hx), IH. reflexivity.
Qed.

Lemma is_heading_pad (w1 l w2 : str) :
  all_ws w1 -> all_ws w2 -> is_heading (w1 ++ l ++ w2) = is_heading l.
Proof.
  intros H1 H2. unfold is_heading. rewrite (strip_ws_pad _ _ _ H1 H2).
  f_equal. apply (existsb_ext_Forall _ _ _ _ section_keywords_edges).
  intros kw Hkw. rewrite !upper_app.
  rewrite (contains_ws_app_left _ _ _ Hkw (all_ws_upper _ H1)).
  apply (contains_ws_app_right _ _ _ Hkw (all_ws_upper _ H2)).
Qed.

Lemma is_heading_pad_left (w l : str) :
  all_ws w -> is_heading (w ++ l) = is_heading l.
Proof.
  intros H. rewrite <- (app_nil_r l) at 1.
  apply is_heading_pad; [exact H | constructor].
Qed.

Lemma is_heading_pad_right (l w : str) :
  all_ws w -> is_heading (l ++ w) = is_heading l.
Proof. intros H. apply (is_heading_pad [] l w); [constructor | exact H]. Qed.

Lemma is_heading_strip (l : str) : is_heading (strip l) = is_heading l.
Proof.
  destruct (strip_split l) as (w1 & w2 & H1 & H2 & E).
  rewrite E at 2. symmetry. apply is_heading_pad; assumption.
Qed.

Lemma is_heading_all_ws (w : str) : all_ws w -> is_heading w = false.
Proof.
  intros H. unfold is_heading. rewrite (strip_all_ws _ H). reflexivity.
Qed.

Lemma Forall_hd {A : Type} (P : A -> Prop) (l : list A) (d : A) :
  P d -> Forall P l -> P (hd d l).
Proof. intros Hd Hl. destruct Hl; assumption. Qed.

Lemma Forall_last {A : Type} (P : A -> Prop) (l : list A) (d : A) :
  P d -> Forall P l -> P (List.last l d).
Proof.
  intros Hd Hl. induction Hl as [|x l Hx Hl IH]; [exact Hd|].
  destruct l; [exact Hx | exact IH].
Qed.

Lemma all_ws_nil : all_ws [].
Proof. constructor. Qed.

Lemma no_heading_lstrip (s : str) : no_heading s -> no_heading (lstrip s).
Proof.
  unfold no_heading, split_lines.
  destruct (lstrip_split s) as (w & Hw & E). intros H.
  rewrite E, split_app in H.
  apply Forall_app in H. destruct H as [_ H]. inversion H as [|x l Hx Hl]; subst.
  pose proof (Forall_last _ _ [] all_ws_nil (split_all_ws NL w Hw)) as Hlast.
  rewrite (is_heading_pad_left _ _ Hlast) in Hx.
  destruct (split NL (lstrip s)) as [|l0 ls] eqn:El;
    [destruct (split_nonempty _ _ El)|].
  constructor; assumption.
Qed.

Lemma no_heading_rstrip (s : str) : no_heading s -> no_heading (rstrip s).
Proof.
  unfold no_heading, split_lines.
  destruct (rstrip_split s) as (w & Hw & E). intros H.
  rewrite E, split_app in H.
  apply Forall_app in H. destruct H as [Hfront H].
  inversion H as [|x l Hx Hl]; subst.
  pose proof (Forall_hd _ _ [] all_ws_nil (split_all_ws NL w Hw)) as Hhd.
  rewrite (is_heading_pad_right _ _ Hhd) in Hx.
  rewrite (removelast_last (split NL (rstrip s)) []) by apply split_nonempty.
  apply Forall_app. split; [exact Hfront | repeat constructor; exact Hx].
Qed.

Lemma no_heading_strip (s : str) : no_heading s -> no_heading (strip s).
Proof. intros H. apply no_heading_rstrip, no_heading_lstrip, H. Qed.

Lemma no_heading_nil : no_heading [].
Proof. repeat constructor. Qed.

Lemma no_heading_join (ls : list str) :
  Forall no_heading ls -> no_heading (join_lines ls).
Proof.
  intros H. unfold no_heading, join_lines, split_lines.
  destruct ls as [|l ls]; [apply no_heading_nil|].
  rewrite split_join by discriminate.
  induction H as [|x xs Hx _ IH]; [constructor|].
  simpl. apply Forall_app. split; assumption.
Qed.

Lemma no_heading_line (l : str) :
  ~ In NL l -> is_heading l = false -> no_heading l.
Proof.
  intros Hnl Hl. unfold no_heading, split_lines.
  rewrite (split_nosep _ _ Hnl). repeat constructor. exact Hl.
Qed.

(** ** The loop of [parse_sections], section by section *)

Lemma parse_step_heading (st : pstate) (line : str) :
  is_heading line = true ->
  parse_step st line = PState (save_section st) (Some (strip line)) [].
Proof. intros H. unfold parse_step. rewrite H. reflexivity. Qed.

Lemma parse_body (body : list str) :
  forall (secs : sections_dict) (cur : option str) (content : list str),
    Forall (fun l => is_heading l = false) body ->
    section_open cur = true ->
    fold_left parse_step body (PState secs cur content)
    = PState secs cur (content ++ body).
Proof.
  induction body as [|l body IH]; intros secs cur content Hb Hopen.
  - rewrite app_nil_r. reflexivity.
  - inversion Hb as [|x xs Hl Hrest]; subst. cbn [fold_left].
    unfold parse_step at 2. rewrite Hl. cbn [current_section]. rewrite Hopen.
    cbn [sections current_content]. rewrite (IH _ _ _ Hrest Hopen).
    rewrite <- app_assoc. reflexivity.
Qed.

Lemma parse_skip (pre : list str) (st : pstate) :
  Forall (fun l => is_heading l = false) pre ->
  section_open (current_section st) = false ->
  fold_left parse_step pre st = st.
Proof.
  intros Hpre Hclosed. induction Hpre as [|l pre Hl _ IH]; [reflexivity|].
  cbn [fold_left]. unfold parse_step at 2. rewrite Hl, Hclosed. exact IH.
Qed.

Lemma wf_key_open (k : str) : wf_key k -> section_open (Some k) = true.
Proof.
  intros (Hk & Hs & _). simpl. rewrite <- Hs. apply is_heading_truthy, Hk.
Qed.

Lemma save_section_open (secs : sections_dict) (k : str)
      (content : list str) :
  wf_key k ->
  save_section (PState secs (Some k) content)
  = dict_set k (strip (join_lines content)) secs.
Proof.
  intros Hk. unfold save_section. cbn [current_section sections current_content].
  pose proof (wf_key_open k Hk) as Hopen. simpl in Hopen. rewrite Hopen.
  reflexivity.
Qed.

(** A document made of groups, a heading line followed by lines that are
    not headings, is read group by group. *)
Lemma parse_groups (groups : list (str * list str)) :
  forall st : pstate,
    Forall (fun g => wf_key (fst g)
                     /\ Forall (fun l => is_heading l = false) (snd g))
           groups ->
    save_section
      (fold_left parse_step (flat_map (fun g => fst g :: snd g) groups) st)
    = fold_left
        (fun d g => dict_set (fst g) (strip (join_lines (snd g))) d)
        groups (save_section st).
Proof.
  induction groups as [|[k body] groups IH]; intros st Hg; [reflexivity|].
  inversion Hg as [|g gs [Hk Hbody] Hrest]; subst. cbn [fst snd] in *.
  cbn [flat_map fst snd]. rewrite <- app_comm_cons. cbn [fold_left].
  rewrite fold_left_app. destruct Hk as (Hhead & Hstrip & Hnl).
  rewrite (parse_step_heading _ _ Hhead), Hstrip.
  rewrite (parse_body body _ _ _ Hbody
             (wf_key_open k (conj Hhead (conj Hstrip Hnl)))).
  rewrite (IH _ Hrest). cbn [fold_left fst snd app].
  rewrite (save_section_open _ _ _ (conj Hhead (conj Hstrip Hnl))).
  reflexivity.
Qed.

Lemma dict_set_fresh {V : Type} (k : str) (v : V) (d : pydict V) :
  ~ In k (dict_keys d) -> dict_set k v d = d ++ [(k, v)].
Proof.
  induction d as [|[k' v'] d IH]; intros H; [reflexivity|].
  simpl. destruct (str_eqb k k') eqn:E.
  - apply str_eqb_eq in E. subst. exfalso. apply H. left. reflexivity.
  - rewrite IH; [reflexivity|]. intros Hin. apply H. right. exact Hin.
Qed.

Lemma fold_dict_set_distinct {A : Type} (f : A -> str) (d : list (str * A)) :
  forall acc : sections_dict,
    List.NoDup (dict_keys acc ++ List.map fst d) ->
    fold_left (fun a g => dict_set (fst g) (f (snd g)) a) d acc
    = acc ++ List.map (fun g => (fst g, f (snd g))) d.
Proof.
  induction d as [|[k c] d IH]; intros acc Hnd.
  - symmetry. apply app_nil_r.
  - cbn [fold_left List.map fst snd] in *.
    assert (Hfresh : ~ In k (dict_keys acc)).
    { apply NoDup_remove_2 in Hnd. intros Hin. apply Hnd.
      apply in_or_app. left. exact Hin. }
    rewrite (dict_set_fresh _ _ _ Hfresh), IH.
    + rewrite <- app_assoc. reflexivity.
    + unfold dict_keys in *. rewrite List.map_app, <- app_assoc. exact Hnd.
Qed.

(** ** Reading a trimmed document *)

Lemma isspace_NL : isspace NL = true.
Proof. reflexivity. Qed.

Lemma all_ws_join (ls : list str) :
  Forall all_ws ls -> all_ws (join_lines ls).
Proof.
  unfold join_lines. induction 1 as [|l ls Hl Hls IH]; [constructor|].
  destruct ls as [|l' ls]; [exact Hl|].
  rewrite join_cons by discriminate.
  apply all_ws_app; [exact Hl|]. constructor; [exact isspace_NL | exact IH].
Qed.

Lemma all_ws_glue (ls : list str) :
  Forall all_ws ls -> all_ws (flat_map (fun w => [NL] ++ w) ls).
Proof.
  induction 1 as [|l ls Hl _ IH]; [constructor|].
  simpl. constructor; [exact isspace_NL|]. apply all_ws_app; assumption.
Qed.

Lemma join_head_tail (sep l : str) (ls : list str) :
  join sep (l :: ls) = l ++ flat_map (fun w => sep ++ w) ls.
Proof.
  revert l; induction ls as [|w ls IH]; intros l.
  - simpl. symmetry. apply app_nil_r.
  - rewrite join_cons by discriminate. rewrite IH. simpl.
    rewrite <- !app_assoc. reflexivity.
Qed.

Lemma join_app_tail (sep : str) (front : list str) (l : str)
      (ls : list str) :
  join sep (front ++ l :: ls)
  = join sep (front ++ [l]) ++ flat_map (fun w => sep ++ w) ls.
Proof.
  induction front as [|a front IH].
  - cbn [app]. rewrite join_head_tail. reflexivity.
  - cbn [app]. rewrite !join_cons by (destruct front; discriminate).
    rewrite IH, <- !app_assoc. reflexivity.
Qed.

Lemma join_app_last (sep : str) (front : list str) (l x : str) :
  join sep (front ++ [l ++ x]) = join sep (front ++ [l]) ++ x.
Proof.
  induction front as [|a front IH]; [reflexivity|].
  cbn [app]. rewrite !join_cons by (destruct front; discriminate).
  rewrite IH, <- !app_assoc. reflexivity.
Qed.

Lemma Forall_ws_no_heading (ls : list str) :
  Forall all_ws ls -> Forall (fun l => is_heading l = false) ls.
Proof.
  intros H. eapply List.Forall_impl; [|exact H].
  intros l Hl. apply is_heading_all_ws, Hl.
Qed.

Lemma Forall_removelast {A : Type} (P : A -> Prop) (l : list A) :
  Forall P l -> Forall P (removelast l).
Proof.
  induction 1 as [|x l Hx Hl IH]; [constructor|].
  destruct l; [constructor|]. constructor; assumption.
Qed.

Lemma Forall_tl {A : Type} (P : A -> Prop) (l : list A) :
  Forall P l -> Forall P (tl l).
Proof. intros H. destruct H; [constructor | assumption]. Qed.

Lemma parse_fold_lstrip (s : str) :
  fold_left parse_step (split_lines (lstrip s)) parse_init
  = fold_left parse_step (split_lines s) parse_init.
Proof.
  unfold split_lines. destruct (lstrip_split s) as (w & Hw & E).
  rewrite E at 2. rewrite split_app.
  pose proof (split_all_ws NL w Hw) as Hlines.
  rewrite fold_left_app.
  rewrite (parse_skip _ parse_init
             (Forall_ws_no_heading _ (Forall_removelast _ _ Hlines)) eq_refl).
  pose proof (Forall_last _ _ [] all_ws_nil Hlines) as Hlast.
  destruct (split NL (lstrip s)) as [|l ls] eqn:El;
    [destruct (split_nonempty _ _ El)|].
  cbn [hd tl fold_left]. f_equal.
  unfold parse_step. rewrite (is_heading_pad_left _ _ Hlast).
  rewrite <- (app_nil_r (List.last (split NL w) [] ++ l)), <- app_assoc.
  rewrite (strip_ws_pad _ _ [] Hlast all_ws_nil). reflexivity.
Qed.

Lemma parse_lines_rstrip (s : str) :
  parse_lines (split_lines (rstrip s)) = parse_lines (split_lines s).
Proof.
  unfold parse_lines, split_lines. destruct (rstrip_split s) as (w & Hw & E).
  rewrite E at 2. rewrite split_app.
  pose proof (split_all_ws NL w Hw) as Hlines.
  pose proof (Forall_hd _ _ [] all_ws_nil Hlines) as Hhd.
  pose proof (Forall_tl _ _ Hlines) as Htl.
  set (w1 := hd [] (split NL w)) in *. set (W := tl (split NL w)) in *.
  rewrite (removelast_last (split NL (rstrip s)) []) at 1
    by apply split_nonempty.
  set (L := removelast (split NL (rstrip s))).
  set (l := List.last (split NL (rstrip s)) []).
  rewrite !fold_left_app. cbn [fold_left].
  set (st := fold_left parse_step L parse_init).
  unfold parse_step at 1 3. rewrite (is_heading_pad_right _ _ Hhd).
  destruct (is_heading l) eqn:Hl.
  - rewrite (strip_app_ws _ _ Hhd).
    assert (Hopen : section_open (Some (strip l)) = true)
      by (apply (is_heading_truthy _ Hl)).
    rewrite (parse_body W _ _ _ (Forall_ws_no_heading _ Htl) Hopen).
    unfold save_section. cbn [current_section sections current_content].
    simpl in Hopen. rewrite Hopen. cbn [app].
    rewrite (strip_all_ws _ (all_ws_join _ Htl)). reflexivity.
  - destruct (section_open (current_section st)) eqn:Hopen.
    + rewrite (parse_body W _ _ _ (Forall_ws_no_heading _ Htl) Hopen).
      unfold save_section. cbn [current_section sections current_content].
      destruct (current_section st) as [k|]; [|reflexivity].
      destruct (truthy k); [|reflexivity]. f_equal.
      rewrite <- app_assoc. cbn [app]. unfold join_lines.
      rewrite (join_app_tail [NL] (current_content st) (l ++ w1) W).
      rewrite join_app_last, <- app_assoc.
      symmetry. apply strip_app_ws. apply all_ws_app; [exact Hhd|].
      apply all_ws_glue. exact Htl.
    + rewrite (parse_skip W st (Forall_ws_no_heading _ Htl) Hopen).
      reflexivity.
Qed.

Lemma parse_lines_strip (s : str) :
  parse_lines (split_lines (strip s)) = parse_lines (split_lines s).
Proof.
  unfold strip. rewrite parse_lines_rstrip. unfold parse_lines.
  rewrite parse_fold_lstrip. reflexivity.
Qed.

(** ** Writing sections out and reading them back *)

Lemma parse_sections_unfold (prompt : str) :
  parse_sections prompt
  = match parse_lines (split_lines prompt) with
    | [] => [(full_prompt_key, prompt)]
    | secs => secs
    end.
Proof. reflexivity. Qed.

Lemma split_lines_flatten (d : sections_dict) :
  Forall (fun kc => ~ In NL (fst kc)) d ->
  flat_map split_lines (flatten_sections d)
  = flat_map (fun g => fst g :: snd g)
      (List.map (fun kc => (fst kc, split_lines (snd kc) ++ [[]])) d).
Proof.
  induction 1 as [|[k c] d Hk _ IH]; [reflexivity|].
  cbn [flatten_sections flat_map List.map fst snd app] in *.
  unfold flatten_sections in IH. rewrite IH.
  unfold split_lines at 1. rewrite (split_nosep _ _ Hk).
  cbn [app]. rewrite <- app_assoc. reflexivity.
Qed.

Lemma join_lines_snoc_empty (ls : list str) :
  ls <> [] -> join_lines (ls ++ [[]]) = join_lines ls ++ [NL].
Proof.
  intros H. unfold join_lines.
  rewrite (removelast_last ls []) at 1 by exact H.
  rewrite <- app_assoc. cbn [app].
  rewrite join_app_tail, <- (removelast_last ls []) by exact H.
  reflexivity.
Qed.

Lemma strip_join_split_snoc (c : str) :
  strip (join_lines (split_lines c ++ [[]])) = strip c.
Proof.
  rewrite join_lines_snoc_empty by apply split_nonempty.
  unfold join_lines, split_lines. rewrite join_split.
  apply strip_app_ws. repeat constructor.
Qed.

Lemma flatten_nonempty (d : sections_dict) :
  d <> [] -> flatten_sections d <> [].
Proof. destruct d as [|[k c] d]; [contradiction | discriminate]. Qed.

(** Well-formed sections, written out by [rebuild], are read back by
    [parse_sections] with their contents trimmed. *)
Lemma parse_rebuild (d : sections_dict) :
  d <> [] -> well_formed d ->
  parse_sections (rebuild d) = strip_contents d.
Proof.
  intros Hne [Hnd Hwf]. rewrite parse_sections_unfold. unfold rebuild.
  rewrite parse_lines_strip. unfold split_lines at 1, join_lines.
  rewrite split_join by (apply flatten_nonempty; exact Hne).
  fold split_lines. rewrite split_lines_flatten.
  2:{ eapply List.Forall_impl; [|exact Hwf]. intros kc [(_ & _ & H) _]. exact H. }
  unfold parse_lines. rewrite parse_groups.
  2:{ apply Forall_map. eapply List.Forall_impl; [|exact Hwf].
      intros [k c] [Hk Hc]. cbn [fst snd] in *. split; [exact Hk|].
      apply Forall_app. split; [exact Hc | repeat constructor]. }
  change (save_section parse_init) with ([] : sections_dict).
  rewrite (fold_dict_set_distinct (fun body => strip (join_lines body))).
  2:{ cbn [dict_keys List.map app]. rewrite List.map_map. exact Hnd. }
  cbn [app]. rewrite List.map_map. cbn [fst snd].
  assert (E : List.map (fun x : str * str =>
                          (fst x, strip (join_lines (split_lines (snd x) ++ [[]]))))
                       d
              = strip_contents d).
  { unfold strip_contents. apply List.map_ext. intros [k c]. cbn [fst snd].
    rewrite strip_join_split_snoc. reflexivity. }
  rewrite E. destruct d; [contradiction | reflexivity].
Qed.

(** ** The sections of a parsed document are well-formed *)

Lemma Forall_dict_set (P : str * str -> Prop) (k v : str)
      (d : sections_dict) :
  P (k, v) -> Forall P d -> Forall P (dict_set k v d).
Proof.
  intros Hkv. induction 1 as [|[k' v'] d Hx Hd IH]; simpl.
  - repeat constructor. exact Hkv.
  - destruct (str_eqb k k') eqn:E.
    + apply str_eqb_eq in E. subst k'. constructor; assumption.
    + constructor; assumption.
Qed.

Lemma dict_keys_set_NoDup {V : Type} (k : str) (v : V) (d : pydict V) :
  List.NoDup (dict_keys d) -> List.NoDup (dict_keys (dict_set k v d)).
Proof. intros H. rewrite dict_keys_set. apply add_key_NoDup, H. Qed.

Lemma strip_no_NL (l : str) : ~ In NL l -> ~ In NL (strip l).
Proof.
  intros H Hin. apply H. destruct (strip_split l) as (w1 & w2 & _ & _ & E).
  rewrite E. apply in_or_app. right. apply in_or_app. left. exact Hin.
Qed.

Lemma wf_key_strip (line : str) :
  is_heading line = true -> ~ In NL line -> wf_key (strip line).
Proof.
  intros Hh Hnl. repeat split.
  - rewrite is_heading_strip. exact Hh.
  - apply strip_idem.
  - apply strip_no_NL, Hnl.
Qed.

Lemma content_no_heading (content : list str) :
  Forall (fun l => is_heading l = false /\ ~ In NL l) content ->
  no_heading (strip (join_lines content)).
Proof.
  intros H. apply no_heading_strip, no_heading_join.
  eapply List.Forall_impl; [|exact H]. intros l [Hl Hnl].
  apply no_heading_line; assumption.
Qed.

Lemma save_section_inv (st : pstate) :
  parse_inv st ->
  List.NoDup (dict_keys (save_section st))
  /\ Forall stored_entry (save_section st).
Proof.
  intros (Hnd & Hsecs & Hcur & Hcontent). unfold save_section.
  destruct (current_section st) as [k|]; [|split; assumption].
  destruct (truthy k); [|split; assumption]. split.
  - apply dict_keys_set_NoDup, Hnd.
  - apply Forall_dict_set; [|exact Hsecs].
    split; [exact (Hcur k eq_refl)|]. cbn [snd].
    split; [apply content_no_heading, Hcontent | apply strip_idem].
Qed.

Lemma parse_step_inv (st : pstate) (line : str) :
  parse_inv st -> ~ In NL line -> parse_inv (parse_step st line).
Proof.
  intros Hinv Hnl. unfold parse_step. destruct (is_heading line) eqn:Hh.
  - destruct (save_section_inv st Hinv) as [Hnd Hsecs].
    split; [exact Hnd|]. split; [exact Hsecs|]. split; [|constructor].
    intros k [= <-]. apply wf_key_strip; assumption.
  - destruct (section_open (current_section st)); [|exact Hinv].
    destruct Hinv as (Hnd & Hsecs & Hcur & Hcontent).
    split; [exact Hnd|]. split; [exact Hsecs|]. split; [exact Hcur|].
    cbn [current_content]. apply Forall_app.
    split; [exact Hcontent|]. repeat constructor; assumption.
Qed.

Lemma parse_fold_inv (ls : list str) :
  forall st, parse_inv st -> Forall (fun l => ~ In NL l) ls ->
             parse_inv (fold_left parse_step ls st).
Proof.
  induction ls as [|l ls IH]; intros st Hinv Hls; [exact Hinv|].
  inversion Hls; subst. cbn [fold_left]. apply IH; [|assumption].
  apply parse_step_inv; assumption.
Qed.

Lemma parse_init_inv : parse_inv parse_init.
Proof.
  split; [constructor|]. split; [constructor|].
  split; [intros k [=] | constructor].
Qed.

Lemma parse_lines_stored (prompt : str) :
  List.NoDup (dict_keys (parse_lines (split_lines prompt)))
  /\ Forall stored_entry (parse_lines (split_lines prompt)).
Proof.
  apply save_section_inv, parse_fold_inv;
    [apply parse_init_inv | apply split_lines_nosep].
Qed.

Lemma parse_sections_headings (prompt : str) :
  heading_lines prompt <> [] ->
  parse_sections prompt = parse_lines (split_lines prompt)
  /\ parse_sections prompt <> [].
Proof.
  intros H. rewrite parse_sections_unfold.
  pose proof (parse_loop_keys (split_lines prompt)) as Hk.
  fold (parse_lines (split_lines prompt)) in Hk.
  fold (heading_lines prompt) in Hk.
  destruct (parse_lines (split_lines prompt)) as [|kc secs].
  - destruct (heading_lines prompt); [contradiction | discriminate Hk].
  - split; [reflexivity | discriminate].
Qed.

Lemma parse_sections_no_heading (prompt : str) :
  heading_lines prompt = [] ->
  parse_sections prompt = [(full_prompt_key, prompt)].
Proof.
  intros H. rewrite parse_sections_unfold.
  pose proof (parse_loop_keys (split_lines prompt)) as Hk.
  fold (parse_lines (split_lines prompt)) in Hk.
  fold (heading_lines prompt) in Hk. rewrite H in Hk.
  destruct (parse_lines (split_lines prompt)); [reflexivity | discriminate Hk].
Qed.

Lemma strip_contents_stored (d : sections_dict) :
  Forall stored_entry d -> strip_contents d = d.
Proof.
  induction 1 as [|[k c] d (_ & _ & Hc) _ IH]; [reflexivity|].
  simpl in *. rewrite Hc, IH. reflexivity.
Qed.

Lemma stored_well_formed (d : sections_dict) :
  List.NoDup (dict_keys d) -> Forall stored_entry d -> well_formed d.
Proof.
  intros Hnd H. split; [exact Hnd|]. eapply List.Forall_impl; [|exact H].
  intros kc (Hk & Hc & _). split; assumption.
Qed.

(** A document with a recognized heading is read back unchanged from its
    own sections. *)
Lemma parse_rebuild_parse (prompt : str) :
  heading_lines prompt <> [] ->
  parse_sections (rebuild (parse_sections prompt)) = parse_sections prompt.
Proof.
  intros H. destruct (parse_sections_headings prompt H) as [E Hne].
  destruct (parse_lines_stored prompt) as [Hnd Hst]. rewrite <- E in Hnd, Hst.
  rewrite (parse_rebuild _ Hne (stored_well_formed _ Hnd Hst)).
  apply strip_contents_stored, Hst.
Qed.

(** ** Assignments to an existing key *)

Lemma add_key_present (k : str) (ks : list str) :
  In k ks -> add_key k ks = ks.
Proof.
  intros H. unfold add_key.
  replace (existsb (str_eqb k) ks) with true; [reflexivity|].
  symmetry. apply existsb_exists. exists k. split; [exact H | apply str_eqb_refl].
Qed.

Lemma dict_keys_set_present {V : Type} (k : str) (v : V) (d : pydict V) :
  In k (dict_keys d) -> dict_keys (dict_set k v d) = dict_keys d.
Proof. intros H. rewrite dict_keys_set. apply add_key_present, H. Qed.

Lemma dict_set_set {V : Type} (k : str) (v1 v2 : V) (d : pydict V) :
  dict_set k v2 (dict_set k v1 d) = dict_set k v2 d.
Proof.
  induction d as [|[k' v'] d IH]; simpl.
  - rewrite str_eqb_refl. reflexivity.
  - destruct (str_eqb k k') eqn:E; simpl; rewrite E; [reflexivity|].
    rewrite IH. reflexivity.
Qed.

Lemma dict_set_get_id {V : Type} (k : str) (v : V) (d : pydict V) :
  dict_get k d = Some v -> dict_set k v d = d.
Proof.
  induction d as [|[k' v'] d IH]; simpl; [discriminate|].
  destruct (str_eqb k k'); [intros [= ->]; reflexivity|].
  intros H. rewrite (IH H). reflexivity.
Qed.

Lemma dict_get_set_other {V : Type} (k k0 : str) (v : V) (d : pydict V) :
  k <> k0 -> dict_get k (dict_set k0 v d) = dict_get k d.
Proof.
  intros Hne. induction d as [|[k' v'] d IH]; simpl.
  - replace (str_eqb k k0) with false; [reflexivity|].
    symmetry. apply str_eqb_neq. exact Hne.
  - destruct (str_eqb k0 k') eqn:E; simpl.
    + apply str_eqb_eq in E. subst k'.
      replace (str_eqb k k0) with false; [reflexivity|].
      symmetry. apply str_eqb_neq. exact Hne.
    + rewrite IH. reflexivity.
Qed.

Lemma dict_get_present {V : Type} (k : str) (d : pydict V) :
  In k (dict_keys d) -> exists v, dict_get k d = Some v /\ In (k, v) d.
Proof.
  induction d as [|[k' v'] d IH]; simpl; [intros []|].
  destruct (str_eqb k k') eqn:E.
  - apply str_eqb_eq in E. subst k'. intros _. exists v'.
    split; [reflexivity | left; reflexivity].
  - intros [H|H]; [apply str_eqb_neq in E; congruence|].
    destruct (IH H) as (v & Hv & Hin). exists v. split; [exact Hv|].
    right. exact Hin.
Qed.

Lemma dict_get_In {V : Type} (k : str) (v : V) (d : pydict V) :
  dict_get k d = Some v -> In (k, v) d.
Proof.
  induction d as [|[k' v'] d IH]; simpl; [discriminate|].
  destruct (str_eqb k k') eqn:E.
  - apply str_eqb_eq in E. subst k'. intros [= ->]. left. reflexivity.
  - intros H. right. apply IH, H.
Qed.

Lemma dict_get_keys {V : Type} (k : str) (v : V) (d : pydict V) :
  dict_get k d = Some v -> In k (dict_keys d).
Proof.
  intros H. apply dict_get_In in H. unfold dict_keys.
  apply (in_map fst) in H. exact H.
Qed.

Lemma strip_contents_set (k v : str) (d : sections_dict) :
  strip_contents (dict_set k v d) = dict_set k (strip v) (strip_contents d).
Proof.
  induction d as [|[k' v'] d IH]; simpl; [reflexivity|].
  destruct (str_eqb k k'); simpl; [reflexivity|]. rewrite IH. reflexivity.
Qed.

Lemma dict_set_nonempty {V : Type} (k : str) (v : V) (d : pydict V) :
  dict_set k v d <> [].
Proof.
  destruct d as [|[k' v'] d]; simpl; [discriminate|].
  destruct (str_eqb k k'); discriminate.
Qed.

(** Reading back a parsed document in which a text without heading lines
    was stored under a heading key, old or new. *)
Lemma parse_rebuild_set_key (prompt k v : str) :
  heading_lines prompt <> [] ->
  wf_key k ->
  no_heading v ->
  parse_sections (rebuild (dict_set k v (parse_sections prompt)))
  = dict_set k (strip v) (parse_sections prompt).
Proof.
  intros Hh Hwk Hv. destruct (parse_sections_headings prompt Hh) as [E _].
  destruct (parse_lines_stored prompt) as [Hnd Hst]. rewrite <- E in Hnd, Hst.
  set (d := parse_sections prompt) in *.
  rewrite parse_rebuild.
  - rewrite strip_contents_set, (strip_contents_stored _ Hst). reflexivity.
  - apply dict_set_nonempty.
  - split; [apply dict_keys_set_NoDup, Hnd|].
    apply Forall_dict_set; [split; assumption|].
    eapply List.Forall_impl; [|exact Hst].
    intros kc (Hk' & Hc & _). split; assumption.
Qed.

(** Reading back a parsed document in which the content of one section was
    replaced by a text without heading lines. *)
Lemma parse_rebuild_set (prompt k v : str) :
  heading_lines prompt <> [] ->
  In k (dict_keys (parse_sections prompt)) ->
  no_heading v ->
  parse_sections (rebuild (dict_set k v (parse_sections prompt)))
  = dict_set k (strip v) (parse_sections prompt).
Proof.
  intros Hh Hk Hv. apply parse_rebuild_set_key; [exact Hh | | exact Hv].
  destruct (parse_sections_headings prompt Hh) as [E _].
  destruct (parse_lines_stored prompt) as [_ Hst]. rewrite <- E in Hst.
  destruct (dict_get_present k _ Hk) as (c & _ & Hin).
  rewrite List.Forall_forall in Hst. apply (Hst (k, c) Hin).
Qed.

Lemma requirements_key_not_full : is_requirements_key full_prompt_key = false.
Proof. reflexivity. Qed.

Lemma find_requirements_headings (prompt kr : str) :
  find_requirements (parse_sections prompt) = Some kr ->
  heading_lines prompt <> [] /\ In kr (dict_keys (parse_sections prompt)).
Proof.
  intros H. split.
  - intros Hno. rewrite (parse_sections_no_heading _ Hno) in H.
    change (List.find is_requirements_key [full_prompt_key] = Some kr) in H.
    cbn [List.find] in H. rewrite requirements_key_not_full in H.
    discriminate H.
  - unfold find_requirements in H. apply find_some in H. apply H.
Qed.

Lemma key_truthy (prompt k : str) :
  heading_lines prompt <> [] ->
  In k (dict_keys (parse_sections prompt)) -> truthy k = true.
Proof.
  intros Hh Hk. destruct (parse_sections_headings prompt Hh) as [E _].
  destruct (parse_lines_stored prompt) as [_ Hst]. rewrite <- E in Hst.
  destruct (dict_get_present k _ Hk) as (c & _ & Hin).
  rewrite List.Forall_forall in Hst. destruct (Hst (k, c) Hin) as [Hwk _].
  exact (wf_key_open k Hwk).
Qed.

Lemma stored_content_no_heading (prompt k c : str) :
  heading_lines prompt <> [] ->
  dict_get k (parse_sections prompt) = Some c ->
  no_heading c /\ strip c = c.
Proof.
  intros Hh Hc. destruct (parse_sections_headings prompt Hh) as [E _].
  destruct (parse_lines_stored prompt) as [_ Hst]. rewrite <- E in Hst.
  rewrite List.Forall_forall in Hst.
  destruct (Hst (k, c) (dict_get_In _ _ _ Hc)) as (_ & H1 & H2).
  split; assumption.
Qed.

(** ** Removing requirement lines *)

Lemma filtered_content_no_heading (m c : str) :
  no_heading c ->
  no_heading
    (strip (join_lines (List.filter (keep_line m) (split_lines c)))).
Proof.
  intros Hc. apply content_no_heading.
  apply List.Forall_forall. intros l Hl. apply filter_In in Hl.
  destruct Hl as [Hl _]. split.
  - unfold no_heading in Hc. rewrite List.Forall_forall in Hc. apply Hc, Hl.
  - pose proof (split_lines_nosep NL c) as Hn.
    rewrite List.Forall_forall in Hn. apply Hn, Hl.
Qed.

Lemma remove_requirement_found (prompt m kr : str) :
  find_requirements (parse_sections prompt) = Some kr ->
  exists c,
    dict_get kr (parse_sections prompt) = Some c
    /\ remove_requirement_sections (parse_sections prompt) m
       = dict_set kr
           (strip (join_lines (List.filter (keep_line m) (split_lines c))))
           (parse_sections prompt)
    /\ parse_sections (remove_requirement_from_prompt prompt m)
       = dict_set kr
           (strip (join_lines (List.filter (keep_line m) (split_lines c))))
           (parse_sections prompt).
Proof.
  intros Hf. destruct (find_requirements_headings _ _ Hf) as [Hh Hk].
  destruct (dict_get_present kr _ Hk) as (c & Hc & _). exists c.
  assert (E : remove_requirement_sections (parse_sections prompt) m
              = dict_set kr
                  (strip (join_lines (List.filter (keep_line m)
                                        (split_lines c))))
                  (parse_sections prompt)).
  { unfold remove_requirement_sections. rewrite Hf, (key_truthy _ _ Hh Hk).
    unfold dict_at. rewrite Hc. reflexivity. }
  split; [exact Hc|]. split; [exact E|].
  unfold remove_requirement_from_prompt. rewrite E.
  rewrite (parse_rebuild_set _ _ _ Hh Hk).
  - rewrite strip_idem. reflexivity.
  - apply filtered_content_no_heading.
    apply (stored_content_no_heading _ _ _ Hh Hc).
Qed.

(** C3, as stated, fails: without a requirements section the document is
    still rebuilt from its sections, which prefixes the synthetic heading to
    a document without headings and drops what precedes the first heading
    of a document with headings. *)
Lemma C3_rebuild_counterexample :
  (let doc := py "hello" in
   find_requirements (parse_sections doc) = None
   /\ remove_requirement_from_prompt doc (py "x")
      = full_prompt_key ++ [NL] ++ py "hello"
   /\ remove_requirement_from_prompt doc (py "x") <> doc)
  /\ (let doc := doc_of ["intro"; "# GOAL"; "x"]%string in
      find_requirements (parse_sections doc) = None
      /\ remove_requirement_from_prompt doc (py "x")
         = doc_of ["# GOAL"; "x"]%string
      /\ remove_requirement_from_prompt doc (py "x") <> doc).
Proof. vm_compute. repeat split; discriminate. Qed.

(** C3 (amended): without a requirements section
    [remove_requirement_from_prompt] returns the document rebuilt from its
    sections, whatever the match text, and this rebuilt document has the
    sections of the original when the original has a recognized heading;
    with a requirements section, the result has the same section headings in
    the same order, and every section other than the requirements section
    has the content it had. *)
Theorem C3_remove_requirement_frame (prompt m : str) :
  (find_requirements (parse_sections prompt) = None ->
   remove_requirement_from_prompt prompt m = rebuild (parse_sections prompt)
   /\ (heading_lines prompt <> [] ->
       parse_sections (remove_requirement_from_prompt prompt m)
       = parse_sections prompt))
  /\ (forall kr,
         find_requirements (parse_sections prompt) = Some kr ->
         get_section_list (remove_requirement_from_prompt prompt m)
         = get_section_list prompt
         /\ forall k,
             k <> kr ->
             dict_get k (parse_sections
                           (remove_requirement_from_prompt prompt m))
             = dict_get k (parse_sections prompt)).
Proof.
  split.
  - intros Hnone.
    assert (E : remove_requirement_from_prompt prompt m
                = rebuild (parse_sections prompt)).
    { unfold remove_requirement_from_prompt, remove_requirement_sections.
      rewrite Hnone. reflexivity. }
    split; [exact E|]. intros Hh. rewrite E. apply parse_rebuild_parse, Hh.
  - intros kr Hf.
    destruct (remove_requirement_found prompt m kr Hf) as (c & Hc & _ & E).
    unfold get_section_list. rewrite E. split.
    + apply dict_keys_set_present. apply (dict_get_keys _ _ _ Hc).
    + intros k Hk. apply dict_get_set_other. exact Hk.
Qed.

Lemma C3_remove_requirement_frame_witness :
  (let doc := doc_of ["# GOAL"; "ship it"]%string in
   remove_requirement_from_prompt doc (py "x") = rebuild (parse_sections doc)
   /\ parse_sections (remove_requirement_from_prompt doc (py "x"))
      = parse_sections doc)
  /\ (let doc := doc_of ["# GOAL"; "ship it"; "# REQUIREMENTS"; "- fast";
                         "- cheap"]%string in
      get_section_list (remove_requirement_from_prompt doc (py "fast"))
      = get_section_list doc
      /\ dict_get (py "# GOAL")
           (parse_sections (remove_requirement_from_prompt doc (py "fast")))
         = dict_get (py "# GOAL") (parse_sections doc)).
Proof.
  split.
  - intros doc.
    destruct (proj1 (C3_remove_requirement_frame doc (py "x")) eq_refl)
      as [H1 H2].
    split; [exact H1 | apply H2; vm_compute; discriminate].
  - intros doc.
    destruct (proj2 (C3_remove_requirement_frame doc (py "fast"))
                (py "# REQUIREMENTS") eq_refl) as [H1 H2].
    split; [exact H1 | apply H2; vm_compute; discriminate].
Defined.

(** ** Updating a section twice *)

Lemma no_heading_heading_lines (s : str) :
  no_heading s -> heading_lines s = [].
Proof.
  unfold no_heading, heading_lines. induction 1 as [|l ls Hl _ IH];
    [reflexivity|]. simpl. rewrite Hl. exact IH.
Qed.

Lemma no_heading_full_prompt_key : no_heading full_prompt_key.
Proof.
  unfold no_heading.
  replace (split_lines full_prompt_key) with [full_prompt_key] by reflexivity.
  repeat constructor.
Qed.

Lemma update_sections_matched (d : sections_dict) (name body k : str) :
  find_matched name d = Some k -> truthy k = true ->
  update_sections d name body = dict_set k body d.
Proof. intros Hf Ht. unfold update_sections. rewrite Hf, Ht. reflexivity. Qed.

Lemma find_matched_set (d : sections_dict) (name k v : str) :
  In k (dict_keys d) ->
  find_matched name (dict_set k v d) = find_matched name d.
Proof.
  intros Hk. unfold find_matched. rewrite (dict_keys_set_present _ _ _ Hk).
  reflexivity.
Qed.

Lemma update_twice_headings (prompt name body k : str) :
  heading_lines prompt <> [] ->
  find_matched name (parse_sections prompt) = Some k ->
  no_heading body ->
  update_section (update_section prompt name body) name body
  = update_section prompt name body.
Proof.
  intros Hh Hf Hb.
  assert (Hk : In k (dict_keys (parse_sections prompt))).
  { unfold find_matched in Hf. apply find_some in Hf. apply Hf. }
  pose proof (key_truthy _ _ Hh Hk) as Ht.
  assert (E : update_section prompt name body
              = rebuild (dict_set k body (parse_sections prompt))).
  { unfold update_section. rewrite (update_sections_matched _ _ _ _ Hf Ht).
    reflexivity. }
  rewrite E. unfold update_section.
  rewrite (parse_rebuild_set _ _ _ Hh Hk Hb).
  rewrite (update_sections_matched _ name body k);
    [| rewrite (find_matched_set _ _ _ _ Hk); exact Hf | exact Ht].
  rewrite dict_set_set. reflexivity.
Qed.

Lemma update_twice_no_heading (prompt name body k : str) :
  heading_lines prompt = [] ->
  find_matched name (parse_sections prompt) = Some k ->
  no_heading body ->
  update_section (update_section prompt name body) name body
  = update_section prompt name body.
Proof.
  intros Hh Hf Hb. rewrite (parse_sections_no_heading _ Hh) in Hf.
  assert (Hm : name_matches name full_prompt_key = true /\ k = full_prompt_key).
  { unfold find_matched in Hf. cbn [dict_keys List.map fst List.find] in Hf.
    destruct (name_matches name full_prompt_key); [|discriminate Hf].
    split; [reflexivity | congruence]. }
  destruct Hm as [Hm ->].
  assert (Hone : forall text,
             update_sections [(full_prompt_key, text)] name body
             = [(full_prompt_key, body)]).
  { intros text. unfold update_sections, find_matched.
    cbn [dict_keys List.map fst List.find]. rewrite Hm. reflexivity. }
  assert (E : update_section prompt name body
              = rebuild [(full_prompt_key, body)]).
  { unfold update_section. rewrite (parse_sections_no_heading _ Hh), Hone.
    reflexivity. }
  rewrite E. unfold update_section.
  rewrite parse_sections_no_heading, Hone; [reflexivity|].
  apply no_heading_heading_lines. unfold rebuild.
  apply no_heading_strip, no_heading_join.
  cbn [flatten_sections flat_map fst snd app].
  constructor; [apply no_heading_full_prompt_key|].
  constructor; [exact Hb|]. constructor; [apply no_heading_nil | constructor].
Qed.

Lemma update_sections_added (d : sections_dict) (name body : str) :
  find_matched name d = None ->
  update_sections d name body = dict_set (py "# " ++ upper name) body d.
Proof. intros Hf. unfold update_sections. rewrite Hf. reflexivity. Qed.

(** After the new section was added the search finds it or finds nothing:
    the keys that were there still do not match. *)
Lemma find_matched_added (d : sections_dict) (name k v : str) :
  find_matched name d = None ->
  find_matched name (dict_set k v d) = Some k
  \/ find_matched name (dict_set k v d) = None.
Proof.
  unfold find_matched. intros Hf. rewrite dict_keys_set. unfold add_key.
  destruct (existsb (str_eqb k) (dict_keys d)); [right; exact Hf|].
  induction (dict_keys d) as [|k' ks IH]; cbn [app List.find] in *.
  - destruct (name_matches name k); [left | right]; reflexivity.
  - destruct (name_matches name k'); [discriminate Hf | exact (IH Hf)].
Qed.

Lemma update_twice_added (prompt name body : str) :
  heading_lines prompt <> [] ->
  find_matched name (parse_sections prompt) = None ->
  wf_key (py "# " ++ upper name) ->
  no_heading body ->
  update_section (update_section prompt name body) name body
  = update_section prompt name body.
Proof.
  intros Hh Hf Hk Hb. set (k := py "# " ++ upper name) in *.
  assert (E : update_section prompt name body
              = rebuild (dict_set k body (parse_sections prompt))).
  { unfold update_section. rewrite (update_sections_added _ _ _ Hf).
    reflexivity. }
  rewrite E. unfold update_section.
  rewrite (parse_rebuild_set_key _ _ _ Hh Hk Hb).
  assert (Hset : update_sections
                   (dict_set k (strip body) (parse_sections prompt)) name body
                 = dict_set k body
                     (dict_set k (strip body) (parse_sections prompt))).
  { unfold update_sections. fold k.
    destruct (find_matched_added (parse_sections prompt) name k (strip body) Hf)
      as [-> | ->]; [|reflexivity].
    destruct (truthy k); reflexivity. }
  rewrite Hset, dict_set_set. reflexivity.
Qed.

(** C2, as stated, fails: a target name that matches no section adds a
    section whose heading is not recognized when read back, so the second
    application adds it again; a new body that contains a heading line
    splits the section when read back; and a section added to a document
    without recognized heading is, on the second application, all that is
    left of the document. *)
Lemma C2_not_idempotent_counterexample :
  (let once := update_section (py "hello") (py "foo") (py "bar") in
   once = full_prompt_key ++ [NL] ++ doc_of ["hello"; ""; "# FOO"; "bar"]%string
   /\ update_section once (py "foo") (py "bar") <> once)
  /\ (let doc := doc_of ["# GOAL"; "x"]%string in
      let body := doc_of ["a"; "# OUTPUT"; "b"]%string in
      let once := update_section doc (py "goal") body in
      once = doc_of ["# GOAL"; "a"; "# OUTPUT"; "b"]%string
      /\ update_section once (py "goal") body
         = doc_of ["# GOAL"; "a"; "# OUTPUT"; "b"; ""; "# OUTPUT"; "b"]%string
      /\ update_section once (py "goal") body <> once)
  /\ (let once := update_section (py "hello") (py "goal") (py "bar") in
      once = full_prompt_key ++ [NL] ++ doc_of ["hello"; ""; "# GOAL"; "bar"]%string
      /\ update_section once (py "goal") (py "bar")
         = doc_of ["# GOAL"; "bar"]%string).
Proof. vm_compute. repeat split; discriminate. Qed.

(** C2 (amended): [update_section] is idempotent when no line of the new
    body is a recognized heading and either the target name matches a
    section of the document, or the document has a recognized heading and
    the heading made from the name, a number sign, a space and the name in
    upper case, is itself a recognized heading on one trimmed line. *)
Theorem C2_update_section_idempotent (prompt name body : str) :
  no_heading body ->
  find_matched name (parse_sections prompt) <> None
  \/ (heading_lines prompt <> [] /\ wf_key (py "# " ++ upper name)) ->
  update_section (update_section prompt name body) name body
  = update_section prompt name body.
Proof.
  intros Hb Hcase.
  destruct (find_matched name (parse_sections prompt)) as [k|] eqn:E.
  - destruct (heading_lines prompt) as [|h hs] eqn:Hh.
    + apply (update_twice_no_heading _ _ _ k); assumption.
    + apply (update_twice_headings _ _ _ k); [rewrite Hh; discriminate | | ];
        assumption.
  - destruct Hcase as [Hf | [Hh Hk]]; [contradiction|].
    apply update_twice_added; assumption.
Qed.

Lemma C2_update_section_idempotent_witness :
  let doc := doc_of ["# GOAL"; "x"; ""; "# OUTPUT"; "y"]%string in
  let body := doc_of ["ship it"; "today"]%string in
  (update_section (update_section doc (py "goal") body) (py "goal") body
   = update_section doc (py "goal") body)
  /\ (find_matched (py "tech stack") (parse_sections doc) = None
      /\ update_section (update_section doc (py "tech stack") body)
                        (py "tech stack") body
         = update_section doc (py "tech stack") body).
Proof.
  intros doc body. split; [|split; [reflexivity|]].
  - apply C2_update_section_idempotent.
    + lines_not_headings.
    + left. vm_compute. discriminate.
  - apply C2_update_section_idempotent.
    + lines_not_headings.
    + right. split; [vm_compute; discriminate|].
      repeat split; try reflexivity.
      vm_compute. intros H. repeat (destruct H as [H|H]; [discriminate H|]).
      exact H.
Defined.

(** ** Adding a requirement and removing it again *)

Lemma startswith_refl (s : str) : startswith s s = true.
Proof. induction s as [|c s IH]; simpl; [reflexivity|]. rewrite N.eqb_refl. exact IH. Qed.

Lemma contains_nil (s : str) : contains [] s = true.
Proof. destruct s; reflexivity. Qed.

Lemma contains_suffix (x a : str) : contains x (a ++ x) = true.
Proof.
  induction a as [|y a IH].
  - destruct x; simpl; [reflexivity|]. rewrite N.eqb_refl, startswith_refl.
    reflexivity.
  - change (contains x ((y :: a) ++ x))
      with (startswith ((y :: a) ++ x) x || contains x (a ++ x)).
    rewrite IH. apply orb_true_r.
Qed.

(** ** Lowercase and the context of a sigma

    A code point that is neither cased nor case-ignorable stops every scan
    around a sigma, so the lowercase of a text can be taken piecewise on
    both sides of it. *)

Lemma skip_before_neutral (p r : str) (c : char) :
  neutral c = true ->
  match skip_ignorable (p ++ c :: r) with
  | x :: _ => cased x
  | [] => false
  end
  = match skip_ignorable p with
    | x :: _ => cased x
    | [] => false
    end.
Proof.
  intros Hc. unfold neutral in Hc. apply andb_true_iff in Hc.
  destruct Hc as [Hi Hk]. apply negb_true_iff in Hi, Hk.
  induction p as [|x p IH]; cbn [app skip_ignorable].
  - rewrite Hi. exact Hk.
  - destruct (case_ignorable x); [exact IH | reflexivity].
Qed.

Lemma skip_after_neutral (p r : str) (c : char) :
  neutral c = true ->
  match skip_ignorable (p ++ c :: r) with
  | x :: _ => negb (cased x)
  | [] => true
  end
  = match skip_ignorable p with
    | x :: _ => negb (cased x)
    | [] => true
    end.
Proof.
  intros Hc. unfold neutral in Hc. apply andb_true_iff in Hc.
  destruct Hc as [Hi Hk]. apply negb_true_iff in Hi.
  induction p as [|x p IH]; cbn [app skip_ignorable].
  - rewrite Hi. exact Hk.
  - destruct (case_ignorable x); [exact IH | reflexivity].
Qed.

Lemma lower_from_before (s : str) :
  forall (p r : str) (c : char),
    neutral c = true -> lower_from (p ++ c :: r) s = lower_from p s.
Proof.
  induction s as [|x s IH]; intros p r c Hc; [reflexivity|].
  cbn [lower_from]. unfold final_sigma.
  rewrite (skip_before_neutral p r c Hc).
  change (x :: p ++ c :: r) with ((x :: p) ++ c :: r).
  rewrite (IH (x :: p) r c Hc). reflexivity.
Qed.

Lemma neutral_not_sigma (c : char) :
  neutral c = true -> (c =? CAPITAL_SIGMA) = false.
Proof.
  intros Hc. destruct (N.eqb_spec c CAPITAL_SIGMA) as [->|_];
    [|reflexivity].
  vm_compute in Hc. discriminate Hc.
Qed.

Lemma lower_from_neutral_head (before r : str) (c : char) :
  neutral c = true ->
  lower_from before (c :: r) = lower_char c ++ lower r.
Proof.
  intros Hc. cbn [lower_from]. rewrite (neutral_not_sigma c Hc).
  change (lower_from (c :: before) r)
    with (lower_from ([] ++ c :: before) r).
  rewrite (lower_from_before r [] before c Hc). reflexivity.
Qed.

Lemma lower_from_after (a : str) :
  forall (before r : str) (c : char),
    neutral c = true ->
    lower_from before (a ++ c :: r)
    = lower_from before a ++ lower_from (rev a ++ before) (c :: r).
Proof.
  induction a as [|x a IH]; intros before r c Hc; [reflexivity|].
  cbn [app lower_from rev]. unfold final_sigma.
  rewrite (skip_after_neutral a r c Hc), (IH (x :: before) r c Hc).
  rewrite <- !app_assoc. reflexivity.
Qed.

Lemma lower_app_neutral (a r : str) (c : char) :
  neutral c = true ->
  lower (a ++ c :: r) = lower a ++ lower_char c ++ lower r.
Proof.
  intros Hc. unfold lower at 1 2.
  rewrite (lower_from_after a [] r c Hc).
  rewrite (lower_from_neutral_head _ r c Hc). reflexivity.
Qed.

Lemma lower_neutral_last (a : str) (c : char) :
  neutral c = true -> lower (a ++ [c]) = lower a ++ lower_char c.
Proof.
  intros Hc. rewrite (lower_app_neutral a [] c Hc).
  change (lower []) with (@nil char). rewrite app_nil_r. reflexivity.
Qed.

(** The lowercase of a text is taken piecewise at a neutral code point,
    whichever side it is on. *)
Lemma lower_app_after (a b : str) (c : char) :
  neutral c = true ->
  lower ((a ++ [c]) ++ b) = lower (a ++ [c]) ++ lower b.
Proof.
  intros Hc. rewrite <- app_assoc. cbn [app].
  rewrite (lower_app_neutral a b c Hc), (lower_neutral_last a c Hc).
  rewrite <- app_assoc. reflexivity.
Qed.

Lemma lower_app_before (a b : str) (c : char) :
  neutral c = true -> lower (a ++ c :: b) = lower a ++ lower (c :: b).
Proof.
  intros Hc. rewrite (lower_app_neutral a b c Hc).
  change (lower (c :: b)) with (lower ([] ++ c :: b)).
  rewrite (lower_app_neutral [] b c Hc). reflexivity.
Qed.

Lemma lower_app_ws_left (w l : str) :
  all_ws w -> lower (w ++ l) = lower w ++ lower l.
Proof.
  intros Hw. induction w as [|c w' _] using rev_ind; [reflexivity|].
  apply lower_app_after.
  apply Forall_app in Hw. destruct Hw as [_ Hc].
  inversion Hc as [|? ? Hc' _]; subst.
  apply (whitespace_caseless c Hc').
Qed.

Lemma lower_app_ws_right (l w : str) :
  all_ws w -> lower (l ++ w) = lower l ++ lower w.
Proof.
  intros Hw. destruct Hw as [|c w Hc _].
  - rewrite app_nil_r. change (lower []) with (@nil char).
    rewrite app_nil_r. reflexivity.
  - apply lower_app_before. apply (whitespace_caseless c Hc).
Qed.

Lemma keep_line_bullet (r : str) : keep_line r (py "- " ++ r) = false.
Proof.
  unfold keep_line. pose proof (lower_app_after [DASH] r 32 eq_refl) as E.
  change (lower (py "- " ++ r) = lower (py "- ") ++ lower r) in E.
  rewrite E, contains_suffix. reflexivity.
Qed.

Lemma keep_line_empty (line : str) : keep_line [] line = false.
Proof. unfold keep_line. simpl. rewrite contains_nil. reflexivity. Qed.

Lemma filter_all_kept {A : Type} (f : A -> bool) (l : list A) :
  Forall (fun x => f x = true) l -> List.filter f l = l.
Proof.
  induction 1 as [|x l Hx _ IH]; [reflexivity|]. simpl. rewrite Hx, IH.
  reflexivity.
Qed.

Lemma bullet_facts (r : str) :
  r <> [] -> rstrip r = r -> ~ In NL r ->
  rstrip (py "- " ++ r) = py "- " ++ r
  /\ rstrip (py "- " ++ r) <> []
  /\ split_lines (py "- " ++ r) = [py "- " ++ r]
  /\ is_heading (py "- " ++ r) = false.
Proof.
  intros Hne Hr Hnl.
  assert (E : rstrip (py "- " ++ r) = py "- " ++ r).
  { rewrite rstrip_app_keep by (rewrite Hr; exact Hne).
    rewrite Hr. reflexivity. }
  split; [exact E|]. split; [rewrite E; discriminate|]. split.
  - apply split_nosep. intros [H|[H|H]]; [discriminate H | discriminate H |].
    exact (Hnl H).
  - unfold is_heading, strip.
    change (lstrip (py "- " ++ r)) with (py "- " ++ r). rewrite E. reflexivity.
Qed.

(** The requirements content with the bullet appended, read back and
    filtered, is the content before. *)
Lemma bullet_removed (c r : str) :
  strip c = c -> rstrip r = r -> ~ In NL r ->
  Forall (fun line => keep_line r line = true) (split_lines c) ->
  strip (join_lines
           (List.filter (keep_line r)
              (split_lines (strip (c ++ [NL] ++ py "- " ++ r)))))
  = c.
Proof.
  intros Hc Hr Hnl Hkeep.
  assert (Hne : r <> []).
  { intros ->. unfold split_lines in Hkeep.
    destruct (split NL c) as [|l ls] eqn:E;
      [destruct (split_nonempty _ _ E)|].
    inversion Hkeep as [|x xs Hl _]; subst.
    rewrite keep_line_empty in Hl. discriminate Hl. }
  destruct (bullet_facts r Hne Hr Hnl) as (Hb & Hbne & Hlines & _).
  destruct c as [|x c'].
  - assert (E : strip ([] ++ [NL] ++ py "- " ++ r) = py "- " ++ r).
    { unfold strip. change (lstrip ([] ++ [NL] ++ py "- " ++ r))
        with (py "- " ++ r). exact Hb. }
    rewrite E, Hlines. cbn [List.filter]. rewrite keep_line_bullet.
    reflexivity.
  - assert (Hx : isspace x = false).
    { apply (strip_nonws_ends (x :: c') x); [discriminate | exact Hc|].
      exists c'. reflexivity. }
    assert (E : strip ((x :: c') ++ [NL] ++ py "- " ++ r)
                = (x :: c') ++ [NL] ++ py "- " ++ r).
    { rewrite (app_assoc (x :: c') [NL] (py "- " ++ r)).
      unfold strip. rewrite lstrip_app.
      replace (lstrip ((x :: c') ++ [NL])) with ((x :: c') ++ [NL])
        by (symmetry; apply (lstrip_nonws x (c' ++ [NL]) Hx)).
      cbn [app]. change (x :: (c' ++ [NL]) ++ py "- " ++ r)
        with ((x :: c' ++ [NL]) ++ py "- " ++ r).
      rewrite (rstrip_app_keep _ _ Hbne), Hb. reflexivity. }
    rewrite E. unfold split_lines.
    change ((x :: c') ++ [NL] ++ py "- " ++ r)
      with ((x :: c') ++ NL :: (py "- " ++ r)).
    rewrite split_app_sep. fold (split_lines (py "- " ++ r)).
    rewrite Hlines, List.filter_app. cbn [List.filter].
    rewrite keep_line_bullet, app_nil_r.
    unfold split_lines in Hkeep.
    rewrite (filter_all_kept _ _ Hkeep). unfold join_lines.
    rewrite join_split. exact Hc.
Qed.

Lemma dict_get_set_same {V : Type} (k : str) (v : V) (d : pydict V) :
  dict_get k (dict_set k v d) = Some v.
Proof.
  induction d as [|[k' v'] d IH]; simpl.
  - rewrite str_eqb_refl. reflexivity.
  - destruct (str_eqb k k') eqn:E; simpl; rewrite E; [reflexivity | exact IH].
Qed.

Lemma find_requirements_set (d : sections_dict) (k v : str) :
  In k (dict_keys d) ->
  find_requirements (dict_set k v d) = find_requirements d.
Proof.
  intros Hk. unfold find_requirements.
  rewrite (dict_keys_set_present _ _ _ Hk). reflexivity.
Qed.

Lemma kept_lines_nonempty_text (r c : str) :
  Forall (fun line => keep_line r line = true) (split_lines c) -> r <> [].
Proof.
  intros Hkeep ->. unfold split_lines in Hkeep.
  destruct (split NL c) as [|l ls] eqn:E; [destruct (split_nonempty _ _ E)|].
  inversion Hkeep as [|x xs Hl _]; subst.
  rewrite keep_line_empty in Hl. discriminate Hl.
Qed.

Lemma add_then_remove (prompt r kr c : str) :
  find_requirements (parse_sections prompt) = Some kr ->
  dict_get kr (parse_sections prompt) = Some c ->
  ~ In NL r -> rstrip r = r ->
  Forall (fun line => keep_line r line = true) (split_lines c) ->
  remove_requirement_from_prompt (add_requirement_to_prompt prompt r) r
  = rebuild (parse_sections prompt).
Proof.
  intros Hf Hc Hnl Hr Hkeep.
  destruct (find_requirements_headings _ _ Hf) as [Hh Hk].
  pose proof (key_truthy _ _ Hh Hk) as Ht.
  destruct (stored_content_no_heading _ _ _ Hh Hc) as [Hnh Hstrip].
  pose proof (kept_lines_nonempty_text _ _ Hkeep) as Hne.
  destruct (bullet_facts r Hne Hr Hnl) as (_ & _ & Hlines & Hbullet).
  set (d := parse_sections prompt) in *.
  set (v1 := c ++ [NL] ++ py "- " ++ r).
  assert (E1 : add_requirement_to_prompt prompt r = rebuild (dict_set kr v1 d)).
  { unfold add_requirement_to_prompt, add_requirement_sections. fold d.
    rewrite Hf, Ht. unfold dict_at. rewrite Hc. reflexivity. }
  assert (Hv1 : no_heading v1).
  { unfold no_heading, split_lines, v1.
    change (c ++ [NL] ++ py "- " ++ r) with (c ++ NL :: (py "- " ++ r)).
    rewrite split_app_sep. fold (split_lines (py "- " ++ r)). rewrite Hlines.
    apply Forall_app. split; [exact Hnh | repeat constructor; exact Hbullet]. }
  assert (E2 : parse_sections (add_requirement_to_prompt prompt r)
               = dict_set kr (strip v1) d).
  { rewrite E1. apply (parse_rebuild_set prompt kr v1 Hh Hk Hv1). }
  unfold remove_requirement_from_prompt, remove_requirement_sections.
  rewrite E2, (find_requirements_set _ _ _ Hk), Hf, Ht.
  unfold dict_at. rewrite dict_get_set_same.
  unfold v1. rewrite (bullet_removed c r Hstrip Hr Hnl Hkeep).
  rewrite dict_set_set, (dict_set_get_id _ _ _ Hc). reflexivity.
Qed.

(** C4, as stated, fails: removal drops every line that contains the text,
    so a requirement that occurs in an older line takes that line with it. *)
Lemma C4_older_line_removed_counterexample :
  let doc := doc_of ["# REQUIREMENTS"; "- fast"]%string in
  let back := remove_requirement_from_prompt
                (add_requirement_to_prompt doc (py "fast")) (py "fast") in
  requirements_content doc = Some (py "- fast")
  /\ add_requirement_to_prompt doc (py "fast")
     = doc_of ["# REQUIREMENTS"; "- fast"; "- fast"]%string
  /\ requirements_content back = Some []
  /\ (strip <$> requirements_content back)
     <> (strip <$> requirements_content doc).
Proof. vm_compute. repeat split; discriminate. Qed.

(** C4 (amended): when the document has a requirements section, and the
    requirement text is a single line without trailing whitespace that
    occurs, case-insensitively, in no line of that section, adding the
    requirement and then removing it gives a document whose requirements
    section has its former content; all its sections are those of the
    original document. *)
Theorem C4_add_then_remove (prompt r c : str) :
  requirements_content prompt = Some c ->
  ~ In NL r ->
  rstrip r = r ->
  Forall (fun line => keep_line r line = true) (split_lines c) ->
  let back := remove_requirement_from_prompt
                (add_requirement_to_prompt prompt r) r in
  requirements_content back = Some c
  /\ parse_sections back = parse_sections prompt.
Proof.
  intros Hc Hnl Hr Hkeep back. unfold requirements_content in Hc.
  destruct (find_requirements (parse_sections prompt)) as [kr|] eqn:Hf;
    [|discriminate Hc].
  destruct (find_requirements_headings _ _ Hf) as [Hh _].
  assert (E : parse_sections back = parse_sections prompt).
  { subst back. rewrite (add_then_remove _ _ _ _ Hf Hc Hnl Hr Hkeep).
    apply parse_rebuild_parse, Hh. }
  split; [|exact E]. unfold requirements_content. rewrite E, Hf. exact Hc.
Qed.

Lemma C4_add_then_remove_witness :
  let doc := doc_of ["# GOAL"; "ship it"; "# REQUIREMENTS"; "- fast";
                     "- cheap"]%string in
  let back := remove_requirement_from_prompt
                (add_requirement_to_prompt doc (py "offline mode"))
                (py "offline mode") in
  requirements_content back = Some (doc_of ["- fast"; "- cheap"]%string)
  /\ parse_sections back = parse_sections doc.
Proof.
  intros doc.
  apply (C4_add_then_remove doc (py "offline mode")
           (doc_of ["- fast"; "- cheap"]%string)).
  - reflexivity.
  - vm_compute. intros H. repeat (destruct H as [H|H]; [discriminate H|]).
    exact H.
  - reflexivity.
  - each_computed.
Defined.

(** * Further properties of the section document model *)

Lemma parse_groups_raw (groups : list group) :
  forall st : pstate,
    Forall (fun g => is_heading (fst g) = true
                     /\ Forall (fun l => is_heading l = false) (snd g))
           groups ->
    save_section (fold_left parse_step (group_lines groups) st)
    = fold_left
        (fun d g => dict_set (strip (fst g)) (strip (join_lines (snd g))) d)
        groups (save_section st).
Proof.
  induction groups as [|[h body] groups IH]; intros st Hg; [reflexivity|].
  inversion Hg as [|g gs [Hh Hbody] Hrest]; subst. cbn [fst snd] in *.
  unfold group_lines in *. cbn [flat_map fst snd].
  rewrite <- app_comm_cons. cbn [fold_left]. rewrite fold_left_app.
  rewrite (parse_step_heading _ _ Hh).
  rewrite (parse_body body _ (Some (strip h)) _ Hbody
             (is_heading_truthy _ Hh)).
  rewrite (IH _ Hrest). cbn [fold_left fst snd app]. f_equal.
  unfold save_section at 1. cbn [current_section sections current_content].
  rewrite (is_heading_truthy _ Hh). reflexivity.
Qed.

Lemma fold_dict_set_nonempty {A : Type} (f : A -> str) (g : A -> str)
      (l : list A) (acc : sections_dict) :
  l <> [] ->
  fold_left (fun d x => dict_set (f x) (g x) d) l acc <> [].
Proof.
  intros H. destruct (exists_last H) as (l' & x & ->).
  rewrite fold_left_app. cbn [fold_left]. apply dict_set_nonempty.
Qed.

Lemma In_first_occurrences (k : str) (l : list str) :
  In k (first_occurrences l) -> In k l.
Proof.
  induction l as [|a l IH]; simpl; [intros []|].
  intros [H|H]; [left; exact H|]. right. apply IH.
  apply filter_In in H. apply H.
Qed.

Lemma filter_nil_Forall {A : Type} (f : A -> bool) (l : list A) :
  List.filter f l = [] -> Forall (fun x => f x = false) l.
Proof.
  induction l as [|x l IH]; simpl; [constructor|].
  destruct (f x) eqn:E; [discriminate|]. intros H.
  constructor; [exact E | apply IH, H].
Qed.

Lemma fold_groups_distinct (groups : list group) :
  forall acc : sections_dict,
    List.NoDup (dict_keys acc ++ List.map (fun g => strip (fst g)) groups) ->
    fold_left
      (fun d g => dict_set (strip (fst g)) (strip (join_lines (snd g))) d)
      groups acc
    = acc ++ List.map (fun g => (strip (fst g), strip (join_lines (snd g))))
                      groups.
Proof.
  induction groups as [|[h body] groups IH]; intros acc Hnd.
  - symmetry. apply app_nil_r.
  - cbn [fold_left List.map fst snd] in *.
    assert (Hfresh : ~ In (strip h) (dict_keys acc)).
    { apply NoDup_remove_2 in Hnd. intros Hin. apply Hnd.
      apply in_or_app. left. exact Hin. }
    rewrite (dict_set_fresh _ _ _ Hfresh), IH.
    + rewrite <- app_assoc. reflexivity.
    + unfold dict_keys in *. rewrite List.map_app, <- app_assoc. exact Hnd.
Qed.

Lemma sections_of_groups_distinct (groups : list group) :
  List.NoDup (List.map (fun g => strip (fst g)) groups) ->
  sections_of_groups groups
  = List.map (fun g => (strip (fst g), strip (join_lines (snd g)))) groups.
Proof.
  intros H. unfold sections_of_groups.
  rewrite fold_groups_distinct; [reflexivity | exact H].
Qed.

(** X1: a document laid out as lines before the first heading and then
    groups of a heading line with its body lines is read as one assignment
    per group, in order: the key is the trimmed heading, the content the
    trimmed body; the lines before the first heading are dropped.  With
    pairwise distinct trimmed headings this is one section per group. *)
Theorem X1_parse_sections_groups (pre : list str) (groups : list group) :
  groups <> [] ->
  Forall (fun l => is_heading l = false /\ ~ In NL l) pre ->
  Forall heading_group groups ->
  parse_sections (join_lines (pre ++ group_lines groups))
  = sections_of_groups groups
  /\ (List.NoDup (List.map (fun g => strip (fst g)) groups) ->
      parse_sections (join_lines (pre ++ group_lines groups))
      = List.map (fun g => (strip (fst g), strip (join_lines (snd g))))
                 groups).
Proof.
  intros Hne Hpre Hgroups.
  assert (Hlines : Forall (fun l => ~ In NL l) (pre ++ group_lines groups)).
  { apply Forall_app. split.
    - eapply List.Forall_impl; [|exact Hpre]. intros l [_ H]. exact H.
    - unfold group_lines. clear Hne.
      induction Hgroups as [|[h body] gs (_ & Hh & Hb) _ IH]; [constructor|].
      cbn [flat_map fst snd] in *. constructor; [exact Hh|].
      apply Forall_app. split; [|exact IH].
      eapply List.Forall_impl; [|exact Hb]. intros l [_ H]. exact H. }
  assert (Hnonempty : pre ++ group_lines groups <> []).
  { destruct groups as [|[h body] gs]; [contradiction|].
    destruct pre; discriminate. }
  assert (E : parse_sections (join_lines (pre ++ group_lines groups))
              = sections_of_groups groups).
  { rewrite parse_sections_unfold. unfold split_lines, join_lines.
    rewrite (split_join_lines _ _ Hnonempty Hlines).
    unfold parse_lines. rewrite fold_left_app.
    rewrite (parse_skip pre parse_init);
      [| eapply List.Forall_impl; [|exact Hpre]; intros l [H _]; exact H
       | reflexivity].
    rewrite parse_groups_raw.
    2:{ eapply List.Forall_impl; [|exact Hgroups].
        intros [h body] (Hh & _ & Hb). cbn [fst snd] in *.
        split; [exact Hh|]. eapply List.Forall_impl; [|exact Hb].
        intros l [H _]. exact H. }
    change (save_section parse_init) with ([] : sections_dict).
    fold (sections_of_groups groups).
    assert (Hn : sections_of_groups groups <> []).
    { unfold sections_of_groups.
      apply (fold_dict_set_nonempty
               (fun g : group => strip (fst g))
               (fun g : group => strip (join_lines (snd g)))).
      exact Hne. }
    destruct (sections_of_groups groups);
      [exfalso; apply Hn; reflexivity | reflexivity]. }
  split; [exact E|]. intros Hnd. rewrite E.
  apply sections_of_groups_distinct, Hnd.
Qed.

Lemma X1_parse_sections_groups_witness :
  let pre := [py "Some title"; py ""] in
  let groups := [(py "  # GOAL  ", [py "ship it"; py ""]);
                 (py "# OUTPUT", [py "a file"])] in
  parse_sections (join_lines (pre ++ group_lines groups))
  = [(py "# GOAL", py "ship it"); (py "# OUTPUT", py "a file")].
Proof.
  intros pre groups.
  assert (Hne : groups <> []) by discriminate.
  assert (Hpre : Forall (fun l => is_heading l = false /\ ~ In NL l) pre).
  { repeat constructor; vm_compute; intros H;
      repeat (destruct H as [H|H]; [discriminate H|]); exact H. }
  assert (Hg : Forall heading_group groups).
  { repeat constructor; vm_compute; intros H;
      repeat (destruct H as [H|H]; [discriminate H|]); exact H. }
  destruct (X1_parse_sections_groups pre groups Hne Hpre Hg) as [_ H].
  rewrite H; [reflexivity|].
  vm_compute. repeat constructor; intros H';
    repeat (destruct H' as [H'|H']; [discriminate H'|]); exact H'.
Defined.

(** X2: the sections of a document with a recognized heading survive
    being written out and read back, and writing out the sections of a
    written-out document changes nothing any more. *)
Theorem X2_parse_rebuild_roundtrip (prompt : str) :
  heading_lines prompt <> [] ->
  parse_sections (rebuild (parse_sections prompt)) = parse_sections prompt
  /\ get_section_list (rebuild (parse_sections prompt))
     = get_section_list prompt
  /\ rebuild (parse_sections (rebuild (parse_sections prompt)))
     = rebuild (parse_sections prompt).
Proof.
  intros H. pose proof (parse_rebuild_parse prompt H) as E.
  unfold get_section_list. rewrite E. repeat split; reflexivity.
Qed.

Lemma X2_parse_rebuild_roundtrip_witness :
  let doc := doc_of ["intro"; "  # GOAL "; ""; "ship it  "; "# OUTPUT";
                     "a file"; ""]%string in
  parse_sections (rebuild (parse_sections doc)) = parse_sections doc
  /\ get_section_list (rebuild (parse_sections doc)) = get_section_list doc
  /\ rebuild (parse_sections (rebuild (parse_sections doc)))
     = rebuild (parse_sections doc).
Proof.
  intros doc. apply (X2_parse_rebuild_roundtrip doc).
  vm_compute. discriminate.
Defined.

(** X3: whitespace around a document with a recognized heading does not
    change its sections. *)
Theorem X3_parse_sections_strip (prompt : str) :
  heading_lines prompt <> [] ->
  parse_sections (strip prompt) = parse_sections prompt.
Proof.
  intros H. destruct (parse_sections_headings prompt H) as [E Hne].
  rewrite parse_sections_unfold, parse_lines_strip, <- E.
  destruct (parse_sections prompt); [contradiction | reflexivity].
Qed.

Lemma X3_parse_sections_strip_witness :
  let doc := doc_of [""; "   "; "  # GOAL"; "ship it"; "   "; ""]%string in
  parse_sections (strip doc) = parse_sections doc.
Proof.
  intros doc. apply (X3_parse_sections_strip doc). vm_compute. discriminate.
Defined.

(** X4: in the sections of a document with a recognized heading the keys
    are pairwise distinct, each key is a heading line of the document
    trimmed, on one line and itself a recognized heading, and each content
    is trimmed and holds no recognized heading line. *)
Theorem X4_parse_sections_well_formed (prompt : str) :
  heading_lines prompt <> [] ->
  List.NoDup (get_section_list prompt)
  /\ forall k c,
      In (k, c) (parse_sections prompt) ->
      In k (List.map strip (heading_lines prompt))
      /\ is_heading k = true /\ strip k = k /\ ~ In NL k
      /\ strip c = c /\ no_heading c.
Proof.
  intros H. destruct (parse_sections_headings prompt H) as [E _].
  destruct (parse_lines_stored prompt) as [Hnd Hst]. rewrite <- E in Hnd, Hst.
  split; [exact Hnd|]. intros k c Hin.
  rewrite List.Forall_forall in Hst.
  destruct (Hst (k, c) Hin) as ((Hk1 & Hk2 & Hk3) & Hc1 & Hc2).
  cbn [fst snd] in *. repeat split; try assumption.
  assert (Hkey : In k (get_section_list prompt)).
  { unfold get_section_list, dict_keys. apply (in_map fst) in Hin. exact Hin. }
  rewrite get_section_list_keys in Hkey.
  destruct (heading_lines prompt) as [|h hs]; [contradiction|].
  apply In_first_occurrences, Hkey.
Qed.

Lemma X4_parse_sections_well_formed_witness :
  let doc := doc_of ["  # GOAL "; "ship it  "; "# GOAL"; "again"]%string in
  List.NoDup (get_section_list doc)
  /\ forall k c,
      In (k, c) (parse_sections doc) ->
      In k (List.map strip (heading_lines doc))
      /\ is_heading k = true /\ strip k = k /\ ~ In NL k
      /\ strip c = c /\ no_heading c.
Proof.
  intros doc. apply (X4_parse_sections_well_formed doc).
  vm_compute. discriminate.
Defined.

(** X5: when the target name matches a section of a document with a
    recognized heading and the new body holds no heading line,
    [update_section] replaces the content of the first matching section by
    the trimmed body; the headings, their order and the other contents stay
    as they were. *)
Theorem X5_update_section_frame (prompt name body k : str) :
  heading_lines prompt <> [] ->
  find_matched name (parse_sections prompt) = Some k ->
  no_heading body ->
  get_section_list (update_section prompt name body)
  = get_section_list prompt
  /\ dict_get k (parse_sections (update_section prompt name body))
     = Some (strip body)
  /\ forall k', k' <> k ->
       dict_get k' (parse_sections (update_section prompt name body))
       = dict_get k' (parse_sections prompt).
Proof.
  intros Hh Hf Hb.
  assert (Hk : In k (dict_keys (parse_sections prompt))).
  { unfold find_matched in Hf. apply find_some in Hf. apply Hf. }
  assert (E : parse_sections (update_section prompt name body)
              = dict_set k (strip body) (parse_sections prompt)).
  { unfold update_section.
    rewrite (update_sections_matched _ _ _ _ Hf (key_truthy _ _ Hh Hk)).
    apply parse_rebuild_set; assumption. }
  unfold get_section_list. rewrite E. repeat split.
  - apply dict_keys_set_present, Hk.
  - apply dict_get_set_same.
  - intros k' Hk'. apply dict_get_set_other, Hk'.
Qed.

Lemma X5_update_section_frame_witness :
  let doc := doc_of ["# GOAL"; "x"; "# OUTPUT"; "y"]%string in
  let body := py "  a report " in
  get_section_list (update_section doc (py "output") body)
  = get_section_list doc
  /\ dict_get (py "# OUTPUT")
       (parse_sections (update_section doc (py "output") body))
     = Some (strip body)
  /\ forall k', k' <> py "# OUTPUT" ->
       dict_get k' (parse_sections (update_section doc (py "output") body))
       = dict_get k' (parse_sections doc).
Proof.
  intros doc body.
  apply (X5_update_section_frame doc (py "output") body (py "# OUTPUT")).
  - vm_compute. discriminate.
  - reflexivity.
  - lines_not_headings.
Defined.

(** ** Requirements *)

Lemma bullet_no_heading_line (r : str) :
  ~ In NL r -> no_heading (bullet r).
Proof.
  intros Hnl. apply no_heading_line.
  - intros [H|[H|H]]; [discriminate H | discriminate H | exact (Hnl H)].
  - unfold is_heading, bullet.
    destruct (rstrip_head DASH (py " " ++ r) eq_refl) as [t Ht].
    unfold strip. change (lstrip (py "- " ++ r)) with (DASH :: py " " ++ r).
    rewrite Ht. reflexivity.
Qed.

Lemma new_requirements_key_wf : wf_key new_requirements_key.
Proof.
  repeat split; try reflexivity.
  vm_compute. intros H. repeat (destruct H as [H|H]; [discriminate H|]).
  exact H.
Qed.

Lemma new_requirements_key_fresh (d : sections_dict) :
  find_requirements d = None -> ~ In new_requirements_key (dict_keys d).
Proof.
  intros Hf Hin. unfold find_requirements in Hf.
  pose proof (find_none _ _ Hf _ Hin) as H. discriminate H.
Qed.

Lemma strip_contents_app (a b : sections_dict) :
  strip_contents (a ++ b) = strip_contents a ++ strip_contents b.
Proof. apply List.map_app. Qed.

(** X6: on a document with a requirements section
    [add_requirement_to_prompt] appends a newline and the bullet to the
    content of that section and trims it; headings, order and the other
    contents stay as they were.  Here the requirement is any text whose
    bullet holds no recognized heading line; a one-line requirement is
    such. *)
Theorem X6_add_requirement_existing (prompt r kr c : str) :
  find_requirements (parse_sections prompt) = Some kr ->
  dict_get kr (parse_sections prompt) = Some c ->
  no_heading (bullet r) ->
  parse_sections (add_requirement_to_prompt prompt r)
  = dict_set kr (strip (c ++ [NL] ++ bullet r)) (parse_sections prompt)
  /\ get_section_list (add_requirement_to_prompt prompt r)
     = get_section_list prompt
  /\ forall k, k <> kr ->
       dict_get k (parse_sections (add_requirement_to_prompt prompt r))
       = dict_get k (parse_sections prompt).
Proof.
  intros Hf Hc Hb.
  destruct (find_requirements_headings _ _ Hf) as [Hh Hk].
  destruct (stored_content_no_heading _ _ _ Hh Hc) as [Hnh _].
  assert (E : parse_sections (add_requirement_to_prompt prompt r)
              = dict_set kr (strip (c ++ [NL] ++ bullet r))
                         (parse_sections prompt)).
  { unfold add_requirement_to_prompt, add_requirement_sections.
    rewrite Hf, (key_truthy _ _ Hh Hk). unfold dict_at. rewrite Hc.
    apply (parse_rebuild_set prompt kr _ Hh Hk).
    unfold no_heading, split_lines.
    change (c ++ [NL] ++ py "- " ++ r) with (c ++ NL :: bullet r).
    rewrite split_app_sep. apply Forall_app. split; assumption. }
  unfold get_section_list. rewrite E. repeat split.
  - apply dict_keys_set_present, Hk.
  - intros k Hne. apply dict_get_set_other, Hne.
Qed.

Lemma X6_add_requirement_existing_witness :
  let doc := doc_of ["# GOAL"; "ship it"; "# REQUIREMENTS"; "- fast"]%string in
  let r := py "works offline" in
  parse_sections (add_requirement_to_prompt doc r)
  = dict_set (py "# REQUIREMENTS")
      (strip (py "- fast" ++ [NL] ++ bullet r)) (parse_sections doc)
  /\ get_section_list (add_requirement_to_prompt doc r)
     = get_section_list doc
  /\ forall k, k <> py "# REQUIREMENTS" ->
       dict_get k (parse_sections (add_requirement_to_prompt doc r))
       = dict_get k (parse_sections doc).
Proof.
  intros doc r.
  apply (X6_add_requirement_existing doc r (py "# REQUIREMENTS")
           (py "- fast")).
  - reflexivity.
  - reflexivity.
  - lines_not_headings.
Defined.

(** X7: on a document without a requirements section
    [add_requirement_to_prompt] adds the section
    "# ТРЕБОВАНИЯ / # REQUIREMENTS" with the trimmed bullet as its content:
    after the existing sections when the document has a recognized heading,
    and as the only section when it has none (the text of the document is
    then kept in front of the new heading, outside every section). *)
Theorem X7_add_requirement_new_section (prompt r : str) :
  find_requirements (parse_sections prompt) = None ->
  no_heading (bullet r) ->
  parse_sections (add_requirement_to_prompt prompt r)
  = match heading_lines prompt with
    | [] => [(new_requirements_key, strip (bullet r))]
    | _ => parse_sections prompt
           ++ [(new_requirements_key, strip (bullet r))]
    end.
Proof.
  intros Hf Hb.
  assert (Eadd : add_requirement_to_prompt prompt r
                 = rebuild (parse_sections prompt
                            ++ [(new_requirements_key, bullet r)])).
  { unfold add_requirement_to_prompt, add_requirement_sections. rewrite Hf.
    rewrite (dict_set_fresh _ _ _ (new_requirements_key_fresh _ Hf)).
    reflexivity. }
  rewrite Eadd. destruct (heading_lines prompt) as [|h hs] eqn:Hh.
  - rewrite (parse_sections_no_heading _ Hh).
    rewrite parse_sections_unfold. unfold rebuild.
    rewrite parse_lines_strip. unfold split_lines at 1, join_lines.
    rewrite split_join by discriminate.
    cbn [app flatten_sections flat_map fst snd].
    replace (split NL full_prompt_key) with [full_prompt_key] by reflexivity.
    replace (split NL new_requirements_key) with [new_requirements_key]
      by reflexivity.
    replace (split NL []) with [[] : str] by reflexivity.
    rewrite app_nil_r.
    unfold parse_lines.
    match goal with
    | |- context [fold_left parse_step ?l parse_init] =>
        assert (El : l
                     = (full_prompt_key :: split NL prompt ++ [[]])
                       ++ new_requirements_key
                          :: (split NL (bullet r) ++ [[]]))
          by (cbn [app]; rewrite <- app_assoc; reflexivity);
        rewrite El
    end.
    rewrite (fold_left_app parse_step
               (full_prompt_key :: split NL prompt ++ [[]])
               (new_requirements_key :: (split NL (bullet r) ++ [[]]))
               parse_init).
    rewrite (parse_skip (full_prompt_key :: split NL prompt ++ [[]])
               parse_init); [| |reflexivity].
    + cbn [fold_left].
      rewrite (parse_step_heading _ _ (proj1 new_requirements_key_wf)).
      rewrite (proj1 (proj2 new_requirements_key_wf)).
      rewrite (parse_body _ _ (Some new_requirements_key) _);
        [| apply Forall_app; split; [exact Hb | repeat constructor]
         | reflexivity].
      rewrite (save_section_open _ _ _ new_requirements_key_wf).
      cbn [app]. fold (split_lines (bullet r)).
      rewrite strip_join_split_snoc. reflexivity.
    + constructor; [reflexivity|]. apply Forall_app. split.
      * apply filter_nil_Forall. exact Hh.
      * repeat constructor.
  - assert (Hne : heading_lines prompt <> []) by (rewrite Hh; discriminate).
    destruct (parse_sections_headings prompt Hne) as [E _].
    destruct (parse_lines_stored prompt) as [Hnd Hst].
    rewrite <- E in Hnd, Hst.
    rewrite parse_rebuild.
    + rewrite strip_contents_app, (strip_contents_stored _ Hst). reflexivity.
    + destruct (parse_sections prompt); discriminate.
    + split.
      * unfold dict_keys. rewrite List.map_app. apply List.NoDup_app.
        -- exact Hnd.
        -- repeat constructor. intros [].
        -- intros k Hk [<-|[]].
           exact (new_requirements_key_fresh _ Hf Hk).
      * apply Forall_app. split.
        -- eapply List.Forall_impl; [|exact Hst].
           intros kc (Hk & Hc & _). split; assumption.
        -- repeat constructor; [apply new_requirements_key_wf | exact Hb].
Qed.

Lemma X7_add_requirement_new_section_witness :
  (let doc := doc_of ["# GOAL"; "ship it"]%string in
   parse_sections (add_requirement_to_prompt doc (py "fast"))
   = [(py "# GOAL", py "ship it"); (new_requirements_key, py "- fast")])
  /\ (let doc := py "just ship it" in
      parse_sections (add_requirement_to_prompt doc (py "fast"))
      = [(new_requirements_key, py "- fast")]).
Proof.
  split; intros doc.
  - apply (X7_add_requirement_new_section doc (py "fast"));
      [reflexivity | lines_not_headings].
  - apply (X7_add_requirement_new_section doc (py "fast"));
      [reflexivity | lines_not_headings].
Defined.

(** ** Lines of a trimmed text *)

Lemma Forall_lines_lstrip (P : str -> Prop) (s : str) :
  (forall w l, all_ws w -> P (w ++ l) -> P l) ->
  Forall P (split_lines s) -> Forall P (split_lines (lstrip s)).
Proof.
  intros HP. unfold split_lines.
  destruct (lstrip_split s) as (w & Hw & E). intros H.
  rewrite E, split_app in H.
  apply Forall_app in H. destruct H as [_ H]. inversion H as [|x l Hx Hl]; subst.
  pose proof (Forall_last _ _ [] all_ws_nil (split_all_ws NL w Hw)) as Hlast.
  apply (HP _ _ Hlast) in Hx.
  destruct (split NL (lstrip s)) as [|l0 ls] eqn:El;
    [destruct (split_nonempty _ _ El)|].
  constructor; assumption.
Qed.

Lemma Forall_lines_rstrip (P : str -> Prop) (s : str) :
  (forall l w, all_ws w -> P (l ++ w) -> P l) ->
  Forall P (split_lines s) -> Forall P (split_lines (rstrip s)).
Proof.
  intros HP. unfold split_lines.
  destruct (rstrip_split s) as (w & Hw & E). intros H.
  rewrite E, split_app in H.
  apply Forall_app in H. destruct H as [Hfront H].
  inversion H as [|x l Hx Hl]; subst.
  pose proof (Forall_hd _ _ [] all_ws_nil (split_all_ws NL w Hw)) as Hhd.
  apply (HP _ _ Hhd) in Hx.
  rewrite (removelast_last (split NL (rstrip s)) []) by apply split_nonempty.
  apply Forall_app. split; [exact Hfront | repeat constructor; exact Hx].
Qed.

Lemma startswith_app_mono (p : str) :
  forall s b, startswith s p = true -> startswith (s ++ b) p = true.
Proof.
  induction p as [|x p IH]; intros s b H; [reflexivity|].
  destruct s as [|y s]; [discriminate H|].
  cbn [app]. simpl in *. apply andb_true_iff in H. destruct H as [H1 H2].
  rewrite H1. simpl. apply IH, H2.
Qed.

Lemma contains_app_right_mono (n l b : str) :
  contains n l = true -> contains n (l ++ b) = true.
Proof.
  induction l as [|x l IH]; intros H.
  - destruct n as [|c n]; [apply contains_nil | discriminate H].
  - change (contains n ((x :: l) ++ b))
      with (startswith ((x :: l) ++ b) n || contains n (l ++ b)).
    change (contains n (x :: l))
      with (startswith (x :: l) n || contains n l) in H.
    apply orb_true_iff in H. apply orb_true_iff. destruct H as [H|H].
    + left. apply startswith_app_mono, H.
    + right. apply IH, H.
Qed.

Lemma contains_app_left_mono (n a l : str) :
  contains n l = true -> contains n (a ++ l) = true.
Proof.
  intros H. induction a as [|y a IH]; [exact H|].
  change (contains n ((y :: a) ++ l))
    with (startswith ((y :: a) ++ l) n || contains n (a ++ l)).
  rewrite IH. apply orb_true_r.
Qed.

Lemma keep_line_trim_left (m w l : str) :
  all_ws w -> keep_line m (w ++ l) = true -> keep_line m l = true.
Proof.
  unfold keep_line. intros Hw. rewrite (lower_app_ws_left w l Hw). intros H.
  apply negb_true_iff in H. apply negb_true_iff.
  destruct (contains (lower m) (lower l)) eqn:E; [|reflexivity].
  rewrite (contains_app_left_mono _ (lower w) _ E) in H.
  discriminate H.
Qed.

Lemma keep_line_trim_right (m l w : str) :
  all_ws w -> keep_line m (l ++ w) = true -> keep_line m l = true.
Proof.
  unfold keep_line. intros Hw. rewrite (lower_app_ws_right l w Hw). intros H.
  apply negb_true_iff in H. apply negb_true_iff.
  destruct (contains (lower m) (lower l)) eqn:E; [|reflexivity].
  rewrite (contains_app_right_mono _ _ (lower w) E) in H.
  discriminate H.
Qed.

Lemma case_image_nonempty (special : list (N * list N))
      (runs : list (N * N * N * N)) (c : char) :
  Forall (fun e => snd e <> []) special -> case_image special runs c <> [].
Proof.
  intros Hs. unfold case_image, special_image.
  destruct (List.find _ special) as [e|] eqn:E.
  - apply find_some in E. destruct E as [E _].
    rewrite List.Forall_forall in Hs. exact (Hs e E).
  - destruct (run_image runs c); discriminate.
Qed.

Lemma lower_nonempty (m : str) : m <> [] -> lower m <> [].
Proof.
  destruct m as [|c m]; [contradiction|]. intros _. unfold lower.
  cbn [lower_from]. destruct (c =? CAPITAL_SIGMA); [discriminate|].
  pose proof (case_image_nonempty lower_special lower_runs c
                ltac:(repeat constructor; discriminate)) as H.
  fold (lower_char c) in H. destruct (lower_char c); [contradiction|].
  discriminate.
Qed.

Lemma keep_line_nil (m : str) : m <> [] -> keep_line m [] = true.
Proof.
  intros H. unfold keep_line. apply lower_nonempty in H.
  change (lower []) with (@nil char). destruct (lower m); [contradiction|].
  reflexivity.
Qed.

Lemma kept_lines_strip (m : str) (ls : list str) :
  m <> [] ->
  Forall (fun l => ~ In NL l) ls ->
  Forall (fun l => keep_line m l = true) ls ->
  Forall (fun l => keep_line m l = true)
         (split_lines (strip (join_lines ls))).
Proof.
  intros Hm Hnl Hkeep. unfold strip.
  apply Forall_lines_rstrip;
    [intros l w Hw; apply keep_line_trim_right, Hw|].
  apply Forall_lines_lstrip;
    [intros w l Hw; apply keep_line_trim_left, Hw|].
  destruct ls as [|l ls].
  - repeat constructor. apply keep_line_nil, Hm.
  - unfold split_lines, join_lines.
    rewrite split_join_lines; [exact Hkeep | discriminate | exact Hnl].
Qed.

Lemma filter_keep_empty_text (ls : list str) :
  List.filter (keep_line []) ls = [].
Proof.
  induction ls as [|l ls IH]; [reflexivity|].
  simpl. rewrite keep_line_empty. exact IH.
Qed.

Lemma filtered_kept (m c : str) :
  m <> [] ->
  Forall (fun l => keep_line m l = true)
         (split_lines
            (strip (join_lines (List.filter (keep_line m) (split_lines c))))).
Proof.
  intros Hm. apply kept_lines_strip; [exact Hm | | ].
  - apply List.Forall_forall. intros l Hl. apply filter_In in Hl.
    pose proof (split_lines_nosep NL c) as Hn.
    rewrite List.Forall_forall in Hn. apply Hn, Hl.
  - apply List.Forall_forall. intros l Hl. apply filter_In in Hl. apply Hl.
Qed.

Lemma filter_strip_fixed (m c : str) :
  let v := strip (join_lines (List.filter (keep_line m) (split_lines c))) in
  strip (join_lines (List.filter (keep_line m) (split_lines v))) = v.
Proof.
  intros v. subst v. destruct m as [|x m].
  - rewrite !filter_keep_empty_text. reflexivity.
  - rewrite (filter_all_kept _ _ (filtered_kept (x :: m) c ltac:(discriminate))).
    unfold join_lines, split_lines. rewrite join_split.
    apply strip_idem.
Qed.

(** X8: on a document with a recognized heading, removing the lines that
    contain a text a second time changes nothing. *)
Theorem X8_remove_requirement_idempotent (prompt m : str) :
  heading_lines prompt <> [] ->
  remove_requirement_from_prompt (remove_requirement_from_prompt prompt m) m
  = remove_requirement_from_prompt prompt m.
Proof.
  intros Hh.
  destruct (find_requirements (parse_sections prompt)) as [kr|] eqn:Hf.
  - destruct (remove_requirement_found prompt m kr Hf) as (c & Hc & E1 & E2).
    destruct (find_requirements_headings _ _ Hf) as [_ Hk].
    set (v := strip (join_lines (List.filter (keep_line m) (split_lines c))))
      in *.
    assert (Efirst : remove_requirement_from_prompt prompt m
                     = rebuild (dict_set kr v (parse_sections prompt))).
    { unfold remove_requirement_from_prompt. rewrite E1. reflexivity. }
    unfold remove_requirement_from_prompt at 1.
    unfold remove_requirement_sections. rewrite E2.
    rewrite (find_requirements_set _ _ _ Hk), Hf, (key_truthy _ _ Hh Hk).
    unfold dict_at. rewrite dict_get_set_same.
    subst v. rewrite filter_strip_fixed, dict_set_set. symmetry. exact Efirst.
  - assert (E : remove_requirement_from_prompt prompt m
                = rebuild (parse_sections prompt)).
    { unfold remove_requirement_from_prompt, remove_requirement_sections.
      rewrite Hf. reflexivity. }
    rewrite E. unfold remove_requirement_from_prompt,
      remove_requirement_sections.
    rewrite (parse_rebuild_parse _ Hh), Hf. reflexivity.
Qed.

Lemma X8_remove_requirement_idempotent_witness :
  let doc := doc_of ["# GOAL"; "ship it"; "# REQUIREMENTS"; "- fast";
                     "- cheap"; "- very FAST"]%string in
  remove_requirement_from_prompt
    (remove_requirement_from_prompt doc (py "fast")) (py "fast")
  = remove_requirement_from_prompt doc (py "fast").
Proof.
  intros doc. apply (X8_remove_requirement_idempotent doc (py "fast")).
  vm_compute. discriminate.
Defined.

(** X9: after [remove_requirement_from_prompt] with a non-empty text, the
    requirements section holds the lines of its former content that do not
    contain the text, case-insensitively, joined and trimmed; no line of
    the new content contains the text. *)
Theorem X9_remove_requirement_content (prompt m kr : str) :
  m <> [] ->
  find_requirements (parse_sections prompt) = Some kr ->
  exists c,
    dict_get kr (parse_sections prompt) = Some c
    /\ requirements_content (remove_requirement_from_prompt prompt m)
       = Some (strip (join_lines
                        (List.filter (keep_line m) (split_lines c))))
    /\ Forall (fun l => contains (lower m) (lower l) = false)
         (split_lines
            (strip (join_lines
                      (List.filter (keep_line m) (split_lines c))))).
Proof.
  intros Hm Hf.
  destruct (remove_requirement_found prompt m kr Hf) as (c & Hc & _ & E).
  destruct (find_requirements_headings _ _ Hf) as [_ Hk].
  exists c. split; [exact Hc|]. split.
  - unfold requirements_content. rewrite E.
    rewrite (find_requirements_set _ _ _ Hk), Hf. apply dict_get_set_same.
  - eapply List.Forall_impl; [|exact (filtered_kept m c Hm)].
    intros l Hl. unfold keep_line in Hl. apply negb_true_iff in Hl. exact Hl.
Qed.

Lemma X9_remove_requirement_content_witness :
  let doc := doc_of ["# REQUIREMENTS"; "- fast"; "- cheap";
                     "- very FAST"]%string in
  exists c,
    dict_get (py "# REQUIREMENTS") (parse_sections doc) = Some c
    /\ requirements_content (remove_requirement_from_prompt doc (py "fast"))
       = Some (strip (join_lines
                        (List.filter (keep_line (py "fast"))
                           (split_lines c))))
    /\ Forall (fun l => contains (lower (py "fast")) (lower l) = false)
         (split_lines
            (strip (join_lines
                      (List.filter (keep_line (py "fast"))
                         (split_lines c))))).
Proof.
  intros doc.
  apply (X9_remove_requirement_content doc (py "fast") (py "# REQUIREMENTS"));
    [discriminate | reflexivity].
Defined.

(** * Further properties of the completion adapter *)

Lemma retry_loop_shape (sp um : str) (max_retries : Z) (remaining : nat) :
  forall (attempt delay : Z) (w : world),
    (0 < remaining)%nat ->
    (attempt + Z.of_nat remaining = max_retries)%Z ->
    exists j,
      (j < remaining)%nat
      /\ (retry_loop remaining attempt max_retries delay sp um w).2
         = after_log w (S j) (retry_log sp um delay j).
Proof.
  induction remaining as [|r IH]; intros attempt delay w Hpos Hsum; [lia|].
  rewrite retry_loop_last by lia.
  destruct (service w (requests w)) as [content|e].
  - exists 0%nat. split; [lia | reflexivity].
  - destruct (is_openai_error e && (attempt <? max_retries - 1)%Z) eqn:E.
    + apply andb_true_iff in E. destruct E as [_ E]. apply Z.ltb_lt in E.
      replace (S r - 1)%nat with r by lia.
      destruct (IH (attempt + 1)%Z (delay * 2)%Z
                  (after_log w 1 [EvRequest sp um; EvSleep delay])
                  ltac:(lia) ltac:(lia)) as (j & Hj & Hw).
      exists (S j). split; [lia|]. rewrite Hw, after_log_after_log.
      unfold retry_log. cbn [failed_attempts app]. reflexivity.
    + exists 0%nat. split; [lia | reflexivity].
Qed.

(** X10: whatever the service does, [_call_with_retry] makes at least one
    and at most [max_retries] requests when that budget is positive, its
    waits are the first delays of the doubling sequence, one less than the
    requests, and the last event is a request, never a wait; sessions,
    dialogue states and sent messages are not touched.  With a budget of
    zero or less it makes no request and returns [None]. *)
Theorem X10_call_with_retry_bounds (cfg : config) (sp um : str)
        (max_retries : Z) (w : world) :
  let run := _call_with_retry cfg sp um max_retries w in
  ((max_retries <= 0)%Z -> run = (Ok None, w))
  /\ ((0 < max_retries)%Z ->
      exists j,
        (Z.of_nat (S j) <= max_retries)%Z
        /\ run.2 = after_log w (S j) (retry_log sp um (RETRY_DELAY cfg) j)
        /\ request_count (retry_log sp um (RETRY_DELAY cfg) j) = S j
        /\ waits (retry_log sp um (RETRY_DELAY cfg) j)
           = backoff (RETRY_DELAY cfg) j).
Proof.
  intros run. subst run. unfold _call_with_retry. split.
  - intros H. replace (Z.to_nat max_retries) with 0%nat by lia. reflexivity.
  - intros H.
    destruct (retry_loop_shape sp um max_retries (Z.to_nat max_retries) 0
                (RETRY_DELAY cfg) w ltac:(lia) ltac:(lia)) as (j & Hj & Hw).
    exists j. split; [lia|]. split; [exact Hw|].
    destruct (retry_log_facts sp um (RETRY_DELAY cfg) j) as (H1 & H2 & _).
    split; assumption.
Qed.

Lemma X10_call_with_retry_bounds_witness :
  let w := fresh_world (failing_then 1 (py "ok")) in
  _call_with_retry repository_config [] [] 0 w = (Ok None, w)
  /\ exists j,
      (Z.of_nat (S j) <= 3)%Z
      /\ (_call_with_retry repository_config [] [] 3 w).2
         = after_log w (S j) (retry_log [] [] 1 j)
      /\ request_count (retry_log [] [] 1 j) = S j
      /\ waits (retry_log [] [] 1 j) = backoff 1 j.
Proof.
  intros w. split.
  - apply (proj1 (X10_call_with_retry_bounds repository_config [] [] 0 w)).
    lia.
  - apply (proj2 (X10_call_with_retry_bounds repository_config [] [] 3 w)).
    lia.
Defined.

Lemma question_of_line_some (line q : str) :
  question_of_line line = Some q ->
  strip q = q /\ q <> [] /\ endswith q [QMARK] = true.
Proof.
  unfold question_of_line.
  destruct (match strip line with
            | [] => false
            | c :: _ => isdigit c || startswith (strip line) [DASH]
            end); [|discriminate].
  set (q0 := strip (lstrip_chars (py "- ") (strip (split1_last DOT (strip line))))).
  destruct (truthy q0 && endswith q0 [QMARK]) eqn:E; [|discriminate].
  intros [= <-]. apply andb_true_iff in E. destruct E as [Ht He].
  split; [apply strip_idem|]. split; [|exact He].
  intros Hq. rewrite Hq in Ht. discriminate Ht.
Qed.

Lemma questions_of_lines (ls : list str) :
  let qs := flat_map (fun line => match question_of_line line with
                                  | Some q => [q]
                                  | None => []
                                  end) ls in
  Forall (fun q => strip q = q /\ q <> [] /\ endswith q [QMARK] = true) qs
  /\ (List.length qs <= List.length ls)%nat.
Proof.
  induction ls as [|l ls [IH1 IH2]]; [split; [constructor | reflexivity]|].
  cbn [flat_map]. destruct (question_of_line l) as [q|] eqn:E.
  - split; [constructor; [apply (question_of_line_some _ _ E) | exact IH1]|].
    cbn [app List.length]. cbv zeta in IH2. lia.
  - split; [exact IH1|]. cbn [app List.length]. cbv zeta in IH2. lia.
Qed.

Lemma extract_questions_nonempty (response : str) :
  extract_questions response <> [].
Proof. unfold extract_questions. destruct (flat_map _ _); discriminate. Qed.

(** X11: every extracted question is trimmed; unless the result is the
    fallback (the trimmed response alone), every question is non-empty and
    ends with a question mark; there is at least one question and at most
    one per line of the trimmed response. *)
Theorem X11_extract_questions_shape (response : str) :
  let res := extract_questions response in
  Forall (fun q => strip q = q) res
  /\ (res = [strip response]
      \/ Forall (fun q => q <> [] /\ endswith q [QMARK] = true) res)
  /\ (1 <= List.length res
      <= List.length (split_lines (strip response)))%nat.
Proof.
  intros res. subst res. unfold extract_questions.
  destruct (questions_of_lines (split_lines (strip response))) as [H1 H2].
  cbv zeta in H1, H2.
  destruct (flat_map _ (split_lines (strip response))) as [|q qs] eqn:E.
  - split; [repeat constructor; apply strip_idem|].
    split; [left; reflexivity|]. cbn [List.length]. split; [lia|].
    pose proof (split_nonempty NL (strip response)) as Hn.
    unfold split_lines. destruct (split NL (strip response));
      [contradiction | simpl; lia].
  - split; [eapply List.Forall_impl; [|exact H1]; intros a Ha; apply Ha|].
    split; [right; eapply List.Forall_impl; [|exact H1]; intros a Ha; apply Ha|].
    split; [simpl; lia | exact H2].
Qed.

Lemma call_with_retry_first_response (cfg : config) (sp um : str)
      (content : option str) (w : world) :
  (0 < MAX_RETRIES cfg)%Z ->
  service w (requests w) = Responds content ->
  _call_with_retry cfg sp um (MAX_RETRIES cfg) w
  = (Ok content, after_log w 1 [EvRequest sp um]).
Proof.
  intros Hmax Hs.
  rewrite <- (Z2Nat.id (MAX_RETRIES cfg)) at 1 by lia.
  rewrite (call_with_retry_after_failures cfg sp um _ 0 w);
    [| lia | intros i Hi; lia].
  cbv zeta. rewrite Nat.add_0_r, Hs. reflexivity.
Qed.

(** X12: [generate_clarification_questions] returns the questions extracted
    from the first response when that response is a non-empty text, after
    exactly one request carrying the task description; it raises
    [ValueError] when the response is absent or empty, without asking
    again, and also, without any request, when the retry budget of the
    configuration is not positive.  The list it returns is never empty. *)
Theorem X12_generate_questions_outcomes (cfg : config) (tpl : templates)
        (task : str) (w : world) :
  let gen := generate_clarification_questions cfg tpl task w in
  let request := EvRequest (PHASE1_SYSTEM_PROMPT tpl)
                           (lit_task_prefix ++ [NL] ++ task) in
  ((MAX_RETRIES cfg <= 0)%Z ->
   gen = (Raise (ValueError msg_no_questions), w))
  /\ ((0 < MAX_RETRIES cfg)%Z ->
      (forall text,
          service w (requests w) = Responds (Some text) -> text <> [] ->
          gen = (Ok (extract_questions text), after_log w 1 [request]))
      /\ (service w (requests w) = Responds None
          \/ service w (requests w) = Responds (Some []) ->
          gen = (Raise (ValueError msg_no_questions),
                 after_log w 1 [request])))
  /\ (forall questions, gen.1 = Ok questions -> questions <> []).
Proof.
  intros gen request. subst gen request.
  unfold generate_clarification_questions. repeat split.
  - intros H. unfold bind, _call_with_retry.
    replace (Z.to_nat (MAX_RETRIES cfg)) with 0%nat by lia. reflexivity.
  - intros text Hs Ht. unfold bind.
    rewrite (call_with_retry_first_response _ _ _ _ _ H Hs).
    destruct text; [contradiction | reflexivity].
  - intros [Hs|Hs]; unfold bind;
      rewrite (call_with_retry_first_response _ _ _ _ _ H Hs); reflexivity.
  - intros questions. unfold bind.
    destruct (_call_with_retry _ _ _ _ w) as [[[text|]|e] w'];
      cbn [fst]; try discriminate.
    destruct (truthy text); [|discriminate]. cbn. intros [= <-].
    apply extract_questions_nonempty.
Qed.

Lemma X12_generate_questions_outcomes_witness :
  let tpl := Templates [] [] [] in
  let task := py "Build a todo list app" in
  let request := EvRequest [] (lit_task_prefix ++ [NL] ++ task) in
  (let w := fresh_world (fun _ => Responds (Some (py "1. Which users?"))) in
   generate_clarification_questions repository_config tpl task w
   = (Ok (extract_questions (py "1. Which users?")),
      after_log w 1 [request]))
  /\ (let w := fresh_world (fun _ => Responds None) in
      generate_clarification_questions repository_config tpl task w
      = (Raise (ValueError msg_no_questions), after_log w 1 [request]))
  /\ (let w := fresh_world (fun _ => Responds None) in
      generate_clarification_questions (Config 0 1) tpl task w
      = (Raise (ValueError msg_no_questions), w)).
Proof.
  intros tpl task request. split; [|split]; intros w.
  - apply (proj1 (proj1 (proj2 (X12_generate_questions_outcomes
                                  repository_config tpl task w))
                    ltac:(reflexivity)));
      [reflexivity | discriminate].
  - apply (proj2 (proj1 (proj2 (X12_generate_questions_outcomes
                                  repository_config tpl task w))
                    ltac:(reflexivity))).
    left. reflexivity.
  - apply (proj1 (X12_generate_questions_outcomes (Config 0 1) tpl task w)).
    simpl. lia.
Defined.

(** ** The question filter and the numbering *)























(** ** The brace scan of the normalizer *)

Lemma find_from_app (c : char) (pre rest : str) :
  forall i, ~ In c pre ->
            find_from c (pre ++ c :: rest) i
            = (i + Z.of_nat (List.length pre))%Z.
Proof.
  induction pre as [|x pre IH]; intros i H.
  - simpl. rewrite N.eqb_refl. lia.
  - cbn [app find_from]. destruct (N.eqb_spec x c) as [->|_].
    + exfalso. apply H. left. reflexivity.
    + rewrite IH by (intros Hin; apply H; right; exact Hin).
      cbn [List.length]. lia.
Qed.

Lemma rfind_from_absent (c : char) (s : str) :
  forall i last, ~ In c s -> rfind_from c s i last = last.
Proof.
  induction s as [|x s IH]; intros i last H; [reflexivity|].
  cbn [rfind_from]. destruct (N.eqb_spec x c) as [->|_].
  - exfalso. apply H. left. reflexivity.
  - apply IH. intros Hin. apply H. right. exact Hin.
Qed.

Lemma rfind_from_app (c : char) (s post : str) :
  forall i last, ~ In c post ->
                 rfind_from c (s ++ c :: post) i last
                 = (i + Z.of_nat (List.length s))%Z.
Proof.
  induction s as [|x s IH]; intros i last H.
  - cbn [app rfind_from]. rewrite N.eqb_refl.
    rewrite (rfind_from_absent _ _ _ _ H). simpl. lia.
  - cbn [app rfind_from]. rewrite IH by exact H. cbn [List.length]. lia.
Qed.

Lemma slice_middle (pre body post : str) :
  slice (pre ++ body ++ post) (Z.of_nat (List.length pre))
        (Z.of_nat (List.length pre + List.length body))
  = body.
Proof.
  unfold slice. rewrite Nat2Z.id.
  replace (Z.to_nat (Z.of_nat (List.length pre + List.length body)
                     - Z.of_nat (List.length pre)))
    with (List.length body) by lia.
  rewrite List.skipn_app, List.skipn_all, Nat.sub_diag, List.skipn_O.
  cbn [app].
  rewrite List.firstn_app, List.firstn_all, Nat.sub_diag, List.firstn_O.
  apply app_nil_r.
Qed.

(** X13: when the response holds an opening brace, a text, a closing brace
    and, around them, a prefix without opening brace and a suffix without
    closing brace, the normalizer hands exactly the braced part to the JSON
    parser: it returns the parsed value when there is one, whatever
    surrounds the braces, the decode-error record when the parser reports
    a decode error, and lets any other exception of the parser through. *)
Theorem X13_normalize_brace_scan (json_loads : str -> loads_outcome)
        (pre mid post : str) :
  ~ In LBRACE pre -> ~ In RBRACE post ->
  let body := LBRACE :: mid ++ [RBRACE] in
  let response := pre ++ body ++ post in
  has_brace_pair response = true
  /\ brace_substring response = body
  /\ normalize_recommendations json_loads response
     = match json_loads body with
       | Parsed value => Ok value
       | DecodeError => Ok (decode_error_fallback response)
       | LoadsRaises e => Raise e
       end.
Proof.
  intros Hpre Hpost body response.
  assert (Hfind : find LBRACE response = Z.of_nat (List.length pre)).
  { unfold find, response, body. cbn [app].
    rewrite (find_from_app _ _ _ _ Hpre). lia. }
  assert (Hrfind : (rfind RBRACE response + 1)%Z
                   = Z.of_nat (List.length pre + List.length body)).
  { unfold rfind, response, body.
    replace (pre ++ (LBRACE :: mid ++ [RBRACE]) ++ post)
      with ((pre ++ LBRACE :: mid) ++ RBRACE :: post)
      by (rewrite <- !app_assoc; cbn [app]; rewrite <- app_assoc;
          reflexivity).
    rewrite (rfind_from_app _ _ _ _ _ Hpost).
    rewrite !List.length_app. cbn [List.length].
    rewrite List.length_app. cbn [List.length]. lia. }
  assert (Hpair : has_brace_pair response = true).
  { unfold has_brace_pair. rewrite Hrfind, Hfind.
    apply andb_true_iff. split.
    - apply negb_true_iff, Z.eqb_neq. lia.
    - apply Z.gtb_lt. unfold body. cbn [List.length]. lia. }
  assert (Hsub : brace_substring response = body).
  { unfold brace_substring. rewrite Hrfind, Hfind. apply slice_middle. }
  split; [exact Hpair|]. split; [exact Hsub|].
  unfold has_brace_pair, brace_substring in *. unfold normalize_recommendations.
  rewrite Hpair, Hsub. reflexivity.
Qed.

Lemma X13_normalize_brace_scan_witness :
  let loads := fun s => if str_eqb s (py "{a}") then Parsed JNull
                        else DecodeError in
  normalize_recommendations loads (py "Here: {a} done") = Ok JNull.
Proof.
  intros loads.
  destruct (X13_normalize_brace_scan loads (py "Here: ") (py "a") (py " done"))
    as (_ & _ & H).
  - vm_compute. intros H. repeat (destruct H as [H|H]; [discriminate H|]).
    exact H.
  - vm_compute. intros H. repeat (destruct H as [H|H]; [discriminate H|]).
    exact H.
  - exact H.
Defined.

Lemma normalize_cases (json_loads : str -> loads_outcome) (text : str) :
  (exists value,
      has_brace_pair text = true
      /\ json_loads (brace_substring text) = Parsed value
      /\ normalize_recommendations json_loads text = Ok value)
  \/ (exists tech record,
         normalize_recommendations json_loads text = Ok record
         /\ fallback_fields tech text record)
  \/ (exists e,
         has_brace_pair text = true
         /\ json_loads (brace_substring text) = LoadsRaises e
         /\ normalize_recommendations json_loads text = Raise e).
Proof.
  destruct (has_brace_pair text) eqn:Hb.
  - destruct (json_loads (brace_substring text)) as [value| |e] eqn:E.
    + left. exists value. split; [reflexivity|]. split; [reflexivity|].
      unfold normalize_recommendations. unfold has_brace_pair in Hb.
      unfold brace_substring in E. rewrite Hb, E. reflexivity.
    + right. left. exists placeholder, (decode_error_fallback text).
      split; [apply (normalize_decode_error _ _ Hb E)|].
      apply decode_error_fallback_fields.
    + right. right. exists e. split; [reflexivity|]. split; [reflexivity|].
      unfold normalize_recommendations. unfold has_brace_pair in Hb.
      unfold brace_substring in E. rewrite Hb, E. reflexivity.
  - right. left. exists (firstn 200 text), (text_fallback text).
    split; [apply (normalize_no_brace_pair _ _ Hb)|].
    apply text_fallback_fields.
Qed.

Lemma contains_middle (x a b : str) : contains x (a ++ x ++ b) = true.
Proof.
  rewrite app_assoc. apply contains_app_right_mono, contains_suffix.
Qed.

Lemma contains_join_member (sep : str) (parts : list str) (x p : str) :
  In p parts -> contains x p = true -> contains x (join sep parts) = true.
Proof.
  induction parts as [|q parts IH]; intros Hin Hx; [destruct Hin|].
  destruct parts as [|q' parts].
  - destruct Hin as [<-|[]]. exact Hx.
  - change (join sep (q :: q' :: parts))
      with (q ++ sep ++ join sep (q' :: parts)).
    destruct Hin as [<-|Hin].
    + apply contains_app_right_mono, Hx.
    + rewrite app_assoc. apply contains_app_left_mono. exact (IH Hin Hx).
Qed.

(** The request for recommendations holds the task description and, for
    every stored answer, its question and its text. *)
Lemma recommendations_message_holds (task : str)
      (answers : pydict (option str)) :
  contains task (recommendations_message task answers) = true
  /\ Forall (fun qa =>
               contains (fst qa) (recommendations_message task answers)
               = true
               /\ contains (format_answer (snd qa))
                    (recommendations_message task answers)
                  = true)
            answers.
Proof.
  unfold recommendations_message. split.
  - rewrite (app_assoc lit_task_header). apply contains_middle.
  - apply List.Forall_forall. intros qa Hin.
    assert (Hblock : forall x,
               contains x (lit_vopros ++ fst qa ++ [NL] ++ lit_otvet
                           ++ format_answer (snd qa) ++ [NL]) = true ->
               contains x
                 (lit_task_header ++ [NL] ++ task ++ [NL; NL]
                  ++ lit_answers_header ++ [NL] ++ answers_text answers)
               = true).
    { intros x Hx. rewrite !app_assoc. apply contains_app_left_mono.
      unfold answers_text, join_lines.
      apply (contains_join_member _ _ _
               (lit_vopros ++ fst qa ++ [NL] ++ lit_otvet
                ++ format_answer (snd qa) ++ [NL])); [|exact Hx].
      apply (in_map (fun qa => lit_vopros ++ fst qa ++ [NL] ++ lit_otvet
                               ++ format_answer (snd qa) ++ [NL])).
      exact Hin. }
    split; apply Hblock.
    + apply contains_middle.
    + rewrite !app_assoc. rewrite <- (app_assoc _ (format_answer (snd qa))).
      apply contains_middle.
Qed.

(** X14: with a positive retry budget, [generate_recommendations] sends one
    request, whose user message holds the task description and every
    question with its answer, and, when the first response is a non-empty
    text, ends as the normalization of that text does: with the value the
    JSON parser returned for the braced part, with a record that has all
    seven fields and the response as its summary, or with the exception
    that the parser raised other than a decode error.  An absent or empty
    response raises [ValueError] without another request. *)
Theorem X14_generate_recommendations_outcomes
        (json_loads : str -> loads_outcome) (cfg : config) (tpl : templates)
        (task : str) (answers : pydict (option str)) (w : world) :
  (0 < MAX_RETRIES cfg)%Z ->
  let gen := generate_recommendations json_loads cfg tpl task answers w in
  let message := recommendations_message task answers in
  let request := EvRequest (PHASE2_SYSTEM_PROMPT tpl) message in
  (contains task message = true
   /\ Forall (fun qa => contains (fst qa) message = true
                        /\ contains (format_answer (snd qa)) message = true)
             answers)
  /\ (forall text,
         service w (requests w) = Responds (Some text) -> text <> [] ->
         gen = (normalize_recommendations json_loads text,
                after_log w 1 [request])
         /\ ((exists value,
                 has_brace_pair text = true
                 /\ json_loads (brace_substring text) = Parsed value
                 /\ normalize_recommendations json_loads text = Ok value)
             \/ (exists tech record,
                    normalize_recommendations json_loads text = Ok record
                    /\ fallback_fields tech text record)
             \/ (exists e,
                    has_brace_pair text = true
                    /\ json_loads (brace_substring text) = LoadsRaises e
                    /\ normalize_recommendations json_loads text
                       = Raise e)))
  /\ (service w (requests w) = Responds None
      \/ service w (requests w) = Responds (Some []) ->
      gen = (Raise (ValueError msg_no_recommendations),
             after_log w 1 [request])).
Proof.
  intros Hmax gen message request. subst gen message request.
  split; [apply recommendations_message_holds|].
  unfold generate_recommendations. split.
  - intros text Hs Ht. split; [|apply normalize_cases]. unfold bind.
    rewrite (call_with_retry_first_response _ _ _ _ _ Hmax Hs).
    destruct text; [contradiction | reflexivity].
  - intros [Hs|Hs]; unfold bind;
      rewrite (call_with_retry_first_response _ _ _ _ _ Hmax Hs); reflexivity.
Qed.

Lemma X14_generate_recommendations_outcomes_witness :
  let tpl := Templates [] [] [] in
  let loads := fun _ : str => LoadsRaises (OtherException []) in
  let answers := [(py "Which users?", Some (py "admins"))] in
  let w := fresh_world (fun _ => Responds (Some (py "{{{{"))) in
  let v := fresh_world (fun _ => Responds (Some (py "{{{{}}}}"))) in
  generate_recommendations loads repository_config tpl (py "todo app")
    answers w
  = (normalize_recommendations loads (py "{{{{"),
     after_log w 1 [EvRequest []
                      (recommendations_message (py "todo app") answers)])
  /\ (generate_recommendations loads repository_config tpl (py "todo app")
        answers v).1
     = Raise (OtherException []).
Proof.
  intros tpl loads answers w v. split.
  - apply (proj1 (proj2 (X14_generate_recommendations_outcomes loads
                           repository_config tpl (py "todo app") answers w
                           ltac:(reflexivity))) (py "{{{{"));
      [reflexivity | discriminate].
  - rewrite (proj1 (proj1 (proj2 (X14_generate_recommendations_outcomes loads
                           repository_config tpl (py "todo app") answers v
                           ltac:(reflexivity))) (py "{{{{}}}}")
                  ltac:(reflexivity) ltac:(discriminate))).
    reflexivity.
Defined.

(** ** Sessions: creation, mutation, isolation *)

Lemma session_of_stored (ss : gmap Z session) f o sv r e (u now : Z)
      (s : session) :
  session_of (World (<[u := s]> ss) f o sv r e) u now = s.
Proof.
  unfold session_of. cbn [sessions]. rewrite lookup_insert_eq. reflexivity.
Qed.

Lemma session_of_other (ss : gmap Z session) f o sv r e (u u' now : Z)
      (s : session) :
  u <> u' ->
  session_of (World (<[u := s]> ss) f o sv r e) u' now
  = session_of (World ss f o sv r e) u' now.
Proof.
  intros H. unfold session_of. cbn [sessions].
  rewrite lookup_insert_ne by exact H. reflexivity.
Qed.

Lemma world_eta (w : world) :
  World (sessions w) (fsm w) (outbox w) (service w) (requests w) (events w)
  = w.
Proof. destruct w. reflexivity. Qed.

Lemma same_but_sessions_refl (w : world) : same_but_sessions w w.
Proof. repeat split. Qed.

(** X15: [get_session] returns the stored session of the user, or creates,
    stores and returns the default one stamped with the current time; a
    second call, at whatever time, returns the same session and changes
    nothing; the sessions of the other users and the rest of the process
    stay as they were. *)
Theorem X15_get_session_lazy (user_id now later : Z) (w : world) :
  let r := get_session user_id now w in
  r.1 = Ok (session_of w user_id now)
  /\ sessions r.2 !! user_id = Some (session_of w user_id now)
  /\ get_session user_id later r.2 = r
  /\ (forall other, other <> user_id ->
        sessions r.2 !! other = sessions w !! other)
  /\ same_but_sessions w r.2.
Proof.
  unfold get_session, session_of.
  destruct (sessions w !! user_id) as [s|] eqn:E; cbn [fst snd sessions].
  - rewrite E. repeat split; try reflexivity; exact E.
  - rewrite lookup_insert_eq. repeat split; try reflexivity;
      intros other Hne; apply lookup_insert_ne; congruence.
Qed.

Lemma X15_get_session_lazy_witness :
  let w := fresh_world (fun _ => Responds None) in
  sessions (get_session 7 0 w).2 !! 8%Z = sessions w !! 8%Z.
Proof.
  intros w.
  exact (proj1 (proj2 (proj2 (proj2 (X15_get_session_lazy 7 0 1 w))))
           8%Z ltac:(discriminate)).
Defined.

Lemma update_prompt_run (user_id : Z) (new_prompt : str) (now : Z)
      (w : world) :
  update_prompt user_id new_prompt now w
  = (Ok tt,
     World (<[user_id :=
                with_edited_count
                  (with_current_prompt (session_of w user_id now) new_prompt)
                  (edited_count (session_of w user_id now) + 1)%Z]>
              (sessions w))
           (fsm w) (outbox w) (service w) (requests w) (events w)).
Proof.
  apply (session_update_run
           (fun s => with_edited_count (with_current_prompt s new_prompt)
                       (edited_count s + 1)%Z)).
Qed.

Lemma last_cons_default {A : Type} (l : list A) (a d : A) :
  List.last (a :: l) d = List.last l a.
Proof.
  revert a d. induction l as [|b l IH]; intros a d; [reflexivity|].
  change (List.last (a :: b :: l) d) with (List.last (b :: l) d).
  rewrite (IH b d), (IH b a). reflexivity.
Qed.

Lemma update_prompts_stored (user_id : Z) (edits : list (str * Z)) :
  forall (w : world) (s : session),
    sessions w !! user_id = Some s ->
    update_prompts user_id edits w
    = (Ok tt,
       World (<[user_id :=
                  with_edited_count
                    (with_current_prompt s
                       (List.last (List.map fst edits) (current_prompt s)))
                    (edited_count s + Z.of_nat (List.length edits))%Z]>
                (sessions w))
             (fsm w) (outbox w) (service w) (requests w) (events w)).
Proof.
  induction edits as [|[p now] edits IH]; intros w s Hs.
  - cbn [update_prompts List.map List.last List.length Z.of_nat].
    unfold ret. f_equal. rewrite Z.add_0_r.
    replace (with_edited_count (with_current_prompt s (current_prompt s))
               (edited_count s)) with s by (destruct s; reflexivity).
    rewrite (insert_id _ _ _ Hs). symmetry. apply world_eta.
  - cbn [update_prompts]. unfold bind. rewrite update_prompt_run.
    assert (Hso : session_of w user_id now = s)
      by (unfold session_of; rewrite Hs; reflexivity).
    rewrite Hso.
    erewrite IH by (cbn [sessions]; apply lookup_insert_eq).
    cbn [sessions fsm outbox service requests events].
    rewrite insert_insert_eq. f_equal. f_equal. f_equal.
    cbn [List.map fst]. rewrite last_cons_default.
    unfold with_edited_count, with_current_prompt.
    cbn [task_description clarification_questions answers recommendations
         current_prompt created_at edited_count].
    f_equal. cbn [List.length]. lia.
Qed.

(** X16: after [update_prompt] has run for a first prompt and then for each
    of [edits], the user's prompt is the last one given and the edit counter
    has grown by the number of calls; the other keys of the session, the
    sessions of the other users and the rest of the process are as they
    were, the session being created at the first call if there was none. *)
Theorem X16_update_prompt_counts (user_id : Z) (first : str) (now : Z)
        (edits : list (str * Z)) (w : world) :
  let s := session_of w user_id now in
  let run := update_prompts user_id ((first, now) :: edits) w in
  run.1 = Ok tt
  /\ sessions run.2 !! user_id
     = Some {| task_description := task_description s;
               clarification_questions := clarification_questions s;
               answers := answers s;
               recommendations := recommendations s;
               current_prompt := List.last (List.map fst edits) first;
               created_at := created_at s;
               edited_count :=
                 (edited_count s + Z.of_nat (S (List.length edits)))%Z |}
  /\ (forall other, other <> user_id ->
        sessions run.2 !! other = sessions w !! other)
  /\ same_but_sessions w run.2.
Proof.
  intros s run.
  assert (E : run
              = (Ok tt,
                 World (<[user_id :=
                            {| task_description := task_description s;
                               clarification_questions :=
                                 clarification_questions s;
                               answers := answers s;
                               recommendations := recommendations s;
                               current_prompt :=
                                 List.last (List.map fst edits) first;
                               created_at := created_at s;
                               edited_count :=
                                 (edited_count s
                                  + Z.of_nat (S (List.length edits)))%Z |}]>
                          (sessions w))
                       (fsm w) (outbox w) (service w) (requests w)
                       (events w))).
  { subst run. cbn [update_prompts]. unfold bind. rewrite update_prompt_run.
    fold s.
    erewrite update_prompts_stored by (cbn [sessions]; apply lookup_insert_eq).
    cbn [sessions fsm outbox service requests events].
    rewrite insert_insert_eq. f_equal. f_equal. f_equal.
    unfold with_edited_count, with_current_prompt.
    cbn [task_description clarification_questions answers recommendations
         current_prompt created_at edited_count].
    f_equal. lia. }
  rewrite E. cbn [fst snd sessions].
  split; [reflexivity|]. split; [apply lookup_insert_eq|].
  split; [|repeat split].
  intros other Hne. apply lookup_insert_ne. congruence.
Qed.

Lemma X16_update_prompt_counts_witness :
  let w := fresh_world (fun _ => Responds None) in
  sessions (update_prompts 7 [(py "# GOAL", 0%Z); (py "# GOAL v2", 1%Z)]
              w).2 !! 8%Z
  = sessions w !! 8%Z.
Proof.
  intros w.
  exact (proj1 (proj2 (proj2
           (X16_update_prompt_counts 7 (py "# GOAL") 0
              [(py "# GOAL v2", 1%Z)] w)))
           8%Z ltac:(discriminate)).
Defined.

Lemma set_current_prompt_run (user_id : Z) (prompt : str) (now : Z)
      (w : world) :
  set_current_prompt user_id prompt now w
  = (Ok tt,
     World (<[user_id :=
                with_current_prompt (session_of w user_id now) prompt]>
              (sessions w))
           (fsm w) (outbox w) (service w) (requests w) (events w)).
Proof.
  apply (session_update_run (fun s => with_current_prompt s prompt)).
Qed.

(** X17: [get_current_prompt] after [set_current_prompt] or [update_prompt]
    returns the prompt just stored and changes nothing more;
    [set_current_prompt] leaves the edit counter as it is where
    [update_prompt] adds one; for a user without a session
    [get_current_prompt] returns the empty string and leaves the default
    session behind. *)
Theorem X17_current_prompt_roundtrip (user_id now later : Z) (prompt : str)
        (w : world) :
  (set_current_prompt user_id prompt now ;;;
   get_current_prompt user_id later) w
  = (Ok prompt, (set_current_prompt user_id prompt now w).2)
  /\ (update_prompt user_id prompt now ;;;
      get_current_prompt user_id later) w
     = (Ok prompt, (update_prompt user_id prompt now w).2)
  /\ edited_count
       (session_of (set_current_prompt user_id prompt now w).2 user_id later)
     = edited_count (session_of w user_id now)
  /\ edited_count
       (session_of (update_prompt user_id prompt now w).2 user_id later)
     = (edited_count (session_of w user_id now) + 1)%Z
  /\ (sessions w !! user_id = None ->
      get_current_prompt user_id now w
      = (Ok [],
         World (<[user_id := default_session now]> (sessions w)) (fsm w)
               (outbox w) (service w) (requests w) (events w))).
Proof.
  unfold bind. rewrite set_current_prompt_run, update_prompt_run.
  cbn [snd]. rewrite !session_of_stored.
  unfold get_current_prompt, bind.
  rewrite !(get_session_present _ _ _ _ (lookup_insert_eq _ _ _)).
  repeat split.
  intros Hnone. rewrite (get_session_absent _ _ _ Hnone). reflexivity.
Qed.

Lemma X17_current_prompt_roundtrip_witness :
  get_current_prompt 7 0 (fresh_world (fun _ => Responds None))
  = (Ok [],
     World {[ 7%Z := default_session 0 ]} ∅ [] (fun _ => Responds None) 0 []).
Proof.
  exact (proj2 (proj2 (proj2 (proj2
           (X17_current_prompt_roundtrip 7 0 0 []
              (fresh_world (fun _ => Responds None))))))
           ltac:(reflexivity)).
Defined.

Lemma mutate_run (m : mutation) :
  exists g : session -> session,
    forall (user_id now : Z) (w : world),
      mutate user_id m now w
      = (Ok tt,
         World (<[user_id := g (session_of w user_id now)]> (sessions w))
               (fsm w) (outbox w) (service w) (requests w) (events w)).
Proof.
  destruct m as [d|qs|q a|recs|p|p].
  - exists (fun s => with_task_description s d). intros.
    apply (session_update_run (fun s => with_task_description s d)).
  - exists (fun s => with_clarification_questions s qs). intros.
    apply (session_update_run (fun s => with_clarification_questions s qs)).
  - exists (fun s => with_answers s (dict_set q a (answers s))). intros.
    apply (session_update_run
             (fun s => with_answers s (dict_set q a (answers s)))).
  - exists (fun s => with_recommendations s recs). intros.
    apply (session_update_run (fun s => with_recommendations s recs)).
  - exists (fun s => with_current_prompt s p). intros.
    apply (session_update_run (fun s => with_current_prompt s p)).
  - exists (fun s => with_edited_count (with_current_prompt s p)
                       (edited_count s + 1)%Z). intros.
    apply (session_update_run
             (fun s => with_edited_count (with_current_prompt s p)
                         (edited_count s + 1)%Z)).
Qed.

(** X18: every call that writes to the session of a user returns normally,
    leaves the sessions of the other users and the rest of the process as
    they were, and commutes with every such call for another user. *)
Theorem X18_mutations_isolated (user_id other : Z) (m m' : mutation)
        (now now' : Z) (w : world) :
  user_id <> other ->
  let w1 := (mutate user_id m now w).2 in
  (mutate user_id m now w).1 = Ok tt
  /\ sessions w1 !! other = sessions w !! other
  /\ same_but_sessions w w1
  /\ (mutate user_id m now ;;; mutate other m' now') w
     = (mutate other m' now' ;;; mutate user_id m now) w.
Proof.
  intros Hne w1. subst w1.
  destruct (mutate_run m) as [g Hg]. destruct (mutate_run m') as [g' Hg'].
  unfold bind. rewrite !Hg. cbv beta iota. rewrite !Hg'. cbv beta iota.
  rewrite !Hg. cbn [fst snd sessions].
  split; [reflexivity|]. split; [apply lookup_insert_ne; exact Hne|].
  split; [repeat split|].
  cbn [sessions fsm outbox service requests events].
  rewrite session_of_other by exact Hne.
  rewrite session_of_other by congruence.
  rewrite !world_eta.
  rewrite (insert_insert_ne _ _ _ _ _ Hne). reflexivity.
Qed.

Lemma X18_mutations_isolated_witness :
  let w := fresh_world (fun _ => Responds None) in
  (mutate 7 (EditedPrompt (py "# GOAL")) 0 ;;;
   mutate 8 (Answer (py "Which users?") (Some (py "admins"))) 1) w
  = (mutate 8 (Answer (py "Which users?") (Some (py "admins"))) 1 ;;;
     mutate 7 (EditedPrompt (py "# GOAL")) 0) w.
Proof.
  intros w.
  exact (proj2 (proj2 (proj2
           (X18_mutations_isolated 7 8 (EditedPrompt (py "# GOAL"))
              (Answer (py "Which users?") (Some (py "admins"))) 0 1 w
              ltac:(discriminate))))).
Defined.

Lemma dict_keys_length {V : Type} (d : pydict V) :
  List.length (dict_keys d) = List.length d.
Proof. unfold dict_keys. apply List.length_map. Qed.

(** X19: after [add_answer] the answers hold the given text under the
    question, every other question keeps its entry, and the questions keep
    their order: the entry is overwritten in place when the question had an
    answer, and added at the end when it had none, so the number of answers
    grows by one only in that case. *)
Theorem X19_add_answer_entry (user_id now later : Z) (question : str)
        (text : option str) (w : world) :
  let before := answers (session_of w user_id now) in
  let after :=
    answers (session_of (add_answer user_id question text now w).2
                        user_id later) in
  dict_get question after = Some text
  /\ (forall q, q <> question -> dict_get q after = dict_get q before)
  /\ dict_keys after = add_key question (dict_keys before)
  /\ List.length after
     = (if existsb (str_eqb question) (dict_keys before)
        then List.length before else S (List.length before)).
Proof.
  intros before after. subst after. unfold add_answer.
  rewrite session_update_run. cbn [snd]. rewrite session_of_stored.
  cbn [answers with_answers]. fold before.
  split; [apply dict_get_set_same|].
  split; [intros q Hq; apply dict_get_set_other; exact Hq|].
  split; [apply dict_keys_set|].
  rewrite <- (dict_keys_length (dict_set question text before)).
  rewrite dict_keys_set. unfold add_key.
  destruct (existsb (str_eqb question) (dict_keys before)).
  - apply dict_keys_length.
  - rewrite List.length_app, dict_keys_length. cbn. lia.
Qed.

Lemma X19_add_answer_entry_witness :
  let w := fresh_world (fun _ => Responds None) in
  dict_get (py "Which host?")
    (answers (session_of (add_answer 7 (py "Which users?")
                            (Some (py "admins")) 0 w).2 7 1))
  = dict_get (py "Which host?") (answers (session_of w 7 0)).
Proof.
  intros w.
  exact (proj1 (proj2
           (X19_add_answer_entry 7 0 1 (py "Which users?")
              (Some (py "admins")) w))
           (py "Which host?") ltac:(vm_compute; discriminate)).
Defined.

(** X20: [clear_session] removes the session of the user and nothing else:
    the sessions of the other users, the stored dialogue states (the user's
    own included), the messages and the request log stay; without a session
    it changes nothing, so a second call is without effect. *)
Theorem X20_clear_session_frame (user_id : Z) (w : world) :
  let w1 := (clear_session user_id w).2 in
  (clear_session user_id w).1 = Ok tt
  /\ sessions w1 !! user_id = None
  /\ (forall other, other <> user_id ->
        sessions w1 !! other = sessions w !! other)
  /\ same_but_sessions w w1
  /\ clear_session user_id w1 = (Ok tt, w1)
  /\ (sessions w !! user_id = None -> w1 = w).
Proof.
  intros w1.
  assert (Hnone : sessions w1 !! user_id = None)
    by apply clear_session_lookup.
  assert (Hagain : clear_session user_id w1 = (Ok tt, w1))
    by (unfold clear_session at 1; rewrite Hnone; reflexivity).
  subst w1. unfold clear_session in *.
  destruct (sessions w !! user_id) as [s|] eqn:E; cbn [fst snd sessions] in *.
  - repeat split; try assumption; try discriminate.
    intros other Hne. apply lookup_delete_ne. congruence.
  - repeat split; try assumption.
Qed.

Lemma X20_clear_session_frame_witness :
  (clear_session 7 (fresh_world (fun _ => Responds None))).2
  = fresh_world (fun _ => Responds None).
Proof.
  exact (proj2 (proj2 (proj2 (proj2 (proj2
           (X20_clear_session_frame 7
              (fresh_world (fun _ => Responds None)))))))
           ltac:(reflexivity)).
Defined.

(** ** The handlers: answers to pairwise distinct questions *)

Lemma recommend_run (cfg : config) (tpl : templates)
      (json_loads : str -> loads_outcome) (user_id now : Z) (s : session)
      (w : world) :
  sessions w !! user_id = Some s ->
  let gen := generate_recommendations json_loads cfg tpl
               (task_description s) (answers s) w in
  recommend cfg tpl json_loads user_id now w
  = (Ok tt,
     match gen.1 with
     | Ok recs =>
         World (<[user_id := with_recommendations s recs]> (sessions w))
               (<[user_id := showing_recommendations]> (fsm w))
               (outbox w ++ [(user_id, AnswersReceived);
                             (user_id, RecommendationsReady recs)])
               (service gen.2) (requests gen.2) (events gen.2)
     | Raise _ =>
         World (sessions w) (fsm w)
               (outbox w ++ [(user_id, AnswersReceived);
                             (user_id, ErrorNotice)])
               (service gen.2) (requests gen.2) (events gen.2)
     end).
Proof.
  intros Hs gen. unfold recommend.
  unfold bind at 1, answer at 1. unfold try_except. unfold bind at 1.
  set (w1 := World (sessions w) (fsm w)
                   (outbox w ++ [(user_id, AnswersReceived)]) (service w)
                   (requests w) (events w)).
  assert (H1 : get_session user_id now w1 = (Ok s, w1))
    by (apply get_session_present; exact Hs).
  rewrite H1. unfold bind at 1. subst w1.
  rewrite (llm_only_recommendations json_loads cfg tpl (task_description s)
             (answers s) w).
  fold gen. destruct (gen.1) as [recs|e]; cbn [fst snd].
  - unfold set_recommendations. unfold bind at 1.
    rewrite session_update_run.
    cbn [sessions fsm outbox service requests events].
    unfold session_of at 1. cbn [sessions]. rewrite Hs.
    unfold bind, answer, set_state. cbn. rewrite <- app_assoc. reflexivity.
  - unfold answer. cbn. rewrite <- app_assoc. reflexivity.
Qed.

Lemma clarification_step (cfg : config) (tpl : templates)
      (json_loads : str -> loads_outcome) (user_id now : Z)
      (text : option str) (s : session) (w : world) (q : str) :
  sessions w !! user_id = Some s ->
  clarification_questions s !! List.length (answers s) = Some q ->
  ~ In q (dict_keys (answers s)) ->
  let k := List.length (answers s) in
  let n := List.length (clarification_questions s) in
  let w' := World (<[user_id := with_answers s (answers s ++ [(q, text)])]>
                     (sessions w))
                  (fsm w) (outbox w) (service w) (requests w) (events w) in
  process_clarification_answer cfg tpl json_loads user_id text now w
  = match clarification_questions s !! S k with
    | Some next =>
        answer user_id (AnswerAccepted (S k) n next (n - S k)) w'
    | None => recommend cfg tpl json_loads user_id now w'
    end.
Proof.
  intros Hs Hq Hfresh k n w'. subst k n.
  assert (Hk : (List.length (answers s)
                < List.length (clarification_questions s))%nat)
    by (apply lookup_lt_Some in Hq; exact Hq).
  assert (Hm : forall a b : M unit,
             match clarification_questions s with
             | [] => a
             | _ :: _ => b
             end = b).
  { intros a b. destruct (clarification_questions s) eqn:E;
      [discriminate Hq | reflexivity]. }
  unfold process_clarification_answer. unfold bind at 1.
  rewrite (get_session_present _ _ _ _ Hs). cbv zeta. rewrite Hm.
  replace (List.length (clarification_questions s)
           <=? List.length (answers s))%nat with false
    by (symmetry; apply Nat.leb_gt; exact Hk).
  unfold bind at 1. unfold index at 1. rewrite Hq. unfold ret at 1.
  unfold bind at 1. unfold add_answer. rewrite session_update_run.
  assert (Hso : session_of w user_id now = s)
    by (unfold session_of; rewrite Hs; reflexivity).
  rewrite Hso, (dict_set_fresh _ _ _ Hfresh). fold w'.
  destruct (clarification_questions s !! S (List.length (answers s)))
    as [next|] eqn:En.
  - replace (S (List.length (answers s))
             <? List.length (clarification_questions s))%nat with true
      by (symmetry; apply Nat.ltb_lt; apply lookup_lt_Some in En; exact En).
    unfold bind, index. rewrite En. reflexivity.
  - replace (S (List.length (answers s))
             <? List.length (clarification_questions s))%nat with false
      by (symmetry; apply Nat.ltb_ge; apply lookup_ge_None in En; exact En).
    reflexivity.
Qed.

Lemma lookup_In {A : Type} (l : list A) :
  forall (k : nat) (x : A), l !! k = Some x -> In x l.
Proof.
  induction l as [|a l IH]; intros [|k] x H; try discriminate H; cbn in H.
  - injection H as ->. left. reflexivity.
  - right. exact (IH k x H).
Qed.

Lemma NoDup_lookup_fresh (qs : list str) :
  forall (k : nat) (q : str),
    List.NoDup qs -> qs !! k = Some q -> ~ In q (firstn k qs).
Proof.
  induction qs as [|a qs IH]; intros k q Hnd Hq; [discriminate Hq|].
  destruct k as [|k]; [intros []|].
  cbn in Hq. inversion Hnd as [|? ? Hna Hnd']; subst.
  cbn [firstn]. intros [<-|Hin].
  - apply Hna. exact (lookup_In _ _ _ Hq).
  - exact (IH k q Hnd' Hq Hin).
Qed.

Lemma with_answers_same (s : session) : with_answers s (answers s) = s.
Proof. destruct s. reflexivity. Qed.

Lemma dict_keys_snoc {V : Type} (d : pydict V) (k : str) (v : V) :
  dict_keys (d ++ [(k, v)]) = dict_keys d ++ [k].
Proof. unfold dict_keys. rewrite List.map_app. reflexivity. Qed.

Lemma recommend_ok (cfg : config) (tpl : templates)
      (json_loads : str -> loads_outcome) (user_id now : Z) (s : session)
      (w : world) :
  sessions w !! user_id = Some s ->
  (recommend cfg tpl json_loads user_id now w).1 = Ok tt.
Proof.
  intros Hs. rewrite (recommend_run cfg tpl json_loads user_id now s w Hs).
  reflexivity.
Qed.

(** Messages that answer the last open questions. *)
Lemma clarification_complete (cfg : config) (tpl : templates)
      (json_loads : str -> loads_outcome) (user_id now : Z)
      (texts : list (option str)) :
  forall (w : world) (s : session),
    fsm w !! user_id = Some waiting_for_clarification_answers ->
    sessions w !! user_id = Some s ->
    List.NoDup (clarification_questions s) ->
    dict_keys (answers s)
    = firstn (List.length (answers s)) (clarification_questions s) ->
    texts <> [] ->
    (List.length (answers s) + List.length texts
     = List.length (clarification_questions s))%nat ->
    clarification_messages cfg tpl json_loads user_id texts now w
    = recommend cfg tpl json_loads user_id now
        (World (<[user_id :=
                    with_answers s
                      (answers s
                       ++ combine (skipn (List.length (answers s))
                                     (clarification_questions s)) texts)]>
                  (sessions w))
               (fsm w)
               (outbox w
                ++ progress_replies user_id (clarification_questions s)
                     (List.length (answers s)) (List.length texts - 1))
               (service w) (requests w) (events w)).
Proof.
  induction texts as [|t texts IH]; intros w s Hst Hs Hnd Hkeys Hne Hlen;
    [contradiction|].
  cbn [List.length] in Hlen.
  destruct (lookup_lt_is_Some_2 (clarification_questions s)
              (List.length (answers s)) ltac:(lia)) as [q Hq].
  assert (Hfresh : ~ In q (dict_keys (answers s)))
    by (rewrite Hkeys; apply NoDup_lookup_fresh; assumption).
  cbn [clarification_messages]. unfold bind at 1, get_state at 1.
  rewrite Hst. unfold bind at 1.
  rewrite (clarification_step cfg tpl json_loads user_id now t s w q
             Hs Hq Hfresh).
  cbv zeta.
  set (s1 := with_answers s (answers s ++ [(q, t)])).
  assert (Hlen1 : List.length (answers s1) = S (List.length (answers s)))
    by (subst s1; cbn [answers with_answers]; rewrite List.length_app;
        cbn; lia).
  assert (Hdrop : skipn (List.length (answers s)) (clarification_questions s)
                  = q :: skipn (S (List.length (answers s)))
                           (clarification_questions s))
    by (apply (drop_S _ _ _ Hq)).
  destruct texts as [|t' texts].
  - assert (Hnone : clarification_questions s !! S (List.length (answers s))
                    = None)
      by (apply lookup_ge_None; cbn [List.length] in Hlen; lia).
    rewrite Hnone. rewrite Hdrop.
    replace (combine (q :: skipn (S (List.length (answers s)))
                            (clarification_questions s)) [t])
      with [(q, t)]
      by (cbn [combine]; rewrite combine_nil; reflexivity).
    unfold progress_replies. cbn [List.length Nat.sub seq List.map].
    rewrite app_nil_r. fold s1.
    set (w1 := World _ _ _ _ _ _).
    pose proof (recommend_ok cfg tpl json_loads user_id now s1 w1
                  (lookup_insert_eq _ _ _)) as Hok.
    destruct (recommend cfg tpl json_loads user_id now w1) as [r w2].
    cbn [fst] in Hok. subst r. reflexivity.
  - cbn [List.length] in Hlen.
    destruct (lookup_lt_is_Some_2 (clarification_questions s)
                (S (List.length (answers s))) ltac:(lia)) as [next Hnext].
    rewrite Hnext. unfold answer at 1.
    cbn [sessions fsm outbox service requests events].
    rewrite (IH _ s1).
    + cbn [sessions fsm outbox service requests events].
      rewrite insert_insert_eq, Hlen1. subst s1.
      cbn [answers with_answers clarification_questions].
      f_equal. f_equal.
      * f_equal. unfold with_answers.
        cbn [answers task_description clarification_questions
             recommendations current_prompt created_at edited_count].
        f_equal. rewrite <- app_assoc. f_equal.
        rewrite Hdrop. reflexivity.
      * rewrite <- app_assoc. f_equal. unfold progress_replies.
        cbn [List.length Nat.sub seq List.map].
        rewrite Nat.sub_0_r.
        rewrite (nth_lookup_Some _ _ _ _ Hnext). reflexivity.
    + exact Hst.
    + cbn [sessions]. apply lookup_insert_eq.
    + exact Hnd.
    + rewrite Hlen1. subst s1.
      cbn [answers with_answers clarification_questions].
      rewrite dict_keys_snoc, Hkeys. symmetry. apply take_S_r. exact Hq.
    + discriminate.
    + rewrite Hlen1. subst s1. cbn [clarification_questions with_answers].
      cbn [List.length]. lia.
Qed.

(** X21: while the questions of the session are pairwise distinct and the
    answers given so far are those to the first questions, in order, each
    further message in the state awaiting answers is stored as the answer to
    the next open question; as long as a question stays open after the last
    message, the dialogue state does not change, no request is made, and
    each reply announces the next question with the counts. *)
Theorem X21_answers_follow_questions (cfg : config) (tpl : templates)
        (json_loads : str -> loads_outcome) (user_id now : Z)
        (texts : list (option str)) (w : world) (s : session) :
  fsm w !! user_id = Some waiting_for_clarification_answers ->
  sessions w !! user_id = Some s ->
  List.NoDup (clarification_questions s) ->
  dict_keys (answers s)
  = firstn (List.length (answers s)) (clarification_questions s) ->
  (List.length (answers s) + List.length texts
   < List.length (clarification_questions s))%nat ->
  clarification_messages cfg tpl json_loads user_id texts now w
  = (Ok tt,
     World (<[user_id :=
                with_answers s
                  (answers s
                   ++ combine (skipn (List.length (answers s))
                                 (clarification_questions s)) texts)]>
              (sessions w))
           (fsm w)
           (outbox w
            ++ progress_replies user_id (clarification_questions s)
                 (List.length (answers s)) (List.length texts))
           (service w) (requests w) (events w)).
Proof.
  revert w s.
  induction texts as [|t texts IH]; intros w s Hst Hs Hnd Hkeys Hlen.
  - cbn [clarification_messages]. unfold ret.
    rewrite combine_nil, !app_nil_r. unfold progress_replies.
    cbn [List.length seq List.map]. rewrite with_answers_same.
    rewrite (insert_id _ _ _ Hs), world_eta. reflexivity.
  - cbn [List.length] in Hlen.
    destruct (lookup_lt_is_Some_2 (clarification_questions s)
                (List.length (answers s)) ltac:(lia)) as [q Hq].
    destruct (lookup_lt_is_Some_2 (clarification_questions s)
                (S (List.length (answers s))) ltac:(lia)) as [next Hnext].
    assert (Hfresh : ~ In q (dict_keys (answers s)))
      by (rewrite Hkeys; apply NoDup_lookup_fresh; assumption).
    cbn [clarification_messages]. unfold bind at 1, get_state at 1.
    rewrite Hst. unfold bind at 1.
    rewrite (clarification_step cfg tpl json_loads user_id now t s w q
               Hs Hq Hfresh).
    cbv zeta. rewrite Hnext. unfold answer at 1.
    cbn [sessions fsm outbox service requests events].
    set (s1 := with_answers s (answers s ++ [(q, t)])).
    assert (Hlen1 : List.length (answers s1) = S (List.length (answers s)))
      by (subst s1; cbn [answers with_answers]; rewrite List.length_app;
          cbn; lia).
    rewrite (IH _ s1).
    + cbn [sessions fsm outbox service requests events].
      rewrite insert_insert_eq, Hlen1. subst s1.
      cbn [answers with_answers clarification_questions].
      f_equal. f_equal.
      * f_equal. unfold with_answers.
        cbn [answers task_description clarification_questions
             recommendations current_prompt created_at edited_count].
        f_equal. rewrite <- app_assoc. f_equal.
        rewrite (drop_S _ _ _ Hq). reflexivity.
      * rewrite <- app_assoc. f_equal. unfold progress_replies.
        cbn [List.length seq List.map].
        rewrite (nth_lookup_Some _ _ _ _ Hnext). reflexivity.
    + exact Hst.
    + cbn [sessions]. apply lookup_insert_eq.
    + exact Hnd.
    + rewrite Hlen1. subst s1. cbn [answers with_answers clarification_questions].
      rewrite dict_keys_snoc, Hkeys. symmetry. apply take_S_r. exact Hq.
    + rewrite Hlen1. subst s1. cbn [clarification_questions with_answers]. lia.
Qed.

Lemma X21_answers_follow_questions_witness :
  let qs := [py "Which users?"; py "Which database?"; py "Which host?"] in
  let s := with_clarification_questions (default_session 0) qs in
  let w := World {[ 7%Z := s ]}
                 {[ 7%Z := waiting_for_clarification_answers ]} []
                 (fun _ => Responds None) 0 [] in
  clarification_messages repository_config (Templates [] [] [])
    (fun _ => DecodeError) 7 [Some (py "admins"); None] 5 w
  = (Ok tt,
     World {[ 7%Z := with_answers s [(py "Which users?", Some (py "admins"));
                                     (py "Which database?", None)] ]}
           {[ 7%Z := waiting_for_clarification_answers ]}
           [(7%Z, AnswerAccepted 1 3 (py "Which database?") 2);
            (7%Z, AnswerAccepted 2 3 (py "Which host?") 1)]
           (fun _ => Responds None) 0 []).
Proof.
  intros qs s w.
  rewrite (X21_answers_follow_questions repository_config (Templates [] [] [])
             (fun _ => DecodeError) 7 5 [Some (py "admins"); None] w s
             ltac:(reflexivity) ltac:(reflexivity)
             ltac:(repeat (constructor; [vm_compute; intuition discriminate|]);
                   constructor)
             ltac:(reflexivity) ltac:(vm_compute; lia)).
  reflexivity.
Defined.

(** X22: while the questions of the session are pairwise distinct and the
    answers given so far are those to the first questions, in order, the
    messages that answer the remaining questions are stored in order and the
    last of them triggers the generation of the recommendations from the
    task description and all answers, paired with their questions; when the
    generation returns, the recommendations are stored and sent and the
    state becomes the one showing them, and when it raises, the user gets
    the failure notice and the state does not change. *)
Theorem X22_last_answer_recommends (cfg : config) (tpl : templates)
        (json_loads : str -> loads_outcome) (user_id now : Z)
        (texts : list (option str)) (w : world) (s : session) :
  fsm w !! user_id = Some waiting_for_clarification_answers ->
  sessions w !! user_id = Some s ->
  List.NoDup (clarification_questions s) ->
  dict_keys (answers s)
  = firstn (List.length (answers s)) (clarification_questions s) ->
  texts <> [] ->
  (List.length (answers s) + List.length texts
   = List.length (clarification_questions s))%nat ->
  let given :=
    answers s
    ++ combine (skipn (List.length (answers s)) (clarification_questions s))
         texts in
  let gen := generate_recommendations json_loads cfg tpl
               (task_description s) given w in
  let sent :=
    outbox w
    ++ progress_replies user_id (clarification_questions s)
         (List.length (answers s)) (List.length texts - 1) in
  clarification_messages cfg tpl json_loads user_id texts now w
  = (Ok tt,
     match gen.1 with
     | Ok recs =>
         World (<[user_id :=
                    with_recommendations (with_answers s given) recs]>
                  (sessions w))
               (<[user_id := showing_recommendations]> (fsm w))
               (sent ++ [(user_id, AnswersReceived);
                         (user_id, RecommendationsReady recs)])
               (service gen.2) (requests gen.2) (events gen.2)
     | Raise _ =>
         World (<[user_id := with_answers s given]> (sessions w)) (fsm w)
               (sent ++ [(user_id, AnswersReceived);
                         (user_id, ErrorNotice)])
               (service gen.2) (requests gen.2) (events gen.2)
     end).
Proof.
  intros Hst Hs Hnd Hkeys Hne Hlen given gen sent.
  rewrite (clarification_complete cfg tpl json_loads user_id now texts w s)
    by assumption.
  fold given sent.
  rewrite (recommend_run cfg tpl json_loads user_id now
             (with_answers s given) _ (lookup_insert_eq _ _ _)).
  cbv zeta. cbn [task_description answers with_answers].
  rewrite (llm_only_recommendations json_loads cfg tpl (task_description s)
             given w).
  fold gen. cbn [fst snd sessions fsm outbox service requests events].
  destruct (gen.1); rewrite ?insert_insert_eq; reflexivity.
Qed.

Lemma X22_last_answer_recommends_witness :
  let qs := [py "Which users?"; py "Which database?"] in
  let s := with_clarification_questions
             (with_task_description (default_session 0) (py "todo app")) qs in
  let w := World {[ 7%Z := s ]}
                 {[ 7%Z := waiting_for_clarification_answers ]} []
                 (fun _ => Responds (Some (py "use postgres"))) 0 [] in
  fsm (clarification_messages repository_config (Templates [] [] [])
         (fun _ => DecodeError) 7 [Some (py "admins"); Some (py "any")] 5 w).2
  !! 7%Z = Some showing_recommendations.
Proof.
  intros qs s w.
  rewrite (X22_last_answer_recommends repository_config (Templates [] [] [])
             (fun _ => DecodeError) 7 5 [Some (py "admins"); Some (py "any")] w s
             ltac:(reflexivity) ltac:(reflexivity)
             ltac:(repeat (constructor; [vm_compute; intuition discriminate|]);
                   constructor)
             ltac:(reflexivity) ltac:(discriminate) ltac:(reflexivity)).
  reflexivity.
Defined.

(** ** The handlers: what every message gets *)

Lemma get_session_run (user_id now : Z) (w : world) :
  get_session user_id now w
  = (Ok (session_of w user_id now),
     World (<[user_id := session_of w user_id now]> (sessions w)) (fsm w)
           (outbox w) (service w) (requests w) (events w)).
Proof.
  unfold get_session, session_of.
  destruct (sessions w !! user_id) eqn:E; [|reflexivity].
  rewrite (insert_id _ _ _ E), world_eta. reflexivity.
Qed.

Lemma replied_to_pre (user_id : Z) (w w1 w2 : world) :
  (forall other, other <> user_id ->
     sessions w1 !! other = sessions w !! other) ->
  fsm w1 = fsm w -> outbox w1 = outbox w ->
  replied_to user_id w1 w2 -> replied_to user_id w w2.
Proof.
  intros Hss Hf Ho [Hothers (sent & Hne & Hout & Hall)]. split.
  - intros other Hother. destruct (Hothers other Hother) as [H1 H2].
    rewrite H1, H2, Hf. split; [apply Hss; exact Hother | reflexivity].
  - exists sent. rewrite <- Ho. repeat split; assumption.
Qed.

Lemma answer_replied (user_id : Z) (r : reply) (w : world) :
  exists w', answer user_id r w = (Ok tt, w') /\ replied_to user_id w w'.
Proof.
  unfold answer. eexists. split; [reflexivity|]. split.
  - intros other _. split; reflexivity.
  - exists [(user_id, r)]. repeat split; [discriminate|].
    repeat constructor.
Qed.

Lemma recommend_replied (cfg : config) (tpl : templates)
      (json_loads : str -> loads_outcome) (user_id now : Z) (s : session)
      (w : world) :
  sessions w !! user_id = Some s ->
  exists w',
    recommend cfg tpl json_loads user_id now w = (Ok tt, w')
    /\ replied_to user_id w w'.
Proof.
  intros Hs. rewrite (recommend_run cfg tpl json_loads user_id now s w Hs).
  cbv zeta. eexists. split; [reflexivity|].
  destruct (generate_recommendations _ _ _ _ _ w).1 as [recs|e]; split;
    cbn [sessions fsm outbox].
  - intros other Hne. split; apply lookup_insert_ne; congruence.
  - eexists. repeat split; [discriminate|]. repeat constructor.
  - intros other Hne. split; reflexivity.
  - eexists. repeat split; [discriminate|]. repeat constructor.
Qed.

Lemma task_description_replied (cfg : config) (tpl : templates)
      (user_id : Z) (text : option str) (now : Z) (w : world) :
  exists w',
    process_task_description cfg tpl user_id text now w = (Ok tt, w')
    /\ replied_to user_id w w'.
Proof.
  destruct (too_short text) eqn:Hshort.
  - rewrite (process_task_description_short _ _ _ _ _ _ Hshort).
    eexists. split; [reflexivity|]. split.
    + intros other _. split; reflexivity.
    + eexists. repeat split; [discriminate|]. repeat constructor.
  - destruct text as [t|]; [|discriminate Hshort].
    unfold too_short in Hshort. apply orb_false_iff in Hshort.
    destruct Hshort as [_ Hlen]. apply Nat.ltb_ge in Hlen.
    rewrite (process_task_description_long _ _ _ _ _ _ Hlen).
    cbv zeta. eexists. split; [reflexivity|].
    destruct (generate_clarification_questions cfg tpl t w).1; split;
      cbn [sessions fsm outbox].
    + intros other Hne. split; apply lookup_insert_ne; congruence.
    + eexists. repeat split; [discriminate|]. repeat constructor.
    + intros other Hne.
      split; [apply lookup_insert_ne; congruence | reflexivity].
    + eexists. repeat split; [discriminate|]. repeat constructor.
Qed.

Lemma clarification_answer_replied (cfg : config) (tpl : templates)
      (json_loads : str -> loads_outcome) (user_id : Z) (text : option str)
      (now : Z) (w : world) :
  exists w',
    process_clarification_answer cfg tpl json_loads user_id text now w
    = (Ok tt, w')
    /\ replied_to user_id w w'.
Proof.
  unfold process_clarification_answer. unfold bind at 1.
  rewrite get_session_run. set (s := session_of w user_id now).
  set (w0 := World (<[user_id := s]> (sessions w)) (fsm w) (outbox w)
                   (service w) (requests w) (events w)).
  assert (Hpre0 : forall w2, replied_to user_id w0 w2 ->
                             replied_to user_id w w2).
  { intros w2. apply replied_to_pre; try reflexivity.
    intros other Hne. apply lookup_insert_ne. congruence. }
  assert (Hs0 : sessions w0 !! user_id = Some s) by apply lookup_insert_eq.
  cbv zeta.
  destruct (clarification_questions s) as [|q0 qs'] eqn:Eq.
  - destruct (answer_replied user_id QuestionsMissing w0) as (w' & H1 & H2).
    exists w'. split; [exact H1 | exact (Hpre0 _ H2)].
  - set (qs := q0 :: qs').
    destruct (List.length qs <=? List.length (answers s))%nat eqn:Hall.
    + destruct (recommend_replied cfg tpl json_loads user_id now s w0 Hs0)
        as (w' & H1 & H2).
      exists w'. split; [exact H1 | exact (Hpre0 _ H2)].
    + apply Nat.leb_gt in Hall.
      destruct (lookup_lt_is_Some_2 qs _ Hall) as [q Hq].
      unfold bind at 1. unfold index at 1. rewrite Hq. unfold ret at 1.
      unfold bind at 1. unfold add_answer. rewrite session_update_run.
      set (s1 := with_answers _ _).
      cbn [sessions fsm outbox service requests events].
      set (w1 := World (<[user_id := s1]> (sessions w0)) (fsm w0) (outbox w0)
                       (service w0) (requests w0) (events w0)).
      assert (Hpre1 : forall w2, replied_to user_id w1 w2 ->
                                 replied_to user_id w w2).
      { intros w2 H. apply Hpre0. revert H.
        apply replied_to_pre; try reflexivity.
        intros other Hne. apply lookup_insert_ne. congruence. }
      destruct (S (List.length (answers s)) <? List.length qs)%nat eqn:Hmore.
      * apply Nat.ltb_lt in Hmore.
        destruct (lookup_lt_is_Some_2 qs _ Hmore) as [next Hnext].
        unfold bind, index. rewrite Hnext. unfold ret.
        match goal with
        | |- context [answer user_id ?r w1] =>
            destruct (answer_replied user_id r w1) as (w' & H1 & H2)
        end.
        exists w'. split; [exact H1 | exact (Hpre1 _ H2)].
      * destruct (recommend_replied cfg tpl json_loads user_id now s1 w1
                    (lookup_insert_eq _ _ _)) as (w' & H1 & H2).
        exists w'. split; [exact H1 | exact (Hpre1 _ H2)].
Qed.

(** X23: whatever the text, the stored data and the behaviour of the
    completion service, the handler of task descriptions and the handler of
    answers return normally (the accesses [questions[i]] stay within range
    and failures of the generation are caught), send at least one message,
    all of them to the author of the message, and leave the sessions and the
    dialogue states of the other users as they were. *)
Theorem X23_handlers_always_reply (cfg : config) (tpl : templates)
        (json_loads : str -> loads_outcome) (user_id : Z) (text : option str)
        (now : Z) (w : world) :
  let described := process_task_description cfg tpl user_id text now w in
  let answered :=
    process_clarification_answer cfg tpl json_loads user_id text now w in
  described.1 = Ok tt /\ replied_to user_id w described.2
  /\ answered.1 = Ok tt /\ replied_to user_id w answered.2.
Proof.
  intros described answered. subst described answered.
  destruct (task_description_replied cfg tpl user_id text now w)
    as (w1 & E1 & H1).
  destruct (clarification_answer_replied cfg tpl json_loads user_id text now
              w) as (w2 & E2 & H2).
  rewrite E1, E2. cbn [fst snd].
  split; [reflexivity|]. split; [exact H1|]. split; [reflexivity | exact H2].
Qed.

(** ** A whole conversation *)

Lemma clear_session_run (user_id : Z) (w : world) :
  clear_session user_id w
  = (Ok tt,
     World (delete user_id (sessions w)) (fsm w) (outbox w) (service w)
           (requests w) (events w)).
Proof.
  unfold clear_session. destruct (sessions w !! user_id) eqn:E;
    [reflexivity|].
  rewrite (delete_id _ _ E), world_eta. reflexivity.
Qed.

Lemma cmd_start_run (user_id : Z) (w : world) :
  cmd_start user_id w
  = (Ok tt,
     World (delete user_id (sessions w))
           (<[user_id := waiting_for_task_description]> (fsm w))
           (outbox w ++ [(user_id, Welcome)]) (service w) (requests w)
           (events w)).
Proof.
  unfold cmd_start. unfold bind at 1. rewrite clear_session_run.
  unfold bind, state_clear, set_state, answer. cbn.
  rewrite insert_delete_eq. reflexivity.
Qed.

Lemma questions_first_response (cfg : config) (tpl : templates)
      (task ask : str) (w : world) :
  (0 < MAX_RETRIES cfg)%Z ->
  service w (requests w) = Responds (Some ask) -> ask <> [] ->
  generate_clarification_questions cfg tpl task w
  = (Ok (extract_questions ask),
     after_log w 1 [EvRequest (PHASE1_SYSTEM_PROMPT tpl)
                              (lit_task_prefix ++ [NL] ++ task)]).
Proof.
  intros Hmax Hs Ht. unfold generate_clarification_questions, bind.
  rewrite (call_with_retry_first_response _ _ _ _ _ Hmax Hs).
  destruct ask; [contradiction | reflexivity].
Qed.

Lemma recommendations_first_response (json_loads : str -> loads_outcome)
      (cfg : config) (tpl : templates) (task : str)
      (given : pydict (option str)) (text : str) (w : world) :
  (0 < MAX_RETRIES cfg)%Z ->
  service w (requests w) = Responds (Some text) -> text <> [] ->
  generate_recommendations json_loads cfg tpl task given w
  = (normalize_recommendations json_loads text,
     after_log w 1 [EvRequest (PHASE2_SYSTEM_PROMPT tpl)
                              (recommendations_message task given)]).
Proof.
  intros Hmax Hs Ht. unfold generate_recommendations, bind.
  rewrite (call_with_retry_first_response _ _ _ _ _ Hmax Hs).
  destruct text; [contradiction | reflexivity].
Qed.

(** X24: a conversation from the start command through a task description
    of ten characters or more to as many answers as there are questions,
    with a service that answers the first request with a text whose
    questions are pairwise distinct and the second with a non-empty text
    whose normalization returns (the JSON parser raises nothing but decode
    errors on it): the session holds the description, the questions, each
    answer under its question in order, and the normalized recommendations;
    the state is the one showing recommendations; exactly two requests were
    made, the first with the description after its prefix line, the second
    with a message that holds the description and every question with its
    answer; and the messages sent are the welcome, the acknowledgement, the
    questions, one progress reply per answer but the last, and the
    recommendations.  What the user's session and state were before does
    not matter. *)
Theorem X24_conversation (cfg : config) (tpl : templates)
        (json_loads : str -> loads_outcome) (user_id now : Z)
        (description ask reply : str) (texts : list (option str))
        (recs : json) (w : world) :
  (0 < MAX_RETRIES cfg)%Z ->
  (10 <= List.length (strip description))%nat ->
  service w (requests w) = Responds (Some ask) -> ask <> [] ->
  List.NoDup (extract_questions ask) ->
  List.length texts = List.length (extract_questions ask) ->
  service w (S (requests w)) = Responds (Some reply) -> reply <> [] ->
  normalize_recommendations json_loads reply = Ok recs ->
  let questions := extract_questions ask in
  let message := recommendations_message description
                   (combine questions texts) in
  (contains description message = true
   /\ Forall (fun qa => contains (fst qa) message = true
                        /\ contains (format_answer (snd qa)) message = true)
             (combine questions texts))
  /\ conversation cfg tpl json_loads user_id description texts now w
  = (Ok tt,
     World (<[user_id :=
                {| task_description := description;
                   clarification_questions := questions;
                   answers := combine questions texts;
                   recommendations := recs;
                   current_prompt := [];
                   created_at := now;
                   edited_count := 0 |}]> (sessions w))
           (<[user_id := showing_recommendations]> (fsm w))
           (outbox w
            ++ [(user_id, Welcome); (user_id, TaskReceived);
                (user_id, AskQuestions questions)]
            ++ progress_replies user_id questions 0
                 (List.length questions - 1)
            ++ [(user_id, AnswersReceived);
                (user_id, RecommendationsReady recs)])
           (service w) (requests w + 2)
           (events w
            ++ [EvRequest (PHASE1_SYSTEM_PROMPT tpl)
                          (lit_task_prefix ++ [NL] ++ description);
                EvRequest (PHASE2_SYSTEM_PROMPT tpl) message])).
Proof.
  intros Hmax Hlen Hask Hne Hnd Htexts Hreply Hne2 Hrecs questions message.
  split; [apply recommendations_message_holds|]. subst message.
  assert (Hq : texts <> []).
  { intros ->. symmetry in Htexts. apply List.length_zero_iff_nil in Htexts.
    exact (extract_questions_nonempty ask Htexts). }
  unfold conversation. unfold bind at 1. rewrite cmd_start_run.
  unfold bind at 1.
  set (w1 := World (delete user_id (sessions w))
                   (<[user_id := waiting_for_task_description]> (fsm w))
                   (outbox w ++ [(user_id, Welcome)]) (service w)
                   (requests w) (events w)).
  rewrite (process_task_description_long cfg tpl user_id description now w1
             Hlen).
  cbv zeta.
  rewrite (questions_first_response cfg tpl description ask w1 Hmax Hask
             Hne).
  fold questions. unfold after_log. subst w1.
  cbn [fst snd sessions fsm outbox service requests events].
  unfold session_of. cbn [sessions]. rewrite lookup_delete_eq.
  set (s2 := with_clarification_questions
               (with_task_description (default_session now) description)
               questions).
  rewrite (clarification_complete cfg tpl json_loads user_id now texts _ s2
             (lookup_insert_eq _ _ _) (lookup_insert_eq _ _ _) Hnd
             eq_refl Hq Htexts).
  cbn [sessions fsm outbox service requests events answers s2
       with_clarification_questions with_task_description default_session
       clarification_questions List.length skipn app].
  rewrite (recommend_run cfg tpl json_loads user_id now _ _
             (lookup_insert_eq _ _ _)).
  cbv zeta.
  cbn [task_description answers with_answers with_clarification_questions
       with_task_description default_session].
  rewrite (recommendations_first_response json_loads cfg tpl description
             (combine questions texts) reply _ Hmax);
    [| cbn [service requests]; rewrite Nat.add_1_r; exact Hreply
     | exact Hne2].
  rewrite Hrecs. unfold after_log.
  cbn [fst snd sessions fsm outbox service requests events].
  rewrite !insert_insert_eq, insert_delete_eq, Htexts.
  rewrite <- !app_assoc. cbn [app].
  replace (requests w + 1 + 1)%nat with (requests w + 2)%nat by lia.
  reflexivity.
Qed.

Lemma X24_conversation_witness :
  let tpl := Templates [] [] [] in
  let ask := doc_of ["1. Which platform?"; "2. Which users?"]%string in
  let w := fresh_world (fun _ => Responds (Some ask)) in
  fsm (conversation repository_config tpl (fun _ => DecodeError) 7
         (py "Build a todo list app") [Some (py "web"); Some (py "admins")]
         0 w).2 !! 7%Z
  = Some showing_recommendations.
Proof.
  intros tpl ask w.
  rewrite (proj2
             (X24_conversation repository_config tpl (fun _ => DecodeError)
                7 0 (py "Build a todo list app") ask ask
                [Some (py "web"); Some (py "admins")] (text_fallback ask) w
                ltac:(reflexivity) ltac:(vm_compute; lia) ltac:(reflexivity)
                ltac:(discriminate)
                ltac:(vm_compute;
                      repeat (constructor;
                              [vm_compute; intuition discriminate|]);
                      constructor)
                ltac:(reflexivity) ltac:(reflexivity) ltac:(discriminate)
                ltac:(reflexivity))).
  reflexivity.
Defined.

(** ** The final prompt *)

Lemma join_items_cases (join_error : json -> str)
      (recommendations : pydict json) (key : string) (w : world) :
  if items_joinable recommendations key
  then exists text, join_items join_error recommendations key w = (Ok text, w)
  else exists detail,
      join_items join_error recommendations key w
      = (Raise (OtherException detail), w).
Proof.
  unfold items_joinable, join_items.
  destruct (dict_get (py key) recommendations) as [v|];
    [|eexists; reflexivity].
  destruct v; cbn; try (eexists; reflexivity).
  destruct (strings_of items); eexists; reflexivity.
Qed.

Lemma recommendations_text_cases (py_str join_error : json -> str)
      (recommendations : pydict json) (w : world) :
  if items_joinable recommendations "key_features"
     && items_joinable recommendations "risks"
  then exists text,
      recommendations_text py_str join_error recommendations w = (Ok text, w)
  else exists detail,
      recommendations_text py_str join_error recommendations w
      = (Raise (OtherException detail), w).
Proof.
  unfold recommendations_text, bind.
  pose proof (join_items_cases join_error recommendations "key_features" w)
    as Hf.
  pose proof (join_items_cases join_error recommendations "risks" w) as Hr.
  destruct (items_joinable recommendations "key_features");
    destruct Hf as [features Hf]; rewrite Hf; cbn [andb];
    [|eexists; reflexivity].
  destruct (items_joinable recommendations "risks");
    destruct Hr as [risks Hr]; rewrite Hr; eexists; reflexivity.
Qed.

(** X25: [generate_final_prompt] first renders the recommendations; when
    the key features or the risks cannot be joined (a number, a boolean,
    null, or a list with an item that is not a string) it raises before any
    request is made.  Otherwise, with a positive retry budget, it sends one
    request that carries the task description and the rendering, and
    returns the response trimmed when the response is a non-empty text (so a
    response of whitespace only gives the empty prompt, not an error); an
    absent or empty response raises [ValueError]. *)
Theorem X25_generate_final_prompt (py_str join_error : json -> str)
        (cfg : config) (tpl : templates) (task : str)
        (recommendations : pydict json) (w : world) :
  (0 < MAX_RETRIES cfg)%Z ->
  let gen := generate_final_prompt py_str join_error cfg tpl task
               recommendations w in
  let renders := items_joinable recommendations "key_features"
                 && items_joinable recommendations "risks" in
  (renders = false -> exists detail, gen = (Raise (OtherException detail), w))
  /\ (renders = true ->
      exists text,
        recommendations_text py_str join_error recommendations w
        = (Ok text, w)
        /\ let request := EvRequest (PHASE3_SYSTEM_PROMPT tpl)
                                    (final_prompt_message task text) in
           (forall r,
               service w (requests w) = Responds (Some r) -> r <> [] ->
               gen = (Ok (strip r), after_log w 1 [request])
               /\ (all_ws r -> gen = (Ok [], after_log w 1 [request])))
           /\ (service w (requests w) = Responds None
               \/ service w (requests w) = Responds (Some []) ->
               gen = (Raise (ValueError msg_no_prompt),
                      after_log w 1 [request]))).
Proof.
  intros Hmax gen renders. subst gen.
  pose proof (recommendations_text_cases py_str join_error recommendations w)
    as Ht.
  fold renders in Ht. unfold generate_final_prompt. split; intros Hr;
    rewrite Hr in Ht.
  - destruct Ht as [detail Ht]. exists detail. unfold bind at 1.
    rewrite Ht. reflexivity.
  - destruct Ht as [text Ht]. exists text. split; [exact Ht|].
    cbv zeta. unfold bind at 1 3 5. rewrite Ht. split.
    + intros r Hs Hne.
      assert (E : (response <- _call_with_retry cfg (PHASE3_SYSTEM_PROMPT tpl)
                                 (final_prompt_message task text)
                                 (MAX_RETRIES cfg) ;;
                   match response with
                   | Some r =>
                       if truthy r then ret (strip r)
                       else raise (ValueError msg_no_prompt)
                   | None => raise (ValueError msg_no_prompt)
                   end) w
                  = (Ok (strip r),
                     after_log w 1
                       [EvRequest (PHASE3_SYSTEM_PROMPT tpl)
                                  (final_prompt_message task text)])).
      { unfold bind.
        rewrite (call_with_retry_first_response _ _ _ _ _ Hmax Hs).
        destruct r; [contradiction | reflexivity]. }
      split; [exact E|]. intros Hws. rewrite E, (strip_all_ws _ Hws).
      reflexivity.
    + intros [Hs|Hs]; unfold bind;
        rewrite (call_with_retry_first_response _ _ _ _ _ Hmax Hs);
        reflexivity.
Qed.

Lemma X25_generate_final_prompt_witness :
  let tpl := Templates [] [] [] in
  let recs := [(py "tech_stack", JString (py "postgres"));
               (py "key_features", JArray [JString (py "login");
                                           JString (py "search")])] in
  let w := fresh_world (fun _ => Responds (Some (py "  "))) in
  (generate_final_prompt (fun _ => []) (fun _ => []) repository_config tpl
     (py "todo app") recs w).1
  = Ok [].
Proof.
  intros tpl recs w.
  destruct (proj2 (X25_generate_final_prompt (fun _ => []) (fun _ => [])
                     repository_config tpl (py "todo app") recs w
                     ltac:(reflexivity)) ltac:(reflexivity))
    as (text & _ & Hok & _).
  rewrite (proj2 (Hok (py "  ") ltac:(reflexivity) ltac:(discriminate))
             ltac:(repeat constructor)).
  reflexivity.
Defined.

(** ** A section addressed by its own key *)

Lemma find_first {A : Type} (f : A -> bool) (l : list A) :
  forall (n : nat) (x : A),
    l !! n = Some x -> f x = true ->
    exists (i : nat) (y : A),
      (i <= n)%nat /\ l !! i = Some y /\ List.find f l = Some y
      /\ f y = true
      /\ forall (j : nat) (z : A),
           (j < i)%nat -> l !! j = Some z -> f z = false.
Proof.
  induction l as [|a l IH]; intros n x Hn Hx; [discriminate Hn|].
  cbn [List.find]. destruct (f a) eqn:Ha.
  - exists 0%nat, a. repeat split; try reflexivity; try lia; try exact Ha;
      intros j z Hj; lia.
  - destruct n as [|n]; [cbn in Hn; injection Hn as ->; congruence|].
    cbn in Hn. destruct (IH n x Hn Hx) as (i & y & Hi & Hy & Hf & Hfy & Hlt).
    exists (S i), y. repeat split; try assumption; try lia.
    intros [|j] z Hj Hz; cbn in Hz.
    + injection Hz as <-. exact Ha.
    + apply (Hlt j z); [lia | exact Hz].
Qed.

Lemma name_matches_refl (k : str) : name_matches k k = true.
Proof.
  unfold name_matches.
  change (contains (lower k) (lower k))
    with (contains (lower k) ([] ++ lower k)).
  rewrite contains_suffix. reflexivity.
Qed.

(** X26: in a document with a recognized heading, [update_section] called
    with the [n]-th entry of [get_section_list] as the section name and a
    body without heading line replaces the content of the first section
    whose key is related to that entry by containment, case-insensitively,
    in one direction or the other; that section is at position [n] or
    before it, and it is the [n]-th section itself when no earlier key is
    so related.  The section list and the other contents stay as they
    were. *)
Theorem X26_update_section_by_key (prompt body k : str) (n : nat) :
  heading_lines prompt <> [] ->
  no_heading body ->
  get_section_list prompt !! n = Some k ->
  let updated := parse_sections (update_section prompt k body) in
  get_section_list (update_section prompt k body) = get_section_list prompt
  /\ (exists (i : nat) (target : str),
         (i <= n)%nat
         /\ get_section_list prompt !! i = Some target
         /\ name_matches k target = true
         /\ (forall (j : nat) (kj : str),
               (j < i)%nat -> get_section_list prompt !! j = Some kj ->
               name_matches k kj = false)
         /\ dict_get target updated = Some (strip body)
         /\ forall k', k' <> target ->
              dict_get k' updated = dict_get k' (parse_sections prompt))
  /\ ((forall (j : nat) (kj : str),
          (j < n)%nat -> get_section_list prompt !! j = Some kj ->
          name_matches k kj = false) ->
      dict_get k updated = Some (strip body)
      /\ forall k', k' <> k ->
           dict_get k' updated = dict_get k' (parse_sections prompt)).
Proof.
  intros Hh Hb Hn updated.
  destruct (find_first (name_matches k) (get_section_list prompt) n k Hn
              (name_matches_refl k))
    as (i & target & Hi & Hti & Hfind & Hm & Hlt).
  assert (Hk : In target (dict_keys (parse_sections prompt)))
    by exact (lookup_In _ _ _ Hti).
  assert (E : updated = dict_set target (strip body) (parse_sections prompt)).
  { subst updated. unfold update_section.
    rewrite (update_sections_matched _ _ _ _ Hfind (key_truthy _ _ Hh Hk)).
    apply parse_rebuild_set; assumption. }
  assert (Hframe : dict_get target updated = Some (strip body)
                   /\ forall k', k' <> target ->
                        dict_get k' updated
                        = dict_get k' (parse_sections prompt)).
  { rewrite E. split; [apply dict_get_set_same|].
    intros k' Hk'. apply dict_get_set_other, Hk'. }
  split; [|split].
  - unfold get_section_list. fold updated. rewrite E.
    apply dict_keys_set_present, Hk.
  - exists i, target. repeat split; try assumption; apply Hframe.
  - intros Hfirst.
    assert (Hin : i = n).
    { destruct (Nat.eq_dec i n) as [->|Hne]; [reflexivity|].
      assert (Hlt' : (i < n)%nat) by lia.
      rewrite (Hfirst i target Hlt' Hti) in Hm. discriminate Hm. }
    subst i. rewrite Hti in Hn. injection Hn as ->. exact Hframe.
Qed.

Lemma X26_update_section_by_key_witness :
  let doc := doc_of ["# GOAL"; "x"; "# GOAL OUTPUT"; "y"]%string in
  let updated := parse_sections (update_section doc (py "# GOAL OUTPUT")
                                   (py "a report")) in
  get_section_list (update_section doc (py "# GOAL OUTPUT") (py "a report"))
  = get_section_list doc
  /\ dict_get (py "# GOAL") updated = Some (py "a report")
  /\ dict_get (py "# GOAL OUTPUT") updated = Some (py "y").
Proof.
  intros doc updated.
  destruct (X26_update_section_by_key doc (py "a report")
              (py "# GOAL OUTPUT") 1
              ltac:(vm_compute; discriminate)
              ltac:(lines_not_headings)
              ltac:(reflexivity)) as (Hkeys & _ & _).
  split; [exact Hkeys|]. vm_compute. split; reflexivity.
Defined.

(** ** The recommendations as shown to the user *)

Lemma add_text_shown (py_str : json -> str) (number_truthy : str -> bool)
      (text : str) (recommendations : pydict json) (key : string)
      (heading tail : str) :
  add_text py_str number_truthy text recommendations key heading tail
  = match shown_value number_truthy recommendations key with
    | Some v => text ++ heading ++ [NL] ++ format_value py_str v ++ tail
    | None => text
    end.
Proof.
  unfold add_text, shown_value.
  destruct (get_truthy number_truthy recommendations key); reflexivity.
Qed.

Lemma add_list_shown (py_str : json -> str) (number_truthy : str -> bool)
      (text : str) (recommendations : pydict json) (key : string)
      (heading : str) :
  add_list py_str number_truthy text recommendations key heading
  = match shown_value number_truthy recommendations key with
    | Some (JArray (x :: xs)) =>
        fold_left
          (fun text feature =>
             text ++ lit_bullet ++ format_value py_str feature ++ [NL])
          (x :: xs) (text ++ heading ++ [NL])
        ++ [NL]
    | _ => text
    end.
Proof.
  unfold add_list, shown_value.
  destruct (get_truthy number_truthy recommendations key); reflexivity.
Qed.

(** X27: [format_recommendations] depends on the record only through the
    values under its seven keys that are true in the sense of Python: two
    records that agree on those give the same text, so other keys, the
    order of the keys, and the difference between an absent key and a key
    with an empty or null value do not show. *)
Theorem X27_format_reads_shown_keys (py_str : json -> str)
        (number_truthy : str -> bool) (r1 r2 : pydict json) :
  (forall key, In key shown_keys ->
     shown_value number_truthy r1 key = shown_value number_truthy r2 key) ->
  format_recommendations py_str number_truthy r1
  = format_recommendations py_str number_truthy r2.
Proof.
  intros H. unfold format_recommendations. cbv zeta.
  rewrite !add_text_shown, !add_list_shown.
  rewrite !(H _) by (unfold shown_keys; cbn; tauto).
  reflexivity.
Qed.

Lemma X27_format_reads_shown_keys_witness :
  let r1 := [(py "note", JNull); (py "risks", JArray []);
             (py "tech_stack", JString (py "postgres"))] in
  let r2 := [(py "tech_stack", JString (py "postgres"))] in
  format_recommendations (fun _ => []) (fun _ => true) r1
  = format_recommendations (fun _ => []) (fun _ => true) r2.
Proof.
  intros r1 r2.
  apply (X27_format_reads_shown_keys (fun _ => []) (fun _ => true) r1 r2).
  intros key Hkey. unfold shown_keys in Hkey. cbn in Hkey.
  repeat (destruct Hkey as [<-|Hkey]; [reflexivity|]). contradiction.
Defined.

Lemma fallback_members_shown (py_str : json -> str)
      (number_truthy : str -> bool) (tech summary : str) :
  tech <> [] -> summary <> [] ->
  format_recommendations py_str number_truthy
    [ (py "tech_stack", JString tech);
      (py "architecture", JString placeholder);
      (py "key_features", JArray []);
      (py "scalability", JString placeholder);
      (py "compliance", JString placeholder);
      (py "risks", JArray []);
      (py "recommendation_summary", JString summary) ]
  = fallback_shown tech summary.
Proof.
  intros Ht Hs. destruct tech as [|c tech]; [contradiction|].
  destruct summary as [|c' summary]; [contradiction|].
  unfold format_recommendations, add_text, add_list, get_truthy, item.
  cbv zeta. cbn [dict_get].
  repeat match goal with
         | |- context [str_eqb ?a ?b] =>
             let v := eval vm_compute in (str_eqb a b) in
             change (str_eqb a b) with v
         end.
  cbv iota. cbn [json_truthy truthy format_value].
  change (truthy placeholder) with true. cbv iota.
  unfold fallback_shown. rewrite <- !app_assoc. reflexivity.
Qed.

(** X28: what the user is shown when the response of the service could not
    be read as JSON: the header, the technology stack (the first 200
    characters of the response when it has no pair of braces, the
    placeholder when the braced part does not parse), the placeholder under
    architecture, scalability and compliance, no key features, no risks,
    and the whole response as the summary. *)
Theorem X28_fallback_shown (py_str : json -> str)
        (number_truthy : str -> bool) (json_loads : str -> loads_outcome)
        (response : str) :
  response <> [] ->
  (has_brace_pair response = false ->
   exists record,
     normalize_recommendations json_loads response = Ok record
     /\ format_recommendations py_str number_truthy (members_of record)
        = fallback_shown (firstn 200 response) response)
  /\ (has_brace_pair response = true ->
      json_loads (brace_substring response) = DecodeError ->
      exists record,
        normalize_recommendations json_loads response = Ok record
        /\ format_recommendations py_str number_truthy (members_of record)
           = fallback_shown placeholder response).
Proof.
  intros Hne. split.
  - intros Hb. exists (text_fallback response).
    split; [apply (normalize_no_brace_pair _ _ Hb)|].
    unfold text_fallback, members_of. rewrite firstn_200_conditional.
    apply fallback_members_shown; [|exact Hne].
    destruct response; [contradiction | discriminate].
  - intros Hb Hd. exists (decode_error_fallback response).
    split; [apply (normalize_decode_error _ _ Hb Hd)|].
    unfold decode_error_fallback, members_of.
    apply fallback_members_shown; [discriminate | exact Hne].
Qed.

Lemma X28_fallback_shown_witness :
  exists record,
    normalize_recommendations (fun _ => DecodeError) (py "use postgres")
    = Ok record
    /\ format_recommendations (fun _ => []) (fun _ => true)
         (members_of record)
       = fallback_shown (py "use postgres") (py "use postgres").
Proof.
  exact (proj1 (X28_fallback_shown (fun _ => []) (fun _ => true)
                  (fun _ => DecodeError) (py "use postgres")
                  ltac:(discriminate))
           ltac:(reflexivity)).
Defined.
